(** * back-lab: the user and analysis CRUD handlers over a document store

    A shallow embedding of [models/User.js], [models/Analisis.js],
    [routes/users.js] and the analysis router, together with the part
    of the object-document mapper the handlers rely on (schema
    validators, setters and defaults, [save] with its pre-save hooks,
    [find], [findById], [findByIdAndUpdate], [findByIdAndDelete] and
    unique indexes).

    Modelling boundary.  A body is modelled after the mapper has cast
    it to the schema's types: a record with one optional, well-typed
    entry per schema path (other keys are dropped by the schema's strict
    mode; update operators and null entries are not modelled), and the
    store answers every operation (a lost connection is not modelled).
    The [:id] path parameter is a string that the mapper casts to an
    ObjectId when the query runs: the handlers [route_get_by_id],
    [route_put] and [route_delete] of each router take the string, and
    the cast of the driver as a parameter; [get_by_id], [put] and
    [delete] are what they do once the string has been cast to an
    ObjectId.  A record has no key order, so the order of the messages
    in a [details] array is not the code's, and the statements speak
    of its members.  Strings are sequences of 8-bit code units, numbers
    are integers, a date is its number of milliseconds.  The messages
    of the mapper's own errors are abbreviated. *)

From stdpp Require Import gmap strings list.
From Stdlib Require Import ZArith Ascii String.

Local Open Scope Z_scope.
Local Open Scope string_scope.

(** ** JavaScript strings, regular expressions and values *)

Module Js.

Definition charCode (c : ascii) : N := N_of_ascii c.

Definition between (lo hi : N) (c : ascii) : bool :=
  ((lo <=? charCode c) && (charCode c <=? hi))%N.

(** White space as [String.prototype.trim] sees it, below code 256. *)
Definition isWhiteSpace (c : ascii) : bool :=
  between 9 13 c || (charCode c =? 32)%N || (charCode c =? 160)%N.

Fixpoint trimStart (s : string) : string :=
  match s with
  | String c r => if isWhiteSpace c then trimStart r else s
  | EmptyString => EmptyString
  end.

Fixpoint trimEnd (s : string) : string :=
  match s with
  | String c r =>
      match trimEnd r with
      | EmptyString => if isWhiteSpace c then EmptyString else String c EmptyString
      | r' => String c r'
      end
  | EmptyString => EmptyString
  end.

Definition trim (s : string) : string := trimEnd (trimStart s).

Definition lowerChar (c : ascii) : ascii :=
  if between 65 90 c || (between 192 222 c && negb (charCode c =? 215)%N)
  then ascii_of_N (charCode c + 32)
  else c.

Fixpoint toLowerCase (s : string) : string :=
  match s with
  | String c r => String (lowerChar c) (toLowerCase r)
  | EmptyString => EmptyString
  end.

(** Regular expressions without captures, tested against a whole
    string (the patterns of the schemas are anchored with ^ and $). *)
Inductive CharSet : Type :=
| Word : CharSet                     (* \w *)
| OneOf : list ascii -> CharSet.     (* a literal character or [...] *)

Definition wordChar (c : ascii) : bool :=
  between 48 57 c || between 65 90 c || between 97 122 c || (charCode c =? 95)%N.

Definition inCharSet (cs : CharSet) (c : ascii) : bool :=
  match cs with
  | Word => wordChar c
  | OneOf l => bool_decide (c ∈ l)
  end.

Inductive RegExp : Type :=
| Fail : RegExp
| Eps : RegExp
| Class : CharSet -> RegExp
| Seq : RegExp -> RegExp -> RegExp
| Or : RegExp -> RegExp -> RegExp
| Star : RegExp -> RegExp.

Definition Plus (r : RegExp) : RegExp := Seq r (Star r).
Definition Opt (r : RegExp) : RegExp := Or Eps r.

#[global] Instance CharSet_eq_dec : EqDecision CharSet.
Proof. solve_decision. Defined.

#[global] Instance RegExp_eq_dec : EqDecision RegExp.
Proof. solve_decision. Defined.

Fixpoint nullable (r : RegExp) : bool :=
  match r with
  | Fail => false
  | Eps => true
  | Class _ => false
  | Seq a b => nullable a && nullable b
  | Or a b => nullable a || nullable b
  | Star _ => true
  end.

(** Sequence and choice that drop what cannot match and what is
    repeated, so that the residuals of a pattern stay small. *)
Definition seq (a b : RegExp) : RegExp :=
  match a, b with
  | Fail, _ => Fail
  | _, Fail => Fail
  | Eps, _ => b
  | _, _ => Seq a b
  end.

Fixpoint alternatives (r : RegExp) : list RegExp :=
  match r with
  | Fail => []
  | Or a b => alternatives a ++ alternatives b
  | _ => [r]
  end.

Fixpoint choice (l : list RegExp) : RegExp :=
  match l with
  | [] => Fail
  | [r] => r
  | r :: rest => Or r (choice rest)
  end.

Definition or (a b : RegExp) : RegExp :=
  choice (remove_dups (alternatives a ++ alternatives b)).

(** What is left of the pattern after the character [c]. *)
Fixpoint deriv (c : ascii) (r : RegExp) : RegExp :=
  match r with
  | Fail => Fail
  | Eps => Fail
  | Class cs => if inCharSet cs c then Eps else Fail
  | Seq a b =>
      if nullable a then or (seq (deriv c a) b) (deriv c b)
      else seq (deriv c a) b
  | Or a b => or (deriv c a) (deriv c b)
  | Star a => seq (deriv c a) (Star a)
  end.

(** [regExp.test(s)] *)
Fixpoint test (r : RegExp) (s : string) : bool :=
  match s with
  | EmptyString => nullable r
  | String c s' => test (deriv c r) s'
  end.

(** The strings a pattern stands for; [test] decides it
    ([test_Matches] below). *)
Inductive Matches : RegExp -> string -> Prop :=
| MEps : Matches Eps ""
| MClass cs c : inCharSet cs c = true -> Matches (Class cs) (String c "")
| MSeq a b s1 s2 : Matches a s1 -> Matches b s2 -> Matches (Seq a b) (s1 ++ s2)
| MOrL a b s : Matches a s -> Matches (Or a b) s
| MOrR a b s : Matches b s -> Matches (Or a b) s
| MStarNil a : Matches (Star a) ""
| MStarApp a s1 s2 : Matches a s1 -> Matches (Star a) s2 -> Matches (Star a) (s1 ++ s2).

(** Values handed to [res.json].  A date is kept as a date and an
    ObjectId as an ObjectId; an object is its list of own properties
    in the order the source writes them. *)
#[local] Set Warnings "-register-all".
Inductive Value : Type :=
| Bool : bool -> Value
| Num : Z -> Value
| Str : string -> Value
| Date : Z -> Value
| ObjectId : N -> Value
| Arr : list Value -> Value
| Obj : list (string * Value) -> Value.

(** An object literal some of whose properties may be [undefined]:
    serialisation leaves those properties out. *)
Definition object (props : list (string * option Value)) : Value :=
  Obj (omap (fun p => pair p.1 <$> p.2) props).

Fixpoint lookupProp (k : string) (props : list (string * Value)) : option Value :=
  match props with
  | [] => None
  | (k', v) :: rest => if String.eqb k k' then Some v else lookupProp k rest
  end.

Definition prop (k : string) (v : Value) : option Value :=
  match v with
  | Obj props => lookupProp k props
  | _ => None
  end.

Definition removeProp (k : string) (v : Value) : Value :=
  match v with
  | Obj props => Obj (filter (fun p => p.1 <> k) props)
  | _ => v
  end.

End Js.

(** ** Express responses *)

Record Response : Type := { status : Z; body : Js.Value }.

Definition res_status (code : Z) (payload : Js.Value) : Response :=
  {| status := code; body := payload |}.

(** [res.json(payload)] without a preceding [res.status] answers 200. *)
Definition res_json (payload : Js.Value) : Response := res_status 200 payload.

(** ** The object-document mapper *)

Module Mongoose.

(** What an operation of the mapper can throw: a validation error with
    one message per failing path, an error of the store (a violated
    unique index has code 11000), or the error of a value that cannot
    be cast to the type of its path. *)
Inductive Error : Type :=
| ValidationError (message : string) (errors : list (string * string))
| MongoServerError (code : Z) (message : string)
| CastError (message : string).

Definition error_name (e : Error) : string :=
  match e with
  | ValidationError _ _ => "ValidationError"
  | MongoServerError _ _ => "MongoServerError"
  | CastError _ => "CastError"
  end.

Definition error_code (e : Error) : option Z :=
  match e with
  | ValidationError _ _ => None
  | MongoServerError c _ => Some c
  | CastError _ => None
  end.

Definition error_message (e : Error) : string :=
  match e with
  | ValidationError m _ => m
  | MongoServerError _ m => m
  | CastError m => m
  end.

Definition error_errors (e : Error) : list (string * string) :=
  match e with
  | ValidationError _ errs => errs
  | MongoServerError _ _ => []
  | CastError _ => []
  end.

(** A collection of documents by [_id], with the process state the
    mapper reads: the counter behind fresh ObjectIds and the clock
    behind [Date.now()], whose [n]-th reading is [clock n]. *)
Record Db (D : Type) : Type := {
  docs : gmap N D;
  nextId : N;
  clock : nat -> Z;
  ticks : nat
}.
Arguments docs {D} _.
Arguments nextId {D} _.
Arguments clock {D} _.
Arguments ticks {D} _.

Definition setDocs {D} (m : gmap N D) (db : Db D) : Db D :=
  {| docs := m; nextId := nextId db; clock := clock db; ticks := ticks db |}.

Inductive Outcome (A : Type) : Type :=
| Return (a : A)
| Throw (e : Error).
Arguments Return {A} a.
Arguments Throw {A} e.

(** Computations that read and write the collection and may throw. *)
Definition M (D A : Type) : Type := Db D -> Outcome A * Db D.

Definition ret {D A} (a : A) : M D A := fun db => (Return a, db).

Definition bind {D A B} (m : M D A) (k : A -> M D B) : M D B :=
  fun db =>
    match m db with
    | (Return a, db') => k a db'
    | (Throw e, db') => (Throw e, db')
    end.

Definition throw {D A} (e : Error) : M D A := fun db => (Throw e, db).

(** [try { m } catch (error) { h error }] when the handler only builds
    a value. *)
Definition try_catch {D A} (m : M D A) (h : Error -> A) : Db D -> A * Db D :=
  fun db =>
    match m db with
    | (Return a, db') => (a, db')
    | (Throw e, db') => (h e, db')
    end.

Declare Scope js_scope.
Delimit Scope js_scope with js.
Notation "'let*' x := m 'in' k" := (bind m (fun x => k))
  (at level 10, x name, m at level 100, k at level 200) : js_scope.
Notation "m ;;; k" := (bind m (fun _ => k))
  (at level 100, k at level 200, right associativity) : js_scope.
Local Open Scope js_scope.

Definition Date_now {D} : M D Z :=
  fun db =>
    (Return (clock db (ticks db)),
     {| docs := docs db; nextId := nextId db; clock := clock db; ticks := S (ticks db) |}).

Definition newObjectId {D} : M D N :=
  fun db =>
    (Return (nextId db),
     {| docs := docs db; nextId := N.succ (nextId db); clock := clock db; ticks := ticks db |}).

(** A path takes its default only when the body has no value for it. *)
Definition orDefault {D A} (value : option A) (dflt : M D A) : M D A :=
  match value with
  | Some v => ret v
  | None => dflt
  end.

(** *** Schema validators *)

Record Validator (A : Type) : Type := {
  isRequired : bool;
  validator : option A -> bool;
  message : option A -> string
}.
Arguments isRequired {A} _.
Arguments validator {A} _.
Arguments message {A} _.

(** A path without a value is only checked by its required validator;
    the first validator that fails gives the path's error. *)
Fixpoint doValidate {A} (validators : list (Validator A)) (value : option A) : option string :=
  match validators with
  | [] => None
  | v :: rest =>
      if (match value with None => negb (isRequired v) | Some _ => false end)
         || validator v value
      then doValidate rest value
      else Some (message v value)
  end.

Definition required (msg : string) : Validator string :=
  {| isRequired := true;
     validator := fun value =>
       match value with Some s => negb (String.eqb s "") | None => false end;
     message := fun _ => msg |}.

Definition maxlength (n : nat) (msg : string) : Validator string :=
  {| isRequired := false;
     validator := fun value =>
       match value with Some s => (String.length s <=? n)%nat | None => true end;
     message := fun _ => msg |}.

Definition match_ (re : Js.RegExp) (msg : string) : Validator string :=
  {| isRequired := false;
     validator := fun value =>
       match value with
       | Some s => if String.eqb s "" then true else Js.test re s
       | None => true
       end;
     message := fun _ => msg |}.

Definition min (n : Z) (msg : string) : Validator Z :=
  {| isRequired := false;
     validator := fun value => match value with Some x => (n <=? x)%Z | None => true end;
     message := fun _ => msg |}.

Definition max (n : Z) (msg : string) : Validator Z :=
  {| isRequired := false;
     validator := fun value => match value with Some x => (x <=? n)%Z | None => true end;
     message := fun _ => msg |}.

Definition enum (path : string) (values : list string) : Validator string :=
  {| isRequired := false;
     validator := fun value =>
       match value with Some s => bool_decide (s ∈ values) | None => true end;
     message := fun value =>
       "`" ++ default "" value ++ "` is not a valid enum value for path `" ++ path ++ "`." |}.

(** The message of a required validator declared as [required: true]. *)
Definition requiredMessage (path : string) : string :=
  "Path `" ++ path ++ "` is required.".

(** The errors of a document or of an update: each path with the
    message of its failing validator. *)
Definition pathError (path : string) (err : option string) : list (string * string) :=
  match err with
  | Some msg => [(path, msg)]
  | None => []
  end.

(** Update validators only look at the paths the update sets. *)
Definition updateError {A} (path : string) (validators : list (Validator A))
    (value : option A) : list (string * string) :=
  match value with
  | Some _ => pathError path (doValidate validators value)
  | None => []
  end.

Fixpoint join (sep : string) (l : list string) : string :=
  match l with
  | [] => ""
  | [x] => x
  | x :: rest => x ++ sep ++ join sep rest
  end.

Definition validationError (head : string) (errs : list (string * string)) : Error :=
  ValidationError
    (head ++ ": " ++ join ", " ((fun e => e.1 ++ ": " ++ e.2) <$> errs))
    errs.

(** *** Models *)

Record Options : Type := { new : bool; runValidators : bool }.

(** What [mongoose.model(name, schema)] takes from the schema of
    documents [D] built from bodies [B]. *)
Record Model (D B : Type) : Type := {
  modelName : string;
  (** [new Model(body)]: setters, defaults and a fresh [_id] *)
  construct : B -> M D D;
  get_id : D -> N;
  (** the version key [__v] *)
  setVersion : option Z -> D -> D;
  (** the validators of every path, on a document *)
  validateDoc : D -> list (string * string);
  (** the hooks registered with [schema.pre('save', ...)] *)
  preSave : D -> M D D;
  (** the path declared [unique: true] and its value in a document *)
  uniquePath : string;
  uniqueKey : D -> option string;
  (** an update with the setters of its paths applied *)
  castUpdate : B -> B;
  (** the validators of the paths an update sets *)
  validateUpdate : B -> list (string * string);
  (** the update written into a document *)
  applyUpdate : B -> D -> D;
  toJSON : D -> Js.Value
}.
Arguments modelName {D B} _.
Arguments construct {D B} _ _ _.
Arguments get_id {D B} _ _.
Arguments setVersion {D B} _ _ _.
Arguments validateDoc {D B} _ _.
Arguments preSave {D B} _ _ _.
Arguments uniquePath {D B} _.
Arguments uniqueKey {D B} _ _.
Arguments castUpdate {D B} _ _.
Arguments validateUpdate {D B} _ _.
Arguments applyUpdate {D B} _ _ _.
Arguments toJSON {D B} _ _.

Section Operations.
Context {D B : Type} (model : Model D B).

(** Does a document other than [self] hold [key] at the unique path? *)
Definition duplicateKey (self : N) (key : option string) (m : gmap N D) : bool :=
  existsb (fun e => negb (e.1 =? self)%N && bool_decide (uniqueKey model e.2 = key))
          (map_to_list m).

Definition duplicateKeyError (key : option string) : Error :=
  MongoServerError 11000
    ("E11000 duplicate key error collection: " ++ modelName model
     ++ " index: " ++ uniquePath model ++ "_1 dup key: " ++ default "null" key).

(** [query.select('-__v')] on a query whose result is an [F] of
    documents: a [list] of them, or one or none ([option]). *)
Definition select_minus_v (F : Type -> Type) `{FMap F} (q : M D (F D)) : M D (F D) :=
  let* r := q in ret (setVersion model None <$> r).

Definition insertOne (d : D) : M D unit :=
  fun db =>
    if duplicateKey (get_id model d) (uniqueKey model d) (docs db)
    then (Throw (duplicateKeyError (uniqueKey model d)), db)
    else (Return tt, setDocs (<[get_id model d := d]> (docs db)) db).

(** [doc.save()] of a new document: validation, then the pre-save
    hooks, then the insert with version 0. *)
Definition save (d : D) : M D D :=
  match validateDoc model d with
  | [] =>
      let* d1 := preSave model d in
      let d2 := setVersion model (Some 0) d1 in
      insertOne d2 ;;;
      ret d2
  | errs => throw (validationError (modelName model ++ " validation failed") errs)
  end.

(** [Model.findByIdAndUpdate(id, update, options)]: the update is cast,
    validated when [runValidators] is set, and written to the document
    with that [_id] if there is one; no save hook runs.  With
    [new: true] the result is the document after the update. *)
Definition findByIdAndUpdate (id : N) (update : B) (options : Options) : M D (option D) :=
  let update' := castUpdate model update in
  match (if runValidators options then validateUpdate model update' else []) with
  | [] =>
      fun db =>
        match docs db !! id with
        | None => (Return None, db)
        | Some d =>
            let d' := applyUpdate model update' d in
            if duplicateKey id (uniqueKey model d') (docs db)
               && bool_decide (uniqueKey model d' <> uniqueKey model d)
            then (Throw (duplicateKeyError (uniqueKey model d')), db)
            else (Return (Some (if new options then d' else d)),
                  setDocs (<[id := d']> (docs db)) db)
        end
  | errs => throw (validationError "Validation failed" errs)
  end.

End Operations.

(** [Model.find(filter)], the filter given as the test it stands for. *)
Definition find {D B} (model : Model D B) (filter_ : D -> bool) : M D (list D) :=
  fun db => (Return (filter (fun d => filter_ d = true) ((map_to_list (docs db)).*2)), db).

Definition findById {D B} (model : Model D B) (id : N) : M D (option D) :=
  fun db => (Return (docs db !! id), db).

Definition findByIdAndDelete {D B} (model : Model D B) (id : N) : M D (option D) :=
  fun db =>
    match docs db !! id with
    | None => (Return None, db)
    | Some d => (Return (Some d), setDocs (delete id (docs db)) db)
    end.

(** *** Queries by a path parameter *)

(** The handlers pass [req.params.id], a string, where a query takes
    an [_id].  The query casts it when it runs, before anything else,
    and throws a CastError when the string is no ObjectId.  Which
    strings are ObjectIds is the driver's matter: [castObjectId] is its
    cast. *)
Module OfParam.
Section Queries.
Context {D B : Type} (model : Model D B).
Variable castObjectId : string -> option N.

Definition castError (value : string) : Error :=
  CastError ("Cast to ObjectId failed for value `" ++ value
             ++ "` (type string) at path `_id` for model `" ++ modelName model ++ "`").

Definition castId (id : string) : M D N :=
  match castObjectId id with
  | Some oid => ret oid
  | None => throw (castError id)
  end.

Definition findById (id : string) : M D (option D) :=
  let* oid := castId id in Mongoose.findById model oid.

Definition findByIdAndUpdate (id : string) (update : B) (options : Options) : M D (option D) :=
  let* oid := castId id in Mongoose.findByIdAndUpdate model oid update options.

Definition findByIdAndDelete (id : string) : M D (option D) :=
  let* oid := castId id in Mongoose.findByIdAndDelete model oid.

End Queries.
End OfParam.

End Mongoose.

(** ** models/User.js *)

Module UserModel.
Import Mongoose.
Local Open Scope js_scope.

Record Doc : Type := {
  _id : N;
  name : option string;
  email : option string;
  age : option Z;
  isActive : bool;
  createdAt : Z;
  updatedAt : Z;
  __v : option Z
}.

(** A request body: the entries it has for the paths of the schema. *)
Module Body.
Record t : Type := {
  name : option string;
  email : option string;
  age : option Z;
  isActive : option bool;
  createdAt : option Z;
  updatedAt : option Z
}.
End Body.

(** [/^\w+([.-]?\w+)*@\w+([.-]?\w+)*(\.\w{2,3})+$/] *)
Definition emailPattern : Js.RegExp :=
  let w := Js.Class Js.Word in
  let dotOrDash := Js.Class (Js.OneOf ["."; "-"]%char) in
  let words := Js.Seq (Js.Plus w) (Js.Star (Js.Seq (Js.Opt dotOrDash) (Js.Plus w))) in
  Js.Seq words
    (Js.Seq (Js.Class (Js.OneOf ["@"]%char))
       (Js.Seq words
          (Js.Plus (Js.Seq (Js.Class (Js.OneOf ["."]%char)) (Js.Seq w (Js.Seq w (Js.Opt w))))))).

Definition nameValidators : list (Validator string) :=
  [ required "El nombre es obligatorio";
    maxlength 50 "El nombre no puede tener más de 50 caracteres" ].

Definition emailValidators : list (Validator string) :=
  [ required "El email es obligatorio";
    match_ emailPattern "Por favor ingresa un email válido" ].

Definition ageValidators : list (Validator Z) :=
  [ min 0 "La edad no puede ser negativa";
    max 120 "La edad no puede ser mayor a 120" ].

(** The setters of the schema: [trim] on the name, [lowercase] and
    [trim] on the email. *)
Definition setName (s : string) : string := Js.trim s.
Definition setEmail (s : string) : string := Js.trim (Js.toLowerCase s).

(** [new User(body)] *)
Definition newUser (body : Body.t) : M Doc Doc :=
  let* id := newObjectId in
  let* active := orDefault (Body.isActive body) (ret true) in
  let* created := orDefault (Body.createdAt body) Date_now in
  let* updated := orDefault (Body.updatedAt body) Date_now in
  ret {| _id := id;
         name := setName <$> Body.name body;
         email := setEmail <$> Body.email body;
         age := Body.age body;
         isActive := active;
         createdAt := created;
         updatedAt := updated;
         __v := None |}.

Definition set_updatedAt (t : Z) (d : Doc) : Doc :=
  {| _id := _id d; name := name d; email := email d; age := age d;
     isActive := isActive d; createdAt := createdAt d; updatedAt := t; __v := __v d |}.

Definition set___v (v : option Z) (d : Doc) : Doc :=
  {| _id := _id d; name := name d; email := email d; age := age d;
     isActive := isActive d; createdAt := createdAt d; updatedAt := updatedAt d; __v := v |}.

(** [userSchema.pre('save', function(next) { this.updatedAt = Date.now(); next(); })] *)
Definition pre_save (this : Doc) : M Doc Doc :=
  let* now := Date_now in
  ret (set_updatedAt now this).

(** The failing paths of a document, each with its message.  The list
    stands for the [errors] object of the mapper's error; its order is
    the schema's here, the mapper's own order is not modelled. *)
Definition validate (d : Doc) : list (string * string) :=
  pathError "name" (doValidate nameValidators (name d))
  ++ pathError "email" (doValidate emailValidators (email d))
  ++ pathError "age" (doValidate ageValidators (age d)).

Definition castBody (body : Body.t) : Body.t :=
  {| Body.name := setName <$> Body.name body;
     Body.email := setEmail <$> Body.email body;
     Body.age := Body.age body;
     Body.isActive := Body.isActive body;
     Body.createdAt := Body.createdAt body;
     Body.updatedAt := Body.updatedAt body |}.

(** The failing paths among those an update supplies, in the order of
    the schema as well. *)
Definition validateBody (body : Body.t) : list (string * string) :=
  updateError "name" nameValidators (Body.name body)
  ++ updateError "email" emailValidators (Body.email body)
  ++ updateError "age" ageValidators (Body.age body).

(** The paths the body has replace those of the document. *)
Definition assign (body : Body.t) (d : Doc) : Doc :=
  {| _id := _id d;
     name := match Body.name body with Some v => Some v | None => name d end;
     email := match Body.email body with Some v => Some v | None => email d end;
     age := match Body.age body with Some v => Some v | None => age d end;
     isActive := default (isActive d) (Body.isActive body);
     createdAt := default (createdAt d) (Body.createdAt body);
     updatedAt := default (updatedAt d) (Body.updatedAt body);
     __v := __v d |}.

Definition toJSON (d : Doc) : Js.Value :=
  Js.object
    [ ("_id", Some (Js.ObjectId (_id d)));
      ("name", Js.Str <$> name d);
      ("email", Js.Str <$> email d);
      ("age", Js.Num <$> age d);
      ("isActive", Some (Js.Bool (isActive d)));
      ("createdAt", Some (Js.Date (createdAt d)));
      ("updatedAt", Some (Js.Date (updatedAt d)));
      ("__v", Js.Num <$> __v d) ].

(** [userSchema.methods.getPublicProfile] *)
Definition getPublicProfile (this : Doc) : Js.Value :=
  Js.object
    [ ("id", Some (Js.ObjectId (_id this)));
      ("name", Js.Str <$> name this);
      ("email", Js.Str <$> email this);
      ("age", Js.Num <$> age this);
      ("isActive", Some (Js.Bool (isActive this)));
      ("createdAt", Some (Js.Date (createdAt this))) ].

(** [mongoose.model('User', userSchema)] *)
Definition User : Model Doc Body.t :=
  {| modelName := "User";
     construct := newUser;
     get_id := _id;
     setVersion := set___v;
     validateDoc := validate;
     preSave := pre_save;
     uniquePath := "email";
     uniqueKey := email;
     castUpdate := castBody;
     validateUpdate := validateBody;
     applyUpdate := assign;
     Mongoose.toJSON := toJSON |}.

End UserModel.

(** ** models/Analisis.js *)

Module AnalisisModel.
Import Mongoose.
Local Open Scope js_scope.

Record Doc : Type := {
  _id : N;
  numero_analisis : option string;
  fecha_analisis : Z;
  tipo_analisis : option string;
  laboratorio : option string;
  tecnico_responsable : option string;
  observaciones : string;
  estado : string;
  createdAt : Z;
  updatedAt : Z;
  __v : option Z
}.

Module Body.
Record t : Type := {
  numero_analisis : option string;
  fecha_analisis : option Z;
  tipo_analisis : option string;
  laboratorio : option string;
  tecnico_responsable : option string;
  observaciones : option string;
  estado : option string;
  createdAt : option Z;
  updatedAt : option Z
}.
End Body.

Definition estados : list string :=
  ["pendiente"; "en_proceso"; "completado"; "cancelado"].

Definition requiredValidators (path : string) : list (Validator string) :=
  [ required (requiredMessage path) ].

Definition estadoValidators : list (Validator string) :=
  [ enum "estado" estados ].

(** [new Analisis(body)] *)
Definition newAnalisis (body : Body.t) : M Doc Doc :=
  let* id := newObjectId in
  let* fecha := orDefault (Body.fecha_analisis body) Date_now in
  let* obs := orDefault (Body.observaciones body) (ret "") in
  let* est := orDefault (Body.estado body) (ret "pendiente") in
  let* created := orDefault (Body.createdAt body) Date_now in
  let* updated := orDefault (Body.updatedAt body) Date_now in
  ret {| _id := id;
         numero_analisis := Body.numero_analisis body;
         fecha_analisis := fecha;
         tipo_analisis := Body.tipo_analisis body;
         laboratorio := Body.laboratorio body;
         tecnico_responsable := Body.tecnico_responsable body;
         observaciones := obs;
         estado := est;
         createdAt := created;
         updatedAt := updated;
         __v := None |}.

Definition set_updatedAt (t : Z) (d : Doc) : Doc :=
  {| _id := _id d; numero_analisis := numero_analisis d;
     fecha_analisis := fecha_analisis d; tipo_analisis := tipo_analisis d;
     laboratorio := laboratorio d; tecnico_responsable := tecnico_responsable d;
     observaciones := observaciones d; estado := estado d;
     createdAt := createdAt d; updatedAt := t; __v := __v d |}.

Definition set___v (v : option Z) (d : Doc) : Doc :=
  {| _id := _id d; numero_analisis := numero_analisis d;
     fecha_analisis := fecha_analisis d; tipo_analisis := tipo_analisis d;
     laboratorio := laboratorio d; tecnico_responsable := tecnico_responsable d;
     observaciones := observaciones d; estado := estado d;
     createdAt := createdAt d; updatedAt := updatedAt d; __v := v |}.

(** [analisisSchema.pre('save', function(next) { this.updatedAt = Date.now(); next(); })] *)
Definition pre_save (this : Doc) : M Doc Doc :=
  let* now := Date_now in
  ret (set_updatedAt now this).

(** The failing paths of a document, each with its message, in the
    order of the schema; the mapper's own order is not modelled. *)
Definition validate (d : Doc) : list (string * string) :=
  pathError "numero_analisis"
    (doValidate (requiredValidators "numero_analisis") (numero_analisis d))
  ++ pathError "tipo_analisis"
       (doValidate (requiredValidators "tipo_analisis") (tipo_analisis d))
  ++ pathError "laboratorio"
       (doValidate (requiredValidators "laboratorio") (laboratorio d))
  ++ pathError "tecnico_responsable"
       (doValidate (requiredValidators "tecnico_responsable") (tecnico_responsable d))
  ++ pathError "estado" (doValidate estadoValidators (Some (estado d))).

(** The schema declares no setter. *)
Definition castBody (body : Body.t) : Body.t := body.

(** The failing paths among those an update supplies. *)
Definition validateBody (body : Body.t) : list (string * string) :=
  updateError "numero_analisis" (requiredValidators "numero_analisis")
    (Body.numero_analisis body)
  ++ updateError "tipo_analisis" (requiredValidators "tipo_analisis")
       (Body.tipo_analisis body)
  ++ updateError "laboratorio" (requiredValidators "laboratorio")
       (Body.laboratorio body)
  ++ updateError "tecnico_responsable" (requiredValidators "tecnico_responsable")
       (Body.tecnico_responsable body)
  ++ updateError "estado" estadoValidators (Body.estado body).

Definition assign (body : Body.t) (d : Doc) : Doc :=
  {| _id := _id d;
     numero_analisis :=
       match Body.numero_analisis body with Some v => Some v | None => numero_analisis d end;
     fecha_analisis := default (fecha_analisis d) (Body.fecha_analisis body);
     tipo_analisis :=
       match Body.tipo_analisis body with Some v => Some v | None => tipo_analisis d end;
     laboratorio :=
       match Body.laboratorio body with Some v => Some v | None => laboratorio d end;
     tecnico_responsable :=
       match Body.tecnico_responsable body with
       | Some v => Some v
       | None => tecnico_responsable d
       end;
     observaciones := default (observaciones d) (Body.observaciones body);
     estado := default (estado d) (Body.estado body);
     createdAt := default (createdAt d) (Body.createdAt body);
     updatedAt := default (updatedAt d) (Body.updatedAt body);
     __v := __v d |}.

Definition toJSON (d : Doc) : Js.Value :=
  Js.object
    [ ("_id", Some (Js.ObjectId (_id d)));
      ("numero_analisis", Js.Str <$> numero_analisis d);
      ("fecha_analisis", Some (Js.Date (fecha_analisis d)));
      ("tipo_analisis", Js.Str <$> tipo_analisis d);
      ("laboratorio", Js.Str <$> laboratorio d);
      ("tecnico_responsable", Js.Str <$> tecnico_responsable d);
      ("observaciones", Some (Js.Str (observaciones d)));
      ("estado", Some (Js.Str (estado d)));
      ("createdAt", Some (Js.Date (createdAt d)));
      ("updatedAt", Some (Js.Date (updatedAt d)));
      ("__v", Js.Num <$> __v d) ].

(** [mongoose.model('Analisis', analisisSchema, 'analisis')] *)
Definition Analisis : Model Doc Body.t :=
  {| modelName := "Analisis";
     construct := newAnalisis;
     get_id := _id;
     setVersion := set___v;
     validateDoc := validate;
     preSave := pre_save;
     uniquePath := "numero_analisis";
     uniqueKey := numero_analisis;
     castUpdate := castBody;
     validateUpdate := validateBody;
     applyUpdate := assign;
     Mongoose.toJSON := toJSON |}.

End AnalisisModel.

(** ** routes/users.js *)

Module UsersRouter.
Import Mongoose UserModel.
Local Open Scope js_scope.

Definition Handler : Type := Db Doc -> Response * Db Doc.

(** [GET /api/users] *)
Definition get_all : Handler :=
  try_catch
    (let* users := select_minus_v User list (find User (fun u => isActive u)) in
     ret (res_json (Js.Obj
       [ ("success", Js.Bool true);
         ("count", Js.Num (Z.of_nat (List.length users)));
         ("data", Js.Arr (toJSON <$> users)) ])))
    (fun error =>
       res_status 500 (Js.Obj
         [ ("success", Js.Bool false);
           ("error", Js.Str "Error al obtener usuarios");
           ("details", Js.Str (error_message error)) ])).

(** [GET /api/users/:id], the parameter cast to the ObjectId [id] *)
Definition get_by_id (id : N) : Handler :=
  try_catch
    (let* user := select_minus_v User option (findById User id) in
     match user with
     | None =>
         ret (res_status 404 (Js.Obj
           [ ("success", Js.Bool false);
             ("error", Js.Str "Usuario no encontrado") ]))
     | Some user =>
         ret (res_json (Js.Obj
           [ ("success", Js.Bool true);
             ("data", toJSON user) ]))
     end)
    (fun error =>
       res_status 500 (Js.Obj
         [ ("success", Js.Bool false);
           ("error", Js.Str "Error al obtener el usuario");
           ("details", Js.Str (error_message error)) ])).

(** [POST /api/users] *)
Definition post (body : Body.t) : Handler :=
  try_catch
    (let* user := construct User body in
     let* savedUser := save User user in
     ret (res_status 201 (Js.Obj
       [ ("success", Js.Bool true);
         ("message", Js.Str "Usuario creado exitosamente");
         ("data", getPublicProfile savedUser) ])))
    (fun error =>
       if bool_decide (error_code error = Some 11000) then
         res_status 400 (Js.Obj
           [ ("success", Js.Bool false);
             ("error", Js.Str "El email ya está registrado") ])
       else if String.eqb (error_name error) "ValidationError" then
         let validationErrors := Js.Str <$> (error_errors error).*2 in
         res_status 400 (Js.Obj
           [ ("success", Js.Bool false);
             ("error", Js.Str "Errores de validación");
             ("details", Js.Arr validationErrors) ])
       else
         res_status 500 (Js.Obj
           [ ("success", Js.Bool false);
             ("error", Js.Str "Error al crear el usuario");
             ("details", Js.Str (error_message error)) ])).

(** [PUT /api/users/:id], the parameter cast to the ObjectId [id] *)
Definition put (id : N) (body : Body.t) : Handler :=
  try_catch
    (let* user := select_minus_v User option
       (findByIdAndUpdate User id body {| new := true; runValidators := true |}) in
     match user with
     | None =>
         ret (res_status 404 (Js.Obj
           [ ("success", Js.Bool false);
             ("error", Js.Str "Usuario no encontrado") ]))
     | Some user =>
         ret (res_json (Js.Obj
           [ ("success", Js.Bool true);
             ("message", Js.Str "Usuario actualizado exitosamente");
             ("data", toJSON user) ]))
     end)
    (fun error =>
       if String.eqb (error_name error) "ValidationError" then
         let validationErrors := Js.Str <$> (error_errors error).*2 in
         res_status 400 (Js.Obj
           [ ("success", Js.Bool false);
             ("error", Js.Str "Errores de validación");
             ("details", Js.Arr validationErrors) ])
       else
         res_status 500 (Js.Obj
           [ ("success", Js.Bool false);
             ("error", Js.Str "Error al actualizar el usuario");
             ("details", Js.Str (error_message error)) ])).

(** The update [{ isActive: false }] of the soft delete. *)
Definition deactivate : Body.t :=
  {| Body.name := None; Body.email := None; Body.age := None;
     Body.isActive := Some false; Body.createdAt := None; Body.updatedAt := None |}.

(** [DELETE /api/users/:id], the parameter cast to the ObjectId [id] *)
Definition delete (id : N) : Handler :=
  try_catch
    (let* user := findByIdAndUpdate User id deactivate
                    {| new := true; runValidators := false |} in
     match user with
     | None =>
         ret (res_status 404 (Js.Obj
           [ ("success", Js.Bool false);
             ("error", Js.Str "Usuario no encontrado") ]))
     | Some _ =>
         ret (res_json (Js.Obj
           [ ("success", Js.Bool true);
             ("message", Js.Str "Usuario eliminado exitosamente") ]))
     end)
    (fun error =>
       res_status 500 (Js.Obj
         [ ("success", Js.Bool false);
           ("error", Js.Str "Error al eliminar el usuario");
           ("details", Js.Str (error_message error)) ])).

(** The three handlers of [/:id] as Express calls them, with
    [req.params.id] as it comes. *)
Section Routes.
Variable castObjectId : string -> option N.

(** [GET /api/users/:id] *)
Definition route_get_by_id (id : string) : Handler :=
  try_catch
    (let* user := select_minus_v User option (OfParam.findById User castObjectId id) in
     match user with
     | None =>
         ret (res_status 404 (Js.Obj
           [ ("success", Js.Bool false);
             ("error", Js.Str "Usuario no encontrado") ]))
     | Some user =>
         ret (res_json (Js.Obj
           [ ("success", Js.Bool true);
             ("data", toJSON user) ]))
     end)
    (fun error =>
       res_status 500 (Js.Obj
         [ ("success", Js.Bool false);
           ("error", Js.Str "Error al obtener el usuario");
           ("details", Js.Str (error_message error)) ])).

(** [PUT /api/users/:id] *)
Definition route_put (id : string) (body : Body.t) : Handler :=
  try_catch
    (let* user := select_minus_v User option
       (OfParam.findByIdAndUpdate User castObjectId id body
          {| new := true; runValidators := true |}) in
     match user with
     | None =>
         ret (res_status 404 (Js.Obj
           [ ("success", Js.Bool false);
             ("error", Js.Str "Usuario no encontrado") ]))
     | Some user =>
         ret (res_json (Js.Obj
           [ ("success", Js.Bool true);
             ("message", Js.Str "Usuario actualizado exitosamente");
             ("data", toJSON user) ]))
     end)
    (fun error =>
       if String.eqb (error_name error) "ValidationError" then
         let validationErrors := Js.Str <$> (error_errors error).*2 in
         res_status 400 (Js.Obj
           [ ("success", Js.Bool false);
             ("error", Js.Str "Errores de validación");
             ("details", Js.Arr validationErrors) ])
       else
         res_status 500 (Js.Obj
           [ ("success", Js.Bool false);
             ("error", Js.Str "Error al actualizar el usuario");
             ("details", Js.Str (error_message error)) ])).

(** [DELETE /api/users/:id] *)
Definition route_delete (id : string) : Handler :=
  try_catch
    (let* user := OfParam.findByIdAndUpdate User castObjectId id deactivate
                    {| new := true; runValidators := false |} in
     match user with
     | None =>
         ret (res_status 404 (Js.Obj
           [ ("success", Js.Bool false);
             ("error", Js.Str "Usuario no encontrado") ]))
     | Some _ =>
         ret (res_json (Js.Obj
           [ ("success", Js.Bool true);
             ("message", Js.Str "Usuario eliminado exitosamente") ]))
     end)
    (fun error =>
       res_status 500 (Js.Obj
         [ ("success", Js.Bool false);
           ("error", Js.Str "Error al eliminar el usuario");
           ("details", Js.Str (error_message error)) ])).

End Routes.

End UsersRouter.

(** ** The analysis router *)

Module AnalisisRouter.
Import Mongoose AnalisisModel.
Local Open Scope js_scope.

Definition Handler : Type := Db Doc -> Response * Db Doc.

(** [req.query] *)
Record Query : Type := { q_estado : option string; q_laboratorio : option string }.

(** The filter object: the conditions it has been given. *)
Record Filter : Type := { f_estado : option string; f_laboratorio : option string }.

(** A string is truthy unless it is empty; [undefined] is not. *)
Definition truthy (s : option string) : bool :=
  match s with
  | Some s => negb (String.eqb s "")
  | None => false
  end.

Definition buildFilter (query : Query) : Filter :=
  let filter_ := {| f_estado := None; f_laboratorio := None |} in
  let filter_ :=
    if truthy (q_estado query)
    then {| f_estado := q_estado query; f_laboratorio := f_laboratorio filter_ |}
    else filter_ in
  let filter_ :=
    if truthy (q_laboratorio query)
    then {| f_estado := f_estado filter_; f_laboratorio := q_laboratorio query |}
    else filter_ in
  filter_.

(** Does a document satisfy every condition of the filter? *)
Definition satisfies (filter_ : Filter) (d : Doc) : bool :=
  match f_estado filter_ with
  | Some s => String.eqb (estado d) s
  | None => true
  end
  && match f_laboratorio filter_ with
     | Some s => bool_decide (laboratorio d = Some s)
     | None => true
     end.

(** [GET /api/analisis] *)
Definition get_all (query : Query) : Handler :=
  try_catch
    (let filter_ := buildFilter query in
     let* analisis := select_minus_v Analisis list (find Analisis (satisfies filter_)) in
     ret (res_json (Js.Obj
       [ ("success", Js.Bool true);
         ("count", Js.Num (Z.of_nat (List.length analisis)));
         ("data", Js.Arr (toJSON <$> analisis)) ])))
    (fun error =>
       res_status 500 (Js.Obj
         [ ("success", Js.Bool false);
           ("error", Js.Str "Error al obtener análisis");
           ("details", Js.Str (error_message error)) ])).

(** [GET /api/analisis/:id], the parameter cast to the ObjectId [id] *)
Definition get_by_id (id : N) : Handler :=
  try_catch
    (let* analisis := select_minus_v Analisis option (findById Analisis id) in
     match analisis with
     | None =>
         ret (res_status 404 (Js.Obj
           [ ("success", Js.Bool false);
             ("error", Js.Str "Análisis no encontrado") ]))
     | Some analisis =>
         ret (res_json (Js.Obj
           [ ("success", Js.Bool true);
             ("data", toJSON analisis) ]))
     end)
    (fun error =>
       res_status 500 (Js.Obj
         [ ("success", Js.Bool false);
           ("error", Js.Str "Error al obtener el análisis");
           ("details", Js.Str (error_message error)) ])).

(** [POST /api/analisis] *)
Definition post (body : Body.t) : Handler :=
  try_catch
    (let* analisis := construct Analisis body in
     let* savedAnalisis := save Analisis analisis in
     ret (res_status 201 (Js.Obj
       [ ("success", Js.Bool true);
         ("message", Js.Str "Análisis creado exitosamente");
         ("data", toJSON savedAnalisis) ])))
    (fun error =>
       if bool_decide (error_code error = Some 11000) then
         res_status 400 (Js.Obj
           [ ("success", Js.Bool false);
             ("error", Js.Str "El número de análisis ya existe") ])
       else if String.eqb (error_name error) "ValidationError" then
         let validationErrors := Js.Str <$> (error_errors error).*2 in
         res_status 400 (Js.Obj
           [ ("success", Js.Bool false);
             ("error", Js.Str "Errores de validación");
             ("details", Js.Arr validationErrors) ])
       else
         res_status 500 (Js.Obj
           [ ("success", Js.Bool false);
             ("error", Js.Str "Error al crear el análisis");
             ("details", Js.Str (error_message error)) ])).

(** [PUT /api/analisis/:id], the parameter cast to the ObjectId [id] *)
Definition put (id : N) (body : Body.t) : Handler :=
  try_catch
    (let* analisis := select_minus_v Analisis option
       (findByIdAndUpdate Analisis id body {| new := true; runValidators := true |}) in
     match analisis with
     | None =>
         ret (res_status 404 (Js.Obj
           [ ("success", Js.Bool false);
             ("error", Js.Str "Análisis no encontrado") ]))
     | Some analisis =>
         ret (res_json (Js.Obj
           [ ("success", Js.Bool true);
             ("message", Js.Str "Análisis actualizado exitosamente");
             ("data", toJSON analisis) ]))
     end)
    (fun error =>
       res_status 500 (Js.Obj
         [ ("success", Js.Bool false);
           ("error", Js.Str "Error al actualizar el análisis");
           ("details", Js.Str (error_message error)) ])).

(** [DELETE /api/analisis/:id], the parameter cast to the ObjectId [id] *)
Definition delete (id : N) : Handler :=
  try_catch
    (let* analisis := findByIdAndDelete Analisis id in
     match analisis with
     | None =>
         ret (res_status 404 (Js.Obj
           [ ("success", Js.Bool false);
             ("error", Js.Str "Análisis no encontrado") ]))
     | Some _ =>
         ret (res_json (Js.Obj
           [ ("success", Js.Bool true);
             ("message", Js.Str "Análisis eliminado exitosamente") ]))
     end)
    (fun error =>
       res_status 500 (Js.Obj
         [ ("success", Js.Bool false);
           ("error", Js.Str "Error al eliminar el análisis");
           ("details", Js.Str (error_message error)) ])).

(** The three handlers of [/:id] as Express calls them, with
    [req.params.id] as it comes. *)
Section Routes.
Variable castObjectId : string -> option N.

(** [GET /api/analisis/:id] *)
Definition route_get_by_id (id : string) : Handler :=
  try_catch
    (let* analisis := select_minus_v Analisis option
       (OfParam.findById Analisis castObjectId id) in
     match analisis with
     | None =>
         ret (res_status 404 (Js.Obj
           [ ("success", Js.Bool false);
             ("error", Js.Str "Análisis no encontrado") ]))
     | Some analisis =>
         ret (res_json (Js.Obj
           [ ("success", Js.Bool true);
             ("data", toJSON analisis) ]))
     end)
    (fun error =>
       res_status 500 (Js.Obj
         [ ("success", Js.Bool false);
           ("error", Js.Str "Error al obtener el análisis");
           ("details", Js.Str (error_message error)) ])).

(** [PUT /api/analisis/:id] *)
Definition route_put (id : string) (body : Body.t) : Handler :=
  try_catch
    (let* analisis := select_minus_v Analisis option
       (OfParam.findByIdAndUpdate Analisis castObjectId id body
          {| new := true; runValidators := true |}) in
     match analisis with
     | None =>
         ret (res_status 404 (Js.Obj
           [ ("success", Js.Bool false);
             ("error", Js.Str "Análisis no encontrado") ]))
     | Some analisis =>
         ret (res_json (Js.Obj
           [ ("success", Js.Bool true);
             ("message", Js.Str "Análisis actualizado exitosamente");
             ("data", toJSON analisis) ]))
     end)
    (fun error =>
       res_status 500 (Js.Obj
         [ ("success", Js.Bool false);
           ("error", Js.Str "Error al actualizar el análisis");
           ("details", Js.Str (error_message error)) ])).

(** [DELETE /api/analisis/:id] *)
Definition route_delete (id : string) : Handler :=
  try_catch
    (let* analisis := OfParam.findByIdAndDelete Analisis castObjectId id in
     match analisis with
     | None =>
         ret (res_status 404 (Js.Obj
           [ ("success", Js.Bool false);
             ("error", Js.Str "Análisis no encontrado") ]))
     | Some _ =>
         ret (res_json (Js.Obj
           [ ("success", Js.Bool true);
             ("message", Js.Str "Análisis eliminado exitosamente") ]))
     end)
    (fun error =>
       res_status 500 (Js.Obj
         [ ("success", Js.Bool false);
           ("error", Js.Str "Error al eliminar el análisis");
           ("details", Js.Str (error_message error)) ])).

End Routes.

End AnalisisRouter.

(** ** Requests and runs of each router *)

Inductive UserRequest : Type :=
| UGetAll
| UGetById (id : N)
| UPost (body : UserModel.Body.t)
| UPut (id : N) (body : UserModel.Body.t)
| UDelete (id : N).

Definition handleUser (r : UserRequest) : UsersRouter.Handler :=
  match r with
  | UGetAll => UsersRouter.get_all
  | UGetById id => UsersRouter.get_by_id id
  | UPost body => UsersRouter.post body
  | UPut id body => UsersRouter.put id body
  | UDelete id => UsersRouter.delete id
  end.

Inductive AnalisisRequest : Type :=
| AGetAll (query : AnalisisRouter.Query)
| AGetById (id : N)
| APost (body : AnalisisModel.Body.t)
| APut (id : N) (body : AnalisisModel.Body.t)
| ADelete (id : N).

Definition handleAnalisis (r : AnalisisRequest) : AnalisisRouter.Handler :=
  match r with
  | AGetAll query => AnalisisRouter.get_all query
  | AGetById id => AnalisisRouter.get_by_id id
  | APost body => AnalisisRouter.post body
  | APut id body => AnalisisRouter.put id body
  | ADelete id => AnalisisRouter.delete id
  end.

(** The store after a sequence of requests, served one after another. *)
Definition serve {R D} (handle : R -> Mongoose.Db D -> Response * Mongoose.Db D)
    (requests : list R) (db : Mongoose.Db D) : Mongoose.Db D :=
  fold_left (fun db r => (handle r db).2) requests db.

(** The store the server starts with: an empty collection. *)
Definition emptyDb {D} (clock : nat -> Z) : Mongoose.Db D :=
  {| Mongoose.docs := ∅; Mongoose.nextId := 0; Mongoose.clock := clock; Mongoose.ticks := 0 |}.

(** ** Vocabulary of the statements *)

(** [haystack.includes(needle)] *)
Fixpoint startsWith (needle haystack : string) : bool :=
  match needle, haystack with
  | EmptyString, _ => true
  | String a n', String b h' => Ascii.eqb a b && startsWith n' h'
  | String _ _, EmptyString => false
  end.

Fixpoint includes (needle haystack : string) : bool :=
  startsWith needle haystack
  || match haystack with
     | String _ h' => includes needle h'
     | EmptyString => false
     end.

(** The records in the [data] array of a list response, and the
    [_id] of a record. *)
Definition dataOf (r : Response) : list Js.Value :=
  match Js.prop "data" (body r) with
  | Some (Js.Arr l) => l
  | _ => []
  end.

Definition idOf (v : Js.Value) : option N :=
  match Js.prop "_id" v with
  | Some (Js.ObjectId n) => Some n
  | _ => None
  end.

Definition listedIds (r : Response) : list N := omap idOf (dataOf r).

(** Every document is stored under its own [_id], and ObjectIds yet to
    be generated are not in use. *)
Definition consistent {D B} (model : Mongoose.Model D B) (db : Mongoose.Db D) : Prop :=
  forall i d, Mongoose.docs db !! i = Some d ->
    Mongoose.get_id model d = i /\ (i < Mongoose.nextId db)%N.

(** The envelopes of the failures. *)
Definition notFound (what : string) : Response :=
  res_status 404 (Js.Obj [ ("success", Js.Bool false); ("error", Js.Str what) ]).

Definition conflict (what : string) : Response :=
  res_status 400 (Js.Obj [ ("success", Js.Bool false); ("error", Js.Str what) ]).

Definition validationFailed (errs : list (string * string)) : Response :=
  res_status 400 (Js.Obj
    [ ("success", Js.Bool false);
      ("error", Js.Str "Errores de validación");
      ("details", Js.Arr (Js.Str <$> errs.*2)) ]).

Definition serverError (what : string) (error : Mongoose.Error) : Response :=
  res_status 500 (Js.Obj
    [ ("success", Js.Bool false);
      ("error", Js.Str what);
      ("details", Js.Str (Mongoose.error_message error)) ]).

(** The [details] array of a response, as messages. *)
Definition detailsOf (r : Response) : list string :=
  match Js.prop "details" (body r) with
  | Some (Js.Arr l) => omap (fun v => match v with Js.Str s => Some s | _ => None end) l
  | _ => []
  end.

(** A validator that applies to the value of its path and rejects it. *)
Definition violated {A} (v : Mongoose.Validator A) (value : option A) : Prop :=
  (value = None -> Mongoose.isRequired v = true) /\ Mongoose.validator v value = false.

(** [msg] is the message of a violated validator of a path with the
    given validators and value. *)
Definition pathViolation {A} (validators : list (Mongoose.Validator A))
    (value : option A) (msg : string) : Prop :=
  exists v, v ∈ validators /\ violated v value /\ msg = Mongoose.message v value.

(** [msg] is the message of a schema constraint that the document
    violates. *)
Definition userViolation (d : UserModel.Doc) (msg : string) : Prop :=
  pathViolation UserModel.nameValidators (UserModel.name d) msg
  \/ pathViolation UserModel.emailValidators (UserModel.email d) msg
  \/ pathViolation UserModel.ageValidators (UserModel.age d) msg.

Definition analisisViolation (d : AnalisisModel.Doc) (msg : string) : Prop :=
  pathViolation (AnalisisModel.requiredValidators "numero_analisis")
    (AnalisisModel.numero_analisis d) msg
  \/ pathViolation (AnalisisModel.requiredValidators "tipo_analisis")
       (AnalisisModel.tipo_analisis d) msg
  \/ pathViolation (AnalisisModel.requiredValidators "laboratorio")
       (AnalisisModel.laboratorio d) msg
  \/ pathViolation (AnalisisModel.requiredValidators "tecnico_responsable")
       (AnalisisModel.tecnico_responsable d) msg
  \/ pathViolation AnalisisModel.estadoValidators (Some (AnalisisModel.estado d)) msg.


(** The body [{ isActive: true }]. *)
Definition reactivate : UserModel.Body.t :=
  {| UserModel.Body.name := None; UserModel.Body.email := None;
     UserModel.Body.age := None; UserModel.Body.isActive := Some true;
     UserModel.Body.createdAt := None; UserModel.Body.updatedAt := None |}.

(** *** Sample requests and stores *)

Definition sampleClock (n : nat) : Z := 1000 + 10 * Z.of_nat n.

Definition userBody (name email : option string) (age : option Z) : UserModel.Body.t :=
  {| UserModel.Body.name := name; UserModel.Body.email := email;
     UserModel.Body.age := age; UserModel.Body.isActive := None;
     UserModel.Body.createdAt := None; UserModel.Body.updatedAt := None |}.

Definition ana : UserModel.Body.t := userBody (Some "Ana") (Some "ana@x.com") (Some 30).
Definition bea : UserModel.Body.t := userBody (Some "Bea") (Some "bea@x.com") None.

(** The users after [POST ana], [POST bea]. *)
Definition twoUsers : Mongoose.Db UserModel.Doc :=
  serve handleUser [UPost ana; UPost bea] (emptyDb sampleClock).

Definition analisisBody (numero tipo lab tecnico estado : option string) : AnalisisModel.Body.t :=
  {| AnalisisModel.Body.numero_analisis := numero;
     AnalisisModel.Body.fecha_analisis := None;
     AnalisisModel.Body.tipo_analisis := tipo;
     AnalisisModel.Body.laboratorio := lab;
     AnalisisModel.Body.tecnico_responsable := tecnico;
     AnalisisModel.Body.observaciones := None;
     AnalisisModel.Body.estado := estado;
     AnalisisModel.Body.createdAt := None;
     AnalisisModel.Body.updatedAt := None |}.

Definition a001 : AnalisisModel.Body.t :=
  analisisBody (Some "A-001") (Some "sangre") (Some "Central") (Some "Luz") None.
Definition a002 : AnalisisModel.Body.t :=
  analisisBody (Some "A-002") (Some "orina") (Some "Norte") (Some "Paz") (Some "en_proceso").

(** The analyses after [POST a001], [POST a002]. *)
Definition twoAnalisis : Mongoose.Db AnalisisModel.Doc :=
  serve handleAnalisis [APost a001; APost a002] (emptyDb sampleClock).

(** *** A cast for the path parameter *)

(** The ObjectId that a string of 24 hexadecimal digits stands for, as
    a number; no other string is cast. *)
Definition hexDigit (c : ascii) : option N :=
  let n := N_of_ascii c in
  if (48 <=? n)%N && (n <=? 57)%N then Some (n - 48)%N
  else if (97 <=? n)%N && (n <=? 102)%N then Some (n - 87)%N
  else if (65 <=? n)%N && (n <=? 70)%N then Some (n - 55)%N
  else None.

Fixpoint hexValue (acc : N) (s : string) : option N :=
  match s with
  | EmptyString => Some acc
  | String c rest =>
      match hexDigit c with
      | Some d => hexValue (16 * acc + d)%N rest
      | None => None
      end
  end.

Definition hexObjectId (s : string) : option N :=
  if (String.length s =? 24)%nat then hexValue 0 s else None.

(** The ids of the first two records of a collection, as strings. *)
Definition id0 : string := "000000000000000000000000".
Definition id1 : string := "000000000000000000000001".

(** *** Invariants of a collection *)

(** No two documents hold the same value at the unique path. *)
Definition uniqueIndex {D B} (model : Mongoose.Model D B) (m : gmap N D) : Prop :=
  forall i j d d', m !! i = Some d -> m !! j = Some d' ->
    Mongoose.uniqueKey model d = Mongoose.uniqueKey model d' -> i = j.

(** A user as the validators and setters of the schema leave it: a
    trimmed, non-empty name of at most 50 characters, a trimmed,
    lower-case email that matches the pattern, an age from 0 to 120 if
    there is one. *)
Definition wellFormedUser (u : UserModel.Doc) : Prop :=
  (exists n, UserModel.name u = Some n /\ n <> "" /\ (String.length n <= 50)%nat
             /\ Js.trim n = n)
  /\ (exists e, UserModel.email u = Some e /\ Js.test UserModel.emailPattern e = true
                /\ Js.trim e = e /\ Js.toLowerCase e = e)
  /\ (forall a, UserModel.age u = Some a -> 0 <= a <= 120).

(** An analysis as the validators of the schema leave it: the four
    required paths hold non-empty strings, the state is one of the
    four. *)
Definition wellFormedAnalisis (a : AnalisisModel.Doc) : Prop :=
  (exists n, AnalisisModel.numero_analisis a = Some n /\ n <> "")
  /\ (exists t, AnalisisModel.tipo_analisis a = Some t /\ t <> "")
  /\ (exists l, AnalisisModel.laboratorio a = Some l /\ l <> "")
  /\ (exists r, AnalisisModel.tecnico_responsable a = Some r /\ r <> "")
  /\ AnalisisModel.estado a ∈ AnalisisModel.estados.

(** The characters of a string. *)
Fixpoint chars (s : string) : list ascii :=
  match s with
  | EmptyString => []
  | String c r => c :: chars r
  end.

(** The characters a pattern can consume. *)
Fixpoint alphabet (r : Js.RegExp) (c : ascii) : bool :=
  match r with
  | Js.Fail | Js.Eps => false
  | Js.Class cs => Js.inCharSet cs c
  | Js.Seq a b | Js.Or a b => alphabet a c || alphabet b c
  | Js.Star a => alphabet a c
  end.

(** The body [{ estado: s }]. *)
Definition estadoUpdate (s : string) : AnalisisModel.Body.t :=
  analisisBody None None None None (Some s).

(** * Properties *)

Import Mongoose.

Arguments UserModel.toJSON : simpl never.
Arguments UserModel.getPublicProfile : simpl never.
Arguments AnalisisModel.toJSON : simpl never.

(** ** Sanity checks of the embedding *)

Example email_accepted : Js.test UserModel.emailPattern "ana.lopez@mail.example.org" = true.
Proof. vm_compute. reflexivity. Qed.

Example email_rejected : Js.test UserModel.emailPattern "ana@x" = false.
Proof. vm_compute. reflexivity. Qed.

Example setters_of_email : UserModel.setEmail "  Ana@X.com " = "ana@x.com".
Proof. vm_compute. reflexivity. Qed.

Example post_ana :
  (UsersRouter.post ana (emptyDb sampleClock)).1
  = res_status 201 (Js.Obj
      [ ("success", Js.Bool true);
        ("message", Js.Str "Usuario creado exitosamente");
        ("data", Js.Obj
           [ ("id", Js.ObjectId 0); ("name", Js.Str "Ana");
             ("email", Js.Str "ana@x.com"); ("age", Js.Num 30);
             ("isActive", Js.Bool true); ("createdAt", Js.Date 1000) ]) ]).
Proof. vm_compute. reflexivity. Qed.

(** ** The regular expression engine *)

Lemma append_empty_l (s : string) : "" ++ s = s.
Proof. reflexivity. Qed.

Lemma append_cons (c : ascii) (s t : string) : String c s ++ t = String c (s ++ t).
Proof. reflexivity. Qed.

Lemma append_empty_r (s : string) : s ++ "" = s.
Proof.
  induction s as [|c s IH]; [reflexivity |]. rewrite append_cons, IH. reflexivity.
Qed.

Lemma append_assoc (s1 s2 s3 : string) : (s1 ++ s2) ++ s3 = s1 ++ (s2 ++ s3).
Proof.
  induction s1 as [|c s1 IH]; [reflexivity |]. rewrite !append_cons, IH. reflexivity.
Qed.

Lemma append_eq_empty (s1 s2 : string) : s1 ++ s2 = "" -> s1 = "" /\ s2 = "".
Proof.
  destruct s1 as [|c s1]; [rewrite append_empty_l; intros ->; split; reflexivity |].
  rewrite append_cons. discriminate.
Qed.

Lemma append_eq_cons (s1 s2 : string) (c : ascii) (s : string) :
  s1 ++ s2 = String c s ->
  (s1 = "" /\ s2 = String c s) \/ (exists s1', s1 = String c s1' /\ s = s1' ++ s2).
Proof.
  destruct s1 as [|c' s1']; intros H.
  - left. split; [reflexivity | exact H].
  - right. rewrite append_cons in H. injection H as -> <-.
    exists s1'. split; reflexivity.
Qed.

Lemma Matches_Fail (s : string) : ~ Js.Matches Js.Fail s.
Proof. intros H. inversion H. Qed.

Lemma Matches_Eps (s : string) : Js.Matches Js.Eps s <-> s = "".
Proof. split; [intros H; inversion H; reflexivity | intros ->; constructor]. Qed.

Lemma Matches_Seq (a b : Js.RegExp) (s : string) :
  Js.Matches (Js.Seq a b) s
  <-> exists s1 s2, s = s1 ++ s2 /\ Js.Matches a s1 /\ Js.Matches b s2.
Proof.
  split.
  - intros H. inversion H; subst. eexists _, _. repeat split; eassumption.
  - intros (s1 & s2 & -> & H1 & H2). constructor; assumption.
Qed.

Lemma Matches_Or (a b : Js.RegExp) (s : string) :
  Js.Matches (Js.Or a b) s <-> Js.Matches a s \/ Js.Matches b s.
Proof.
  split.
  - intros H. inversion H; subst; [left | right]; assumption.
  - intros [H|H]; [apply Js.MOrL | apply Js.MOrR]; exact H.
Qed.

Lemma Matches_nullable (r : Js.RegExp) (s : string) :
  Js.Matches r s -> s = "" -> Js.nullable r = true.
Proof.
  induction 1 as [|cs c Hc|a b s1 s2 _ IH1 _ IH2|a b s _ IH|a b s _ IH| |];
    intros Hs; simpl; try reflexivity; try discriminate.
  - apply append_eq_empty in Hs as [-> ->]. rewrite IH1, IH2; reflexivity.
  - rewrite (IH Hs). reflexivity.
  - rewrite (IH Hs). apply orb_true_r.
Qed.

Lemma nullable_Matches (r : Js.RegExp) : Js.nullable r = true <-> Js.Matches r "".
Proof.
  split; [| intros H; exact (Matches_nullable r "" H eq_refl)].
  induction r as [| |cs|a IHa b IHb|a IHa b IHb|a IHa]; simpl; intros H;
    try discriminate.
  - constructor.
  - apply andb_true_iff in H as [Ha Hb].
    exact (Js.MSeq a b "" "" (IHa Ha) (IHb Hb)).
  - apply orb_true_iff in H as [Ha|Hb]; [apply Js.MOrL, IHa, Ha | apply Js.MOrR, IHb, Hb].
  - constructor.
Qed.

Lemma seq_Matches (a b : Js.RegExp) (s : string) :
  Js.Matches (Js.seq a b) s <-> Js.Matches (Js.Seq a b) s.
Proof.
  assert (HF1 : forall b', Js.Matches Js.Fail s <-> Js.Matches (Js.Seq Js.Fail b') s).
  { intros b'. split; intros H; [inversion H |].
    apply Matches_Seq in H as (s1 & s2 & _ & H1 & _). inversion H1. }
  assert (HF2 : forall a', Js.Matches Js.Fail s <-> Js.Matches (Js.Seq a' Js.Fail) s).
  { intros a'. split; intros H; [inversion H |].
    apply Matches_Seq in H as (s1 & s2 & _ & _ & H2). inversion H2. }
  assert (HE : forall b', Js.Matches b' s <-> Js.Matches (Js.Seq Js.Eps b') s).
  { intros b'. split; intros H.
    - exact (Js.MSeq Js.Eps b' "" s Js.MEps H).
    - apply Matches_Seq in H as (s1 & s2 & -> & H1 & H2).
      apply Matches_Eps in H1 as ->. exact H2. }
  destruct a, b; simpl; try apply HF1; try apply HF2; try apply HE; reflexivity.
Qed.

Lemma choice_Matches (l : list Js.RegExp) (s : string) :
  Js.Matches (Js.choice l) s <-> exists r, r ∈ l /\ Js.Matches r s.
Proof.
  induction l as [|r l IH].
  - simpl. split; [intros H; inversion H |].
    intros (r & Hr & _). apply elem_of_nil in Hr. contradiction.
  - destruct l as [|r' l].
    + simpl. split.
      * intros H. exists r. split; [apply list_elem_of_here | exact H].
      * intros (r0 & Hr0 & H). apply list_elem_of_singleton in Hr0 as ->. exact H.
    + change (Js.choice (r :: r' :: l)) with (Js.Or r (Js.choice (r' :: l))).
      rewrite Matches_Or, IH. split.
      * intros [H | (r0 & Hr0 & H)].
        -- exists r. split; [apply list_elem_of_here | exact H].
        -- exists r0. split; [apply list_elem_of_further, Hr0 | exact H].
      * intros (r0 & Hr0 & H). apply elem_of_cons in Hr0 as [-> | Hr0].
        -- left. exact H.
        -- right. exists r0. split; assumption.
Qed.

Lemma alternatives_Matches (r : Js.RegExp) (s : string) :
  (exists r', r' ∈ Js.alternatives r /\ Js.Matches r' s) <-> Js.Matches r s.
Proof.
  assert (Hone : forall r0, (exists r', r' ∈ [r0] /\ Js.Matches r' s) <-> Js.Matches r0 s).
  { intros r0. split.
    - intros (r' & Hr' & H). apply list_elem_of_singleton in Hr' as ->. exact H.
    - intros H. exists r0. split; [apply list_elem_of_here | exact H]. }
  induction r as [| |cs|a IHa b IHb|a IHa b IHb|a IHa]; simpl; try apply Hone.
  - split; [| intros H; inversion H].
    intros (r' & Hr' & _). apply elem_of_nil in Hr'. contradiction.
  - rewrite Matches_Or, <- IHa, <- IHb. split.
    + intros (r' & Hr' & H). apply elem_of_app in Hr' as [Hr'|Hr'];
        [left | right]; exists r'; split; assumption.
    + intros [(r' & Hr' & H) | (r' & Hr' & H)]; exists r';
        (split; [apply elem_of_app; tauto | exact H]).
Qed.

Lemma or_Matches (a b : Js.RegExp) (s : string) :
  Js.Matches (Js.or a b) s <-> Js.Matches a s \/ Js.Matches b s.
Proof.
  unfold Js.or. rewrite choice_Matches, <- (alternatives_Matches a), <- (alternatives_Matches b).
  split.
  - intros (r & Hr & H). apply elem_of_remove_dups, elem_of_app in Hr as [Hr|Hr];
      [left | right]; exists r; split; assumption.
  - intros [(r & Hr & H) | (r & Hr & H)]; exists r;
      (split; [apply elem_of_remove_dups, elem_of_app; tauto | exact H]).
Qed.

Lemma Matches_Star_cons (a : Js.RegExp) (c : ascii) (s : string) :
  Js.Matches (Js.Star a) (String c s)
  <-> exists s1 s2, s = s1 ++ s2 /\ Js.Matches a (String c s1) /\ Js.Matches (Js.Star a) s2.
Proof.
  split.
  - intros H. remember (Js.Star a) as r eqn:Hr. remember (String c s) as t eqn:Ht.
    revert s Ht.
    induction H as [| | | | | |a0 s1 s2 H1 _ H2 IH2]; intros rest Ht; try discriminate.
    injection Hr as ->.
    apply append_eq_cons in Ht as [[-> ->] | (s1' & -> & ->)].
    + apply IH2; reflexivity.
    + exists s1', s2. split; [reflexivity | split; assumption].
  - intros (s1 & s2 & -> & H1 & H2).
    exact (Js.MStarApp a (String c s1) s2 H1 H2).
Qed.

Lemma deriv_Matches (c : ascii) (r : Js.RegExp) (s : string) :
  Js.Matches (Js.deriv c r) s <-> Js.Matches r (String c s).
Proof.
  revert s. induction r as [| |cs|a IHa b IHb|a IHa b IHb|a IHa]; intros s; simpl.
  - split; intros H; inversion H.
  - split; intros H; inversion H.
  - destruct (Js.inCharSet cs c) eqn:Hc.
    + rewrite Matches_Eps. split; [intros ->; constructor; exact Hc |].
      intros H. inversion H. reflexivity.
    + split; intros H; inversion H; congruence.
  - assert (Hhead : Js.Matches (Js.seq (Js.deriv c a) b) s
                    <-> exists s1 s2, s = s1 ++ s2 /\ Js.Matches a (String c s1)
                                      /\ Js.Matches b s2).
    { rewrite seq_Matches, Matches_Seq. split.
      - intros (s1 & s2 & -> & H1 & H2). exists s1, s2. rewrite <- IHa. tauto.
      - intros (s1 & s2 & -> & H1 & H2). exists s1, s2. rewrite IHa. tauto. }
    rewrite (Matches_Seq a b (String c s)).
    destruct (Js.nullable a) eqn:Hn.
    + rewrite or_Matches, Hhead, IHb. split.
      * intros [(s1 & s2 & -> & H1 & H2) | H].
        -- exists (String c s1), s2. split; [reflexivity | split; assumption].
        -- exists "", (String c s). split; [reflexivity |].
           split; [apply nullable_Matches, Hn | exact H].
      * intros (s1 & s2 & Heq & H1 & H2). symmetry in Heq.
        apply append_eq_cons in Heq as [[-> ->] | (s1' & -> & ->)].
        -- right. exact H2.
        -- left. exists s1', s2. split; [reflexivity | split; assumption].
    + rewrite Hhead. split.
      * intros (s1 & s2 & -> & H1 & H2).
        exists (String c s1), s2. split; [reflexivity | split; assumption].
      * intros (s1 & s2 & Heq & H1 & H2). symmetry in Heq.
        apply append_eq_cons in Heq as [[-> ->] | (s1' & -> & ->)].
        -- apply nullable_Matches in H1. congruence.
        -- exists s1', s2. split; [reflexivity | split; assumption].
  - rewrite or_Matches, IHa, IHb, Matches_Or. reflexivity.
  - rewrite seq_Matches, Matches_Seq, Matches_Star_cons. split.
    + intros (s1 & s2 & -> & H1 & H2). exists s1, s2. rewrite <- IHa. tauto.
    + intros (s1 & s2 & -> & H1 & H2). exists s1, s2. rewrite IHa. tauto.
Qed.

(** [test] decides whether the whole string matches the pattern. *)
Theorem test_Matches (r : Js.RegExp) (s : string) :
  Js.test r s = true <-> Js.Matches r s.
Proof.
  revert r. induction s as [|c s IH]; intros r; simpl.
  - apply nullable_Matches.
  - rewrite IH. apply deriv_Matches.
Qed.

(** ** The read handlers *)

Lemma users_get_all_db (db : Db UserModel.Doc) : (UsersRouter.get_all db).2 = db.
Proof. reflexivity. Qed.

Lemma users_get_by_id_db (id : N) (db : Db UserModel.Doc) :
  (UsersRouter.get_by_id id db).2 = db.
Proof.
  unfold UsersRouter.get_by_id, try_catch, select_minus_v, bind, findById, ret.
  simpl. destruct (docs db !! id); reflexivity.
Qed.

Lemma analisis_get_all_db q (db : Db AnalisisModel.Doc) : (AnalisisRouter.get_all q db).2 = db.
Proof. reflexivity. Qed.

Lemma analisis_get_by_id_db (id : N) (db : Db AnalisisModel.Doc) :
  (AnalisisRouter.get_by_id id db).2 = db.
Proof.
  unfold AnalisisRouter.get_by_id, try_catch, select_minus_v, bind, findById, ret.
  simpl. destruct (docs db !! id); reflexivity.
Qed.

(** The documents [GET /api/users] answers with. *)
Lemma users_get_all_response (db : Db UserModel.Doc) :
  let users :=
    UserModel.set___v None
      <$> filter (fun u => UserModel.isActive u = true) ((map_to_list (docs db)).*2) in
  (UsersRouter.get_all db).1
  = res_json (Js.Obj
      [ ("success", Js.Bool true);
        ("count", Js.Num (Z.of_nat (List.length users)));
        ("data", Js.Arr (UserModel.toJSON <$> users)) ]).
Proof. reflexivity. Qed.

Lemma user_json_isActive (u : UserModel.Doc) :
  Js.prop "isActive" (UserModel.toJSON u) = Some (Js.Bool (UserModel.isActive u)).
Proof. destruct u as [i [n|] [e|] [a|] b c t [v|]]; reflexivity. Qed.

Lemma user_json_id (u : UserModel.Doc) :
  idOf (UserModel.toJSON u) = Some (UserModel._id u).
Proof. destruct u as [i [n|] [e|] [a|] b c t [v|]]; reflexivity. Qed.

(** C4: whatever the collection holds, every record in the [data]
    array of the user list response has [isActive] equal to [true]. *)
Theorem C4_user_list_only_active (db : Db UserModel.Doc) :
  status (UsersRouter.get_all db).1 = 200
  /\ Forall (fun record => Js.prop "isActive" record = Some (Js.Bool true))
            (dataOf (UsersRouter.get_all db).1).
Proof.
  split; [reflexivity|].
  rewrite users_get_all_response. unfold dataOf. simpl.
  rewrite !Forall_fmap. apply Forall_forall. intros u Hu.
  apply list_elem_of_filter in Hu as [Hactive _]. cbn beta.
  unfold compose. rewrite user_json_isActive. simpl. rewrite Hactive. reflexivity.
Qed.

(** ** What each write handler does *)

Lemma users_delete_missing (id : N) (db : Db UserModel.Doc) :
  docs db !! id = None ->
  UsersRouter.delete id db = (notFound "Usuario no encontrado", db).
Proof.
  intros H. unfold UsersRouter.delete, try_catch, bind, findByIdAndUpdate. simpl.
  rewrite H. reflexivity.
Qed.

Lemma users_delete_found (id : N) (db : Db UserModel.Doc) (u : UserModel.Doc) :
  docs db !! id = Some u ->
  UsersRouter.delete id db
  = (res_json (Js.Obj
       [ ("success", Js.Bool true);
         ("message", Js.Str "Usuario eliminado exitosamente") ]),
     setDocs (<[id := UserModel.assign UsersRouter.deactivate u]> (docs db)) db).
Proof.
  intros H. unfold UsersRouter.delete, try_catch, bind, findByIdAndUpdate. simpl.
  rewrite H. simpl.
  rewrite (bool_decide_eq_false_2 (UserModel.email u <> UserModel.email u)) by tauto.
  rewrite andb_false_r. reflexivity.
Qed.

Lemma users_put_invalid (id : N) (body : UserModel.Body.t) (db : Db UserModel.Doc) e es :
  UserModel.validateBody (UserModel.castBody body) = e :: es ->
  UsersRouter.put id body db = (validationFailed (e :: es), db).
Proof.
  intros H. unfold UsersRouter.put, try_catch, select_minus_v, bind, findByIdAndUpdate.
  simpl. rewrite H. reflexivity.
Qed.

Lemma users_put_missing (id : N) (body : UserModel.Body.t) (db : Db UserModel.Doc) :
  UserModel.validateBody (UserModel.castBody body) = [] ->
  docs db !! id = None ->
  UsersRouter.put id body db = (notFound "Usuario no encontrado", db).
Proof.
  intros Hv H. unfold UsersRouter.put, try_catch, select_minus_v, bind, findByIdAndUpdate.
  simpl. rewrite Hv, H. reflexivity.
Qed.

Lemma users_put_found (id : N) (body : UserModel.Body.t) (db : Db UserModel.Doc) u :
  UserModel.validateBody (UserModel.castBody body) = [] ->
  docs db !! id = Some u ->
  let u' := UserModel.assign (UserModel.castBody body) u in
  duplicateKey UserModel.User id (UserModel.email u') (docs db)
    && bool_decide (UserModel.email u' <> UserModel.email u) = false ->
  UsersRouter.put id body db
  = (res_json (Js.Obj
       [ ("success", Js.Bool true);
         ("message", Js.Str "Usuario actualizado exitosamente");
         ("data", UserModel.toJSON (UserModel.set___v None u')) ]),
     setDocs (<[id := u']> (docs db)) db).
Proof.
  intros Hv H u' Hdup.
  unfold UsersRouter.put, try_catch, select_minus_v, bind, findByIdAndUpdate.
  simpl. rewrite Hv, H. fold u'. simpl in Hdup |- *. rewrite Hdup. reflexivity.
Qed.

Lemma users_put_duplicate (id : N) (body : UserModel.Body.t) (db : Db UserModel.Doc) u :
  UserModel.validateBody (UserModel.castBody body) = [] ->
  docs db !! id = Some u ->
  let u' := UserModel.assign (UserModel.castBody body) u in
  duplicateKey UserModel.User id (UserModel.email u') (docs db)
    && bool_decide (UserModel.email u' <> UserModel.email u) = true ->
  UsersRouter.put id body db
  = (serverError "Error al actualizar el usuario"
       (duplicateKeyError UserModel.User (UserModel.email u')), db).
Proof.
  intros Hv H u' Hdup.
  unfold UsersRouter.put, try_catch, select_minus_v, bind, findByIdAndUpdate.
  simpl. rewrite Hv, H. fold u'. simpl in Hdup |- *. rewrite Hdup. reflexivity.
Qed.

Lemma newUser_run (body : UserModel.Body.t) (db : Db UserModel.Doc) :
  exists d db0,
    UserModel.newUser body db = (Return d, db0)
    /\ docs db0 = docs db /\ nextId db0 = N.succ (nextId db) /\ clock db0 = clock db
    /\ UserModel._id d = nextId db
    /\ UserModel.name d = UserModel.setName <$> UserModel.Body.name body
    /\ UserModel.email d = UserModel.setEmail <$> UserModel.Body.email body
    /\ UserModel.age d = UserModel.Body.age body
    /\ UserModel.isActive d = default true (UserModel.Body.isActive body)
    /\ UserModel.__v d = None.
Proof.
  destruct body as [n e a [act|] [c|] [u|]];
    (eexists; eexists; split; [reflexivity | repeat split]).
Qed.

Lemma users_post_invalid (body : UserModel.Body.t) (db db0 : Db UserModel.Doc) d e es :
  construct UserModel.User body db = (Return d, db0) ->
  UserModel.validate d = e :: es ->
  UsersRouter.post body db = (validationFailed (e :: es), db0).
Proof.
  intros H Hv. unfold UsersRouter.post, try_catch, bind. rewrite H.
  unfold save. simpl. rewrite Hv. reflexivity.
Qed.

Lemma users_post_duplicate (body : UserModel.Body.t) (db db0 : Db UserModel.Doc) d :
  construct UserModel.User body db = (Return d, db0) ->
  UserModel.validate d = [] ->
  duplicateKey UserModel.User (UserModel._id d) (UserModel.email d) (docs db0) = true ->
  UsersRouter.post body db
  = (conflict "El email ya está registrado", (Date_now db0).2).
Proof.
  intros H Hv Hdup. unfold UsersRouter.post, try_catch, bind. rewrite H.
  unfold save. simpl. rewrite Hv. unfold bind, insertOne. simpl.
  rewrite Hdup. reflexivity.
Qed.

Lemma users_post_created (body : UserModel.Body.t) (db db0 : Db UserModel.Doc) d :
  construct UserModel.User body db = (Return d, db0) ->
  UserModel.validate d = [] ->
  duplicateKey UserModel.User (UserModel._id d) (UserModel.email d) (docs db0) = false ->
  let d' := UserModel.set___v (Some 0) (UserModel.set_updatedAt (clock db0 (ticks db0)) d) in
  UsersRouter.post body db
  = (res_status 201 (Js.Obj
       [ ("success", Js.Bool true);
         ("message", Js.Str "Usuario creado exitosamente");
         ("data", UserModel.getPublicProfile d') ]),
     setDocs (<[UserModel._id d := d']> (docs db0)) (Date_now db0).2).
Proof.
  intros H Hv Hdup d'. unfold UsersRouter.post, try_catch, bind. rewrite H.
  unfold save. simpl. rewrite Hv. unfold bind, insertOne. simpl.
  rewrite Hdup. reflexivity.
Qed.

Lemma analisis_delete_missing (id : N) (db : Db AnalisisModel.Doc) :
  docs db !! id = None ->
  AnalisisRouter.delete id db = (notFound "Análisis no encontrado", db).
Proof.
  intros H. unfold AnalisisRouter.delete, try_catch, bind, findByIdAndDelete.
  rewrite H. reflexivity.
Qed.

Lemma analisis_delete_found (id : N) (db : Db AnalisisModel.Doc) a :
  docs db !! id = Some a ->
  AnalisisRouter.delete id db
  = (res_json (Js.Obj
       [ ("success", Js.Bool true);
         ("message", Js.Str "Análisis eliminado exitosamente") ]),
     setDocs (delete id (docs db)) db).
Proof.
  intros H. unfold AnalisisRouter.delete, try_catch, bind, findByIdAndDelete.
  rewrite H. reflexivity.
Qed.

Lemma analisis_put_invalid (id : N) (body : AnalisisModel.Body.t)
    (db : Db AnalisisModel.Doc) e es :
  AnalisisModel.validateBody body = e :: es ->
  AnalisisRouter.put id body db
  = (serverError "Error al actualizar el análisis"
       (validationError "Validation failed" (e :: es)), db).
Proof.
  intros H. unfold AnalisisRouter.put, try_catch, select_minus_v, bind, findByIdAndUpdate.
  simpl. unfold AnalisisModel.castBody. rewrite H. reflexivity.
Qed.

Lemma analisis_put_missing (id : N) (body : AnalisisModel.Body.t)
    (db : Db AnalisisModel.Doc) :
  AnalisisModel.validateBody body = [] ->
  docs db !! id = None ->
  AnalisisRouter.put id body db = (notFound "Análisis no encontrado", db).
Proof.
  intros Hv H.
  unfold AnalisisRouter.put, try_catch, select_minus_v, bind, findByIdAndUpdate.
  simpl. unfold AnalisisModel.castBody. rewrite Hv, H. reflexivity.
Qed.

Lemma analisis_put_found (id : N) (body : AnalisisModel.Body.t)
    (db : Db AnalisisModel.Doc) a :
  AnalisisModel.validateBody body = [] ->
  docs db !! id = Some a ->
  let a' := AnalisisModel.assign body a in
  duplicateKey AnalisisModel.Analisis id (AnalisisModel.numero_analisis a') (docs db)
    && bool_decide (AnalisisModel.numero_analisis a' <> AnalisisModel.numero_analisis a)
  = false ->
  AnalisisRouter.put id body db
  = (res_json (Js.Obj
       [ ("success", Js.Bool true);
         ("message", Js.Str "Análisis actualizado exitosamente");
         ("data", AnalisisModel.toJSON (AnalisisModel.set___v None a')) ]),
     setDocs (<[id := a']> (docs db)) db).
Proof.
  intros Hv H a' Hdup.
  unfold AnalisisRouter.put, try_catch, select_minus_v, bind, findByIdAndUpdate.
  simpl. unfold AnalisisModel.castBody. rewrite Hv, H. fold a'.
  simpl in Hdup |- *. rewrite Hdup. reflexivity.
Qed.

Lemma analisis_put_duplicate (id : N) (body : AnalisisModel.Body.t)
    (db : Db AnalisisModel.Doc) a :
  AnalisisModel.validateBody body = [] ->
  docs db !! id = Some a ->
  let a' := AnalisisModel.assign body a in
  duplicateKey AnalisisModel.Analisis id (AnalisisModel.numero_analisis a') (docs db)
    && bool_decide (AnalisisModel.numero_analisis a' <> AnalisisModel.numero_analisis a)
  = true ->
  AnalisisRouter.put id body db
  = (serverError "Error al actualizar el análisis"
       (duplicateKeyError AnalisisModel.Analisis (AnalisisModel.numero_analisis a')), db).
Proof.
  intros Hv H a' Hdup.
  unfold AnalisisRouter.put, try_catch, select_minus_v, bind, findByIdAndUpdate.
  simpl. unfold AnalisisModel.castBody. rewrite Hv, H. fold a'.
  simpl in Hdup |- *. rewrite Hdup. reflexivity.
Qed.

Lemma newAnalisis_run (body : AnalisisModel.Body.t) (db : Db AnalisisModel.Doc) :
  exists d db0,
    AnalisisModel.newAnalisis body db = (Return d, db0)
    /\ docs db0 = docs db /\ nextId db0 = N.succ (nextId db) /\ clock db0 = clock db
    /\ AnalisisModel._id d = nextId db
    /\ AnalisisModel.numero_analisis d = AnalisisModel.Body.numero_analisis body
    /\ AnalisisModel.tipo_analisis d = AnalisisModel.Body.tipo_analisis body
    /\ AnalisisModel.laboratorio d = AnalisisModel.Body.laboratorio body
    /\ AnalisisModel.tecnico_responsable d = AnalisisModel.Body.tecnico_responsable body
    /\ AnalisisModel.estado d = default "pendiente" (AnalisisModel.Body.estado body)
    /\ AnalisisModel.__v d = None.
Proof.
  destruct body as [n [f|] t l r [o|] [e|] [c|] [u|]];
    (eexists; eexists; split; [reflexivity | repeat split]).
Qed.

Lemma analisis_post_invalid (body : AnalisisModel.Body.t) (db db0 : Db AnalisisModel.Doc) d e es :
  construct AnalisisModel.Analisis body db = (Return d, db0) ->
  AnalisisModel.validate d = e :: es ->
  AnalisisRouter.post body db = (validationFailed (e :: es), db0).
Proof.
  intros H Hv. unfold AnalisisRouter.post, try_catch, bind. rewrite H.
  unfold save. simpl. rewrite Hv. reflexivity.
Qed.

Lemma analisis_post_duplicate (body : AnalisisModel.Body.t) (db db0 : Db AnalisisModel.Doc) d :
  construct AnalisisModel.Analisis body db = (Return d, db0) ->
  AnalisisModel.validate d = [] ->
  duplicateKey AnalisisModel.Analisis (AnalisisModel._id d)
    (AnalisisModel.numero_analisis d) (docs db0) = true ->
  AnalisisRouter.post body db
  = (conflict "El número de análisis ya existe", (Date_now db0).2).
Proof.
  intros H Hv Hdup. unfold AnalisisRouter.post, try_catch, bind. rewrite H.
  unfold save. simpl. rewrite Hv. unfold bind, insertOne. simpl.
  rewrite Hdup. reflexivity.
Qed.

Lemma analisis_post_created (body : AnalisisModel.Body.t) (db db0 : Db AnalisisModel.Doc) d :
  construct AnalisisModel.Analisis body db = (Return d, db0) ->
  AnalisisModel.validate d = [] ->
  duplicateKey AnalisisModel.Analisis (AnalisisModel._id d)
    (AnalisisModel.numero_analisis d) (docs db0) = false ->
  let d' := AnalisisModel.set___v (Some 0)
              (AnalisisModel.set_updatedAt (clock db0 (ticks db0)) d) in
  AnalisisRouter.post body db
  = (res_status 201 (Js.Obj
       [ ("success", Js.Bool true);
         ("message", Js.Str "Análisis creado exitosamente");
         ("data", AnalisisModel.toJSON d') ]),
     setDocs (<[AnalisisModel._id d := d']> (docs db0)) (Date_now db0).2).
Proof.
  intros H Hv Hdup d'. unfold AnalisisRouter.post, try_catch, bind. rewrite H.
  unfold save. simpl. rewrite Hv. unfold bind, insertOne. simpl.
  rewrite Hdup. reflexivity.
Qed.

(** ** The unique index *)

Lemma duplicateKey_true {D B} (model : Model D B) (self : N) key (m : gmap N D) :
  duplicateKey model self key m = true
  <-> exists i d, m !! i = Some d /\ i <> self /\ uniqueKey model d = key.
Proof.
  unfold duplicateKey. rewrite existsb_exists. split.
  - intros [[i d] [Hin Htest]]. simpl in Htest.
    apply andb_true_iff in Htest as [Hne Hkey].
    exists i, d. split; [|split].
    + apply elem_of_map_to_list. apply list_elem_of_In. exact Hin.
    + apply negb_true_iff, N.eqb_neq in Hne. exact Hne.
    + apply bool_decide_eq_true in Hkey. exact Hkey.
  - intros (i & d & Hlook & Hne & Hkey). exists (i, d). split.
    + apply list_elem_of_In, elem_of_map_to_list. exact Hlook.
    + simpl. apply andb_true_iff. split.
      * apply negb_true_iff, N.eqb_neq. exact Hne.
      * apply bool_decide_eq_true. exact Hkey.
Qed.

Lemma duplicateKey_false {D B} (model : Model D B) (self : N) key (m : gmap N D) :
  (forall i d, m !! i = Some d -> i <> self -> uniqueKey model d <> key) ->
  duplicateKey model self key m = false.
Proof.
  intros H. apply not_true_is_false. intros Hdup.
  apply duplicateKey_true in Hdup as (i & d & Hlook & Hne & Hkey).
  exact (H i d Hlook Hne Hkey).
Qed.

(** ** The effect of a request on the store *)

Lemma users_effect (r : UserRequest) (db : Db UserModel.Doc) :
  let db' := (handleUser r db).2 in
  clock db' = clock db /\ (nextId db <= nextId db')%N
  /\ (docs db' = docs db
      \/ (exists id body u,
            r = UPut id body /\ docs db !! id = Some u
            /\ UserModel.validateBody (UserModel.castBody body) = []
            /\ docs db' = <[id := UserModel.assign (UserModel.castBody body) u]> (docs db))
      \/ (exists id u,
            r = UDelete id /\ docs db !! id = Some u
            /\ docs db' = <[id := UserModel.assign UsersRouter.deactivate u]> (docs db))
      \/ (exists body d,
            r = UPost body /\ UserModel._id d = nextId db /\ (nextId db < nextId db')%N
            /\ docs db' = <[nextId db := d]> (docs db))).
Proof.
  destruct r as [|id|body|id body|id]; simpl.
  - repeat split; [lia | left; reflexivity].
  - rewrite users_get_by_id_db. repeat split; [lia | left; reflexivity].
  - destruct (newUser_run body db)
      as (d & db0 & Hnew & Hdocs & Hnext & Hclock & Hid & _).
    destruct (UserModel.validate d) as [|e es] eqn:Hv.
    + destruct (duplicateKey UserModel.User (UserModel._id d) (UserModel.email d) (docs db0))
        eqn:Hdup.
      * rewrite (users_post_duplicate body db db0 d Hnew Hv Hdup). simpl.
        rewrite Hclock, Hnext, Hdocs. repeat split; [lia | left; reflexivity].
      * rewrite (users_post_created body db db0 d Hnew Hv Hdup). simpl.
        rewrite Hclock, Hnext, Hdocs, Hid. repeat split; [lia |].
        right; right; right. eexists body, _. repeat split; [| lia].
        simpl. exact Hid.
    + rewrite (users_post_invalid body db db0 d e es Hnew Hv). simpl.
      rewrite Hclock, Hnext, Hdocs. repeat split; [lia | left; reflexivity].
  - destruct (UserModel.validateBody (UserModel.castBody body)) as [|e es] eqn:Hv.
    + destruct (docs db !! id) as [u|] eqn:Hu.
      * destruct (duplicateKey UserModel.User id
                    (UserModel.email (UserModel.assign (UserModel.castBody body) u)) (docs db)
                  && bool_decide
                       (UserModel.email (UserModel.assign (UserModel.castBody body) u)
                        <> UserModel.email u)) eqn:Hdup.
        -- rewrite (users_put_duplicate id body db u Hv Hu Hdup). simpl.
           repeat split; [lia | left; reflexivity].
        -- rewrite (users_put_found id body db u Hv Hu Hdup). simpl.
           repeat split; [lia |]. right; left. exists id, body, u. repeat split; assumption.
      * rewrite (users_put_missing id body db Hv Hu). simpl.
        repeat split; [lia | left; reflexivity].
    + rewrite (users_put_invalid id body db e es Hv). simpl.
      repeat split; [lia | left; reflexivity].
  - destruct (docs db !! id) as [u|] eqn:Hu.
    + rewrite (users_delete_found id db u Hu). simpl.
      repeat split; [lia |]. right; right; left. exists id, u. repeat split; assumption.
    + rewrite (users_delete_missing id db Hu). simpl.
      repeat split; [lia | left; reflexivity].
Qed.

Lemma analisis_effect (r : AnalisisRequest) (db : Db AnalisisModel.Doc) :
  let db' := (handleAnalisis r db).2 in
  clock db' = clock db /\ (nextId db <= nextId db')%N
  /\ (docs db' = docs db
      \/ (exists id body a,
            r = APut id body /\ docs db !! id = Some a
            /\ AnalisisModel.validateBody body = []
            /\ docs db' = <[id := AnalisisModel.assign body a]> (docs db))
      \/ (exists id a,
            r = ADelete id /\ docs db !! id = Some a /\ docs db' = delete id (docs db))
      \/ (exists body d,
            r = APost body /\ AnalisisModel._id d = nextId db
            /\ AnalisisModel.validate d = [] /\ (nextId db < nextId db')%N
            /\ docs db' = <[nextId db := d]> (docs db))).
Proof.
  destruct r as [q|id|body|id body|id]; simpl.
  - repeat split; [lia | left; reflexivity].
  - rewrite analisis_get_by_id_db. repeat split; [lia | left; reflexivity].
  - destruct (newAnalisis_run body db)
      as (d & db0 & Hnew & Hdocs & Hnext & Hclock & Hid & _).
    destruct (AnalisisModel.validate d) as [|e es] eqn:Hv.
    + destruct (duplicateKey AnalisisModel.Analisis (AnalisisModel._id d)
                  (AnalisisModel.numero_analisis d) (docs db0)) eqn:Hdup.
      * rewrite (analisis_post_duplicate body db db0 d Hnew Hv Hdup). simpl.
        rewrite Hclock, Hnext, Hdocs. repeat split; [lia | left; reflexivity].
      * rewrite (analisis_post_created body db db0 d Hnew Hv Hdup). simpl.
        rewrite Hclock, Hnext, Hdocs, Hid. repeat split; [lia |].
        right; right; right. eexists body, _. repeat split; [| | lia].
        -- simpl. exact Hid.
        -- exact Hv.
    + rewrite (analisis_post_invalid body db db0 d e es Hnew Hv). simpl.
      rewrite Hclock, Hnext, Hdocs. repeat split; [lia | left; reflexivity].
  - destruct (AnalisisModel.validateBody body) as [|e es] eqn:Hv.
    + destruct (docs db !! id) as [a|] eqn:Ha.
      * destruct (duplicateKey AnalisisModel.Analisis id
                    (AnalisisModel.numero_analisis (AnalisisModel.assign body a)) (docs db)
                  && bool_decide
                       (AnalisisModel.numero_analisis (AnalisisModel.assign body a)
                        <> AnalisisModel.numero_analisis a)) eqn:Hdup.
        -- rewrite (analisis_put_duplicate id body db a Hv Ha Hdup). simpl.
           repeat split; [lia | left; reflexivity].
        -- rewrite (analisis_put_found id body db a Hv Ha Hdup). simpl.
           repeat split; [lia |]. right; left. exists id, body, a. repeat split; assumption.
      * rewrite (analisis_put_missing id body db Hv Ha). simpl.
        repeat split; [lia | left; reflexivity].
    + rewrite (analisis_put_invalid id body db e es Hv). simpl.
      repeat split; [lia | left; reflexivity].
  - destruct (docs db !! id) as [a|] eqn:Ha.
    + rewrite (analisis_delete_found id db a Ha). simpl.
      repeat split; [lia |]. right; right; left. exists id, a. repeat split; assumption.
    + rewrite (analisis_delete_missing id db Ha). simpl.
      repeat split; [lia | left; reflexivity].
Qed.

(** ** Invariants of the store *)

Lemma consistent_empty {D B} (model : Model D B) (clk : nat -> Z) :
  consistent model (emptyDb clk).
Proof. intros i d H. simpl in H. rewrite lookup_empty in H. discriminate. Qed.

Lemma users_consistent (r : UserRequest) (db : Db UserModel.Doc) :
  consistent UserModel.User db -> consistent UserModel.User (handleUser r db).2.
Proof.
  intros Hc. destruct (users_effect r db) as (_ & Hnext & Hdocs).
  intros i d Hi.
  destruct Hdocs as [Heq | [(id & body & u & _ & Hu & _ & Heq)
                    | [(id & u & _ & Hu & Heq) | (body & d0 & _ & Hid & Hlt & Heq)]]];
    rewrite Heq in Hi.
  - destruct (Hc i d Hi). split; [assumption | lia].
  - destruct (decide (id = i)) as [->|Hne].
    + rewrite lookup_insert_eq in Hi. injection Hi as <-.
      destruct (Hc i u Hu). split; [assumption | lia].
    + rewrite lookup_insert_ne in Hi by assumption.
      destruct (Hc i d Hi). split; [assumption | lia].
  - destruct (decide (id = i)) as [->|Hne].
    + rewrite lookup_insert_eq in Hi. injection Hi as <-.
      destruct (Hc i u Hu). split; [assumption | lia].
    + rewrite lookup_insert_ne in Hi by assumption.
      destruct (Hc i d Hi). split; [assumption | lia].
  - destruct (decide (nextId db = i)) as [<-|Hne].
    + rewrite lookup_insert_eq in Hi. injection Hi as <-. split; assumption.
    + rewrite lookup_insert_ne in Hi by assumption.
      destruct (Hc i d Hi). split; [assumption | lia].
Qed.

Lemma analisis_consistent (r : AnalisisRequest) (db : Db AnalisisModel.Doc) :
  consistent AnalisisModel.Analisis db ->
  consistent AnalisisModel.Analisis (handleAnalisis r db).2.
Proof.
  intros Hc. destruct (analisis_effect r db) as (_ & Hnext & Hdocs).
  intros i d Hi.
  destruct Hdocs as [Heq | [(id & body & a & _ & Ha & _ & Heq)
                    | [(id & a & _ & Ha & Heq) | (body & d0 & _ & Hid & _ & Hlt & Heq)]]];
    rewrite Heq in Hi.
  - destruct (Hc i d Hi). split; [assumption | lia].
  - destruct (decide (id = i)) as [->|Hne].
    + rewrite lookup_insert_eq in Hi. injection Hi as <-.
      destruct (Hc i a Ha). split; [assumption | lia].
    + rewrite lookup_insert_ne in Hi by assumption.
      destruct (Hc i d Hi). split; [assumption | lia].
  - apply lookup_delete_Some in Hi as [_ Hi].
    destruct (Hc i d Hi). split; [assumption | lia].
  - destruct (decide (nextId db = i)) as [<-|Hne].
    + rewrite lookup_insert_eq in Hi. injection Hi as <-. split; assumption.
    + rewrite lookup_insert_ne in Hi by assumption.
      destruct (Hc i d Hi). split; [assumption | lia].
Qed.

Lemma serve_app {R D} (handle : R -> Db D -> Response * Db D) (rs1 rs2 : list R) (db : Db D) :
  serve handle (rs1 ++ rs2) db = serve handle rs2 (serve handle rs1 db).
Proof. unfold serve. apply fold_left_app. Qed.

Lemma serve_cons {R D} (handle : R -> Db D -> Response * Db D) (r : R) (rs : list R) (db : Db D) :
  serve handle (r :: rs) db = serve handle rs (handle r db).2.
Proof. reflexivity. Qed.

Lemma users_serve_consistent (rs : list UserRequest) (db : Db UserModel.Doc) :
  consistent UserModel.User db -> consistent UserModel.User (serve handleUser rs db).
Proof.
  revert db. induction rs as [|r rs IH]; intros db Hc; [exact Hc |].
  rewrite serve_cons. apply IH, users_consistent, Hc.
Qed.

Lemma analisis_serve_consistent (rs : list AnalisisRequest) (db : Db AnalisisModel.Doc) :
  consistent AnalisisModel.Analisis db ->
  consistent AnalisisModel.Analisis (serve handleAnalisis rs db).
Proof.
  revert db. induction rs as [|r rs IH]; intros db Hc; [exact Hc |].
  rewrite serve_cons. apply IH, analisis_consistent, Hc.
Qed.

(** A document stays as it is under every request that is neither an
    update nor a delete of its id. *)
Lemma users_frame (r : UserRequest) (db : Db UserModel.Doc) (id : N) u :
  (forall body, r <> UPut id body) -> r <> UDelete id ->
  (id < nextId db)%N -> docs db !! id = Some u ->
  (id < nextId (handleUser r db).2)%N /\ docs (handleUser r db).2 !! id = Some u.
Proof.
  intros Hput Hdel Hlt Hu. destruct (users_effect r db) as (_ & Hnext & Hdocs).
  split; [lia |].
  destruct Hdocs as [Heq | [(id' & body & u' & Hr & _ & _ & Heq)
                    | [(id' & u' & Hr & _ & Heq) | (body & d0 & _ & _ & _ & Heq)]]];
    rewrite Heq.
  - exact Hu.
  - rewrite lookup_insert_ne; [exact Hu |]. intros ->. exact (Hput body Hr).
  - rewrite lookup_insert_ne; [exact Hu |]. intros ->. exact (Hdel Hr).
  - rewrite lookup_insert_ne; [exact Hu | lia].
Qed.

Lemma user_assign_deactivate_inactive (u : UserModel.Doc) :
  UserModel.isActive u = false -> UserModel.assign UsersRouter.deactivate u = u.
Proof. destruct u; simpl. intros ->. reflexivity. Qed.

(** A soft-deleted user stays soft-deleted until an update of its id. *)
Lemma users_stay_inactive (rs : list UserRequest) (db : Db UserModel.Doc) (id : N) u :
  Forall (fun r => forall body, r <> UPut id body) rs ->
  (id < nextId db)%N -> docs db !! id = Some u -> UserModel.isActive u = false ->
  docs (serve handleUser rs db) !! id = Some u.
Proof.
  revert db. induction rs as [|r rs IH]; intros db Hrs Hlt Hu Hinactive; [exact Hu |].
  apply Forall_cons in Hrs as [Hr Hrs]. rewrite serve_cons.
  assert (r = UDelete id \/ r <> UDelete id) as [->|Hdel].
  { destruct r as [| | | |id']; try (right; discriminate).
    destruct (decide (id' = id)) as [->|Hne]; [left; reflexivity | right; congruence]. }
  - simpl. rewrite (users_delete_found id db u Hu). simpl.
    rewrite (user_assign_deactivate_inactive u Hinactive).
    rewrite insert_id by exact Hu.
    apply (IH (setDocs (docs db) db)); assumption.
  - destruct (users_frame r db id u Hr Hdel Hlt Hu) as [Hlt' Hu'].
    apply IH; assumption.
Qed.

(** An id that has been given out and is no longer in the collection of
    analyses never comes back. *)
Lemma analisis_stay_deleted (rs : list AnalisisRequest) (db : Db AnalisisModel.Doc) (id : N) :
  (id < nextId db)%N -> docs db !! id = None ->
  docs (serve handleAnalisis rs db) !! id = None.
Proof.
  revert db. induction rs as [|r rs IH]; intros db Hlt Hnone; [exact Hnone |].
  rewrite serve_cons. destruct (analisis_effect r db) as (_ & Hnext & Hdocs).
  apply IH; [lia |].
  destruct Hdocs as [Heq | [(id' & body & a & _ & Ha & _ & Heq)
                    | [(id' & a & _ & _ & Heq) | (body & d0 & _ & _ & _ & _ & Heq)]]];
    rewrite Heq.
  - exact Hnone.
  - rewrite lookup_insert_ne; [exact Hnone |]. intros ->. congruence.
  - apply lookup_delete_None. right. exact Hnone.
  - rewrite lookup_insert_ne; [exact Hnone | lia].
Qed.

(** ** Reading back *)

Lemma users_listed (db : Db UserModel.Doc) (i : N) :
  consistent UserModel.User db ->
  i ∈ listedIds (UsersRouter.get_all db).1
  <-> exists u, docs db !! i = Some u /\ UserModel.isActive u = true.
Proof.
  intros Hc. rewrite users_get_all_response. unfold listedIds, dataOf. simpl.
  rewrite list_elem_of_omap. split.
  - intros (j & Hj & Hid).
    apply list_elem_of_fmap in Hj as (u' & -> & Hu').
    apply list_elem_of_fmap in Hu' as (u & -> & Hu).
    apply list_elem_of_filter in Hu as [Hactive Hu].
    apply list_elem_of_fmap in Hu as ([k u0] & -> & Hu). simpl in *.
    apply elem_of_map_to_list in Hu.
    rewrite user_json_id in Hid. injection Hid as <-. simpl.
    destruct (Hc k u0 Hu) as [Hk _]. simpl in Hk. rewrite Hk.
    exists u0. split; assumption.
  - intros (u & Hu & Hactive).
    exists (UserModel.toJSON (UserModel.set___v None u)). split.
    + apply list_elem_of_fmap. exists (UserModel.set___v None u). split; [reflexivity |].
      apply list_elem_of_fmap. exists u. split; [reflexivity |].
      apply list_elem_of_filter. split; [exact Hactive |].
      apply list_elem_of_fmap. exists (i, u). split; [reflexivity |].
      apply elem_of_map_to_list. exact Hu.
    + rewrite user_json_id. simpl. destruct (Hc i u Hu) as [Hi _]. simpl in Hi.
      rewrite Hi. reflexivity.
Qed.

Lemma users_get_by_id_found (id : N) (db : Db UserModel.Doc) u :
  docs db !! id = Some u ->
  (UsersRouter.get_by_id id db).1
  = res_json (Js.Obj
      [ ("success", Js.Bool true);
        ("data", UserModel.toJSON (UserModel.set___v None u)) ]).
Proof.
  intros H. unfold UsersRouter.get_by_id, try_catch, select_minus_v, bind, findById, ret.
  simpl. rewrite H. reflexivity.
Qed.

Lemma users_get_by_id_missing (id : N) (db : Db UserModel.Doc) :
  docs db !! id = None ->
  (UsersRouter.get_by_id id db).1 = notFound "Usuario no encontrado".
Proof.
  intros H. unfold UsersRouter.get_by_id, try_catch, select_minus_v, bind, findById, ret.
  simpl. rewrite H. reflexivity.
Qed.

Lemma analisis_get_by_id_found (id : N) (db : Db AnalisisModel.Doc) a :
  docs db !! id = Some a ->
  (AnalisisRouter.get_by_id id db).1
  = res_json (Js.Obj
      [ ("success", Js.Bool true);
        ("data", AnalisisModel.toJSON (AnalisisModel.set___v None a)) ]).
Proof.
  intros H. unfold AnalisisRouter.get_by_id, try_catch, select_minus_v, bind, findById, ret.
  simpl. rewrite H. reflexivity.
Qed.

Lemma analisis_get_by_id_missing (id : N) (db : Db AnalisisModel.Doc) :
  docs db !! id = None ->
  (AnalisisRouter.get_by_id id db).1 = notFound "Análisis no encontrado".
Proof.
  intros H. unfold AnalisisRouter.get_by_id, try_catch, select_minus_v, bind, findById, ret.
  simpl. rewrite H. reflexivity.
Qed.

(** ** Deleting *)

(** C3: after [DELETE /api/users/:id] of an existing id the user's
    [isActive] is [false]; in every later list response (as long as no
    update of that id comes in between) the user does not appear, while
    get-by-id still answers 200 with the record.  After
    [DELETE /api/analisis/:id] of an existing id, get-by-id of that id
    answers 404, whatever requests come in between. *)
Theorem C3_delete_then_read :
  (forall (db : Db UserModel.Doc) (id : N) (u : UserModel.Doc),
     consistent UserModel.User db -> docs db !! id = Some u ->
     let deleted := UsersRouter.delete id db in
     let u' := UserModel.assign UsersRouter.deactivate u in
     status deleted.1 = 200
     /\ docs deleted.2 !! id = Some u' /\ UserModel.isActive u' = false
     /\ forall rs, Forall (fun r => forall body, r <> UPut id body) rs ->
          let db' := serve handleUser rs deleted.2 in
          (id ∉ listedIds (UsersRouter.get_all db').1)
          /\ (UsersRouter.get_by_id id db').1
             = res_json (Js.Obj
                 [ ("success", Js.Bool true);
                   ("data", UserModel.toJSON (UserModel.set___v None u')) ]))
  /\ (forall (db : Db AnalisisModel.Doc) (id : N) (a : AnalisisModel.Doc),
        consistent AnalisisModel.Analisis db -> docs db !! id = Some a ->
        let deleted := AnalisisRouter.delete id db in
        status deleted.1 = 200
        /\ forall rs,
             (AnalisisRouter.get_by_id id (serve handleAnalisis rs deleted.2)).1
             = notFound "Análisis no encontrado").
Proof.
  split.
  - intros db id u Hc Hu deleted u'.
    assert (Hc' : consistent UserModel.User deleted.2)
      by exact (users_consistent (UDelete id) db Hc).
    subst deleted. rewrite (users_delete_found id db u Hu) in *. simpl in *.
    fold u' in Hc' |- *.
    assert (Hu' : <[id := u']> (docs db) !! id = Some u') by apply lookup_insert_eq.
    split; [reflexivity |]. split; [exact Hu' |]. split; [reflexivity |].
    intros rs Hrs.
    pose proof (users_stay_inactive rs (setDocs (<[id := u']> (docs db)) db) id u' Hrs
                  (proj2 (Hc id u Hu)) Hu' eq_refl) as Hkept.
    split.
    + intros Hin. apply users_listed in Hin as (u1 & Hu1 & Hactive).
      * rewrite Hkept in Hu1. injection Hu1 as <-. discriminate Hactive.
      * apply users_serve_consistent, Hc'.
    + apply users_get_by_id_found, Hkept.
  - intros db id a Hc Ha deleted. subst deleted.
    rewrite (analisis_delete_found id db a Ha). simpl. split; [reflexivity |].
    intros rs. apply analisis_get_by_id_missing, analisis_stay_deleted.
    + simpl. exact (proj2 (Hc id a Ha)).
    + simpl. apply lookup_delete_eq.
Qed.

Lemma twoUsers_consistent : consistent UserModel.User twoUsers.
Proof. apply users_serve_consistent, consistent_empty. Qed.

Lemma twoAnalisis_consistent : consistent AnalisisModel.Analisis twoAnalisis.
Proof. apply analisis_serve_consistent, consistent_empty. Qed.

Lemma C3_delete_then_read_witness :
  status (UsersRouter.delete 0 twoUsers).1 = 200
  /\ status (AnalisisRouter.delete 1 twoAnalisis).1 = 200.
Proof.
  destruct C3_delete_then_read as [Huser Hanalisis]. split.
  - eapply Huser; [exact twoUsers_consistent | vm_compute; reflexivity].
  - eapply Hanalisis; [exact twoAnalisis_consistent | vm_compute; reflexivity].
Defined.

(** *** The path parameter *)

(** Once the parameter is cast, a route is the handler of the id. *)
Lemma users_route_cast (castObjectId : string -> option N) (param : string) (id : N) :
  castObjectId param = Some id ->
  UsersRouter.route_get_by_id castObjectId param = UsersRouter.get_by_id id
  /\ (forall update,
        UsersRouter.route_put castObjectId param update = UsersRouter.put id update)
  /\ UsersRouter.route_delete castObjectId param = UsersRouter.delete id.
Proof.
  intros H.
  unfold UsersRouter.route_get_by_id, UsersRouter.route_put, UsersRouter.route_delete,
    OfParam.findById, OfParam.findByIdAndUpdate, OfParam.castId.
  rewrite H. repeat split.
Qed.

Lemma analisis_route_cast (castObjectId : string -> option N) (param : string) (id : N) :
  castObjectId param = Some id ->
  AnalisisRouter.route_get_by_id castObjectId param = AnalisisRouter.get_by_id id
  /\ (forall update,
        AnalisisRouter.route_put castObjectId param update = AnalisisRouter.put id update)
  /\ AnalisisRouter.route_delete castObjectId param = AnalisisRouter.delete id.
Proof.
  intros H.
  unfold AnalisisRouter.route_get_by_id, AnalisisRouter.route_put,
    AnalisisRouter.route_delete,
    OfParam.findById, OfParam.findByIdAndUpdate, OfParam.findByIdAndDelete, OfParam.castId.
  rewrite H. repeat split.
Qed.

(** A parameter that is not cast makes the query throw, and the catch
    block of the handler answers. *)
Lemma users_route_malformed (castObjectId : string -> option N) (param : string)
    (db : Db UserModel.Doc) :
  castObjectId param = None ->
  let error := OfParam.castError UserModel.User param in
  UsersRouter.route_get_by_id castObjectId param db
  = (serverError "Error al obtener el usuario" error, db)
  /\ (forall update,
        UsersRouter.route_put castObjectId param update db
        = (serverError "Error al actualizar el usuario" error, db))
  /\ UsersRouter.route_delete castObjectId param db
     = (serverError "Error al eliminar el usuario" error, db).
Proof.
  intros H error.
  unfold UsersRouter.route_get_by_id, UsersRouter.route_put, UsersRouter.route_delete,
    OfParam.findById, OfParam.findByIdAndUpdate, OfParam.castId,
    try_catch, select_minus_v, bind, throw.
  rewrite H. repeat split.
Qed.

Lemma analisis_route_malformed (castObjectId : string -> option N) (param : string)
    (db : Db AnalisisModel.Doc) :
  castObjectId param = None ->
  let error := OfParam.castError AnalisisModel.Analisis param in
  AnalisisRouter.route_get_by_id castObjectId param db
  = (serverError "Error al obtener el análisis" error, db)
  /\ (forall update,
        AnalisisRouter.route_put castObjectId param update db
        = (serverError "Error al actualizar el análisis" error, db))
  /\ AnalisisRouter.route_delete castObjectId param db
     = (serverError "Error al eliminar el análisis" error, db).
Proof.
  intros H error.
  unfold AnalisisRouter.route_get_by_id, AnalisisRouter.route_put,
    AnalisisRouter.route_delete,
    OfParam.findById, OfParam.findByIdAndUpdate, OfParam.findByIdAndDelete, OfParam.castId,
    try_catch, select_minus_v, bind, throw.
  rewrite H. repeat split.
Qed.

(** C10, as stated, fails: the string [abc] is the id of no record, it
    is not even an ObjectId, and [DELETE /api/users/abc] is answered
    500, not 404: the query throws when it casts the parameter, and the
    catch block of the handler answers.  Nothing is written. *)
Lemma C10_delete_of_a_malformed_id_is_500 :
  hexObjectId "abc" = None
  /\ (forall (i : N) (u : UserModel.Doc),
        docs twoUsers !! i = Some u -> hexObjectId "abc" <> Some i)
  /\ (OfParam.findByIdAndUpdate UserModel.User hexObjectId "abc" UsersRouter.deactivate
        {| new := true; runValidators := false |} twoUsers).1
     = Throw (OfParam.castError UserModel.User "abc")
  /\ status (UsersRouter.route_delete hexObjectId "abc" twoUsers).1 = 500
  /\ status (UsersRouter.route_delete hexObjectId "abc" twoUsers).1 <> 404
  /\ Js.prop "error" (body (UsersRouter.route_delete hexObjectId "abc" twoUsers).1)
     = Some (Js.Str "Error al eliminar el usuario")
  /\ (UsersRouter.route_delete hexObjectId "abc" twoUsers).2 = twoUsers.
Proof.
  split; [reflexivity |]. split; [intros i u _; discriminate |].
  vm_compute. repeat split; try reflexivity. discriminate.
Qed.

(** C10, amended to the ids that are ObjectIds: when the parameter is
    cast to an ObjectId, [DELETE /api/users/:id] answers 404 exactly
    when no record has that id, whatever the record's [isActive].  The
    delete of a stored user answers 200 and leaves it inactive; on a
    user that is inactive already it changes nothing; and a second
    delete answers 200 again and leaves the collection as the first
    left it.  The [DELETE /api/analisis/:id] of a stored analysis
    answers 200 and removes it, and a second one of the same id answers
    404. *)
Theorem C10_delete_by_object_id
    (castObjectId : string -> option N) (param : string) (id : N) :
  castObjectId param = Some id ->
  (forall db : Db UserModel.Doc,
     status (UsersRouter.route_delete castObjectId param db).1 = 404
     <-> docs db !! id = None)
  /\ (forall (db : Db UserModel.Doc) (u : UserModel.Doc),
        docs db !! id = Some u ->
        let first := UsersRouter.route_delete castObjectId param db in
        let again := UsersRouter.route_delete castObjectId param first.2 in
        let u' := UserModel.assign UsersRouter.deactivate u in
        status first.1 = 200
        /\ docs first.2 !! id = Some u' /\ UserModel.isActive u' = false
        /\ (UserModel.isActive u = false -> docs first.2 = docs db)
        /\ status again.1 = 200
        /\ again.2 = first.2)
  /\ (forall (db : Db AnalisisModel.Doc) (a : AnalisisModel.Doc),
        docs db !! id = Some a ->
        let first := AnalisisRouter.route_delete castObjectId param db in
        let again := AnalisisRouter.route_delete castObjectId param first.2 in
        status first.1 = 200
        /\ docs first.2 !! id = None
        /\ again = (notFound "Análisis no encontrado", first.2)).
Proof.
  intros Hcast.
  destruct (users_route_cast castObjectId param id Hcast) as (_ & _ & ->).
  destruct (analisis_route_cast castObjectId param id Hcast) as (_ & _ & ->).
  split; [| split].
  - intros db. destruct (docs db !! id) as [u|] eqn:Hu.
    + rewrite (users_delete_found id db u Hu). simpl. split; discriminate.
    + rewrite (users_delete_missing id db Hu). simpl. split; reflexivity.
  - intros db u Hu first again u'. subst first again.
    rewrite (users_delete_found id db u Hu). cbn [fst snd]. fold u'.
    assert (Hinactive : UserModel.isActive u' = false) by (destruct u; reflexivity).
    assert (Hu' : docs (setDocs (<[id := u']> (docs db)) db) !! id = Some u')
      by apply lookup_insert_eq.
    rewrite (users_delete_found id _ u' Hu'). cbn [fst snd].
    rewrite (user_assign_deactivate_inactive u' Hinactive).
    split; [reflexivity |]. split; [exact Hu' |]. split; [exact Hinactive |].
    split.
    + intros Hu0. subst u'. rewrite (user_assign_deactivate_inactive u Hu0).
      simpl. apply insert_id, Hu.
    + split; [reflexivity |].
      unfold setDocs. simpl. rewrite insert_insert_eq. reflexivity.
  - intros db a Ha first again. subst first again.
    rewrite (analisis_delete_found id db a Ha). cbn [fst snd].
    split; [reflexivity |]. split; [simpl; apply lookup_delete_eq |].
    apply analisis_delete_missing. simpl. apply lookup_delete_eq.
Qed.

Lemma C10_delete_by_object_id_witness :
  status (UsersRouter.route_delete hexObjectId id0
            (UsersRouter.route_delete hexObjectId id0 twoUsers).2).1 = 200
  /\ (AnalisisRouter.route_delete hexObjectId id1
        (AnalisisRouter.route_delete hexObjectId id1 twoAnalisis).2).1
     = notFound "Análisis no encontrado".
Proof.
  split.
  - destruct (C10_delete_by_object_id hexObjectId id0 0%N eq_refl) as (_ & Huser & _).
    eapply Huser. vm_compute. reflexivity.
  - destruct (C10_delete_by_object_id hexObjectId id1 1%N eq_refl) as (_ & _ & Hanalisis).
    edestruct Hanalisis as (_ & _ & ->); [vm_compute; reflexivity | reflexivity].
Defined.

(** ** Updating *)

Lemma users_untouched (rs : list UserRequest) (db : Db UserModel.Doc) (id : N) u :
  Forall (fun r => (forall body, r <> UPut id body) /\ r <> UDelete id) rs ->
  (id < nextId db)%N -> docs db !! id = Some u ->
  docs (serve handleUser rs db) !! id = Some u.
Proof.
  revert db. induction rs as [|r rs IH]; intros db Hrs Hlt Hu; [exact Hu |].
  apply Forall_cons in Hrs as [[Hput Hdel] Hrs]. rewrite serve_cons.
  destruct (users_frame r db id u Hput Hdel Hlt Hu) as [Hlt' Hu'].
  apply IH; assumption.
Qed.

(** C9: a soft-deleted user comes back through [PUT /api/users/:id]
    with the body [{ isActive: true }]: the answer is 200, the stored
    [isActive] is [true] again, and the user is in the list responses
    from then on (until a later update or delete of that id). *)
Theorem C9_soft_delete_reversible
    (db : Db UserModel.Doc) (id : N) (u : UserModel.Doc) :
  consistent UserModel.User db ->
  docs db !! id = Some u -> UserModel.isActive u = false ->
  let updated := UsersRouter.put id reactivate db in
  let u' := UserModel.assign reactivate u in
  status updated.1 = 200
  /\ Js.prop "data" (body updated.1) = Some (UserModel.toJSON (UserModel.set___v None u'))
  /\ docs updated.2 !! id = Some u' /\ UserModel.isActive u' = true
  /\ forall rs,
       Forall (fun r => (forall body, r <> UPut id body) /\ r <> UDelete id) rs ->
       id ∈ listedIds (UsersRouter.get_all (serve handleUser rs updated.2)).1.
Proof.
  intros Hc Hu Hinactive updated u'.
  assert (Hc' : consistent UserModel.User updated.2)
    by exact (users_consistent (UPut id reactivate) db Hc).
  assert (Hrun : updated
                 = (res_json (Js.Obj
                      [ ("success", Js.Bool true);
                        ("message", Js.Str "Usuario actualizado exitosamente");
                        ("data", UserModel.toJSON (UserModel.set___v None u')) ]),
                    setDocs (<[id := u']> (docs db)) db)).
  { apply (users_put_found id reactivate db u eq_refl Hu). simpl.
    rewrite (bool_decide_eq_false_2 (UserModel.email u <> UserModel.email u)) by tauto.
    apply andb_false_r. }
  rewrite Hrun in *. simpl.
  assert (Hu' : <[id := u']> (docs db) !! id = Some u') by apply lookup_insert_eq.
  split; [reflexivity |]. split; [reflexivity |]. split; [exact Hu' |].
  split; [reflexivity |].
  intros rs Hrs. apply users_listed.
  - apply users_serve_consistent, Hc'.
  - exists u'. split; [| reflexivity].
    apply (users_untouched rs (setDocs (<[id := u']> (docs db)) db) id u' Hrs).
    + exact (proj2 (Hc id u Hu)).
    + exact Hu'.
Qed.

Lemma C9_soft_delete_reversible_witness :
  status (UsersRouter.put 0 reactivate (UsersRouter.delete 0 twoUsers).2).1 = 200.
Proof.
  eapply C9_soft_delete_reversible.
  - exact (users_consistent (UDelete 0) twoUsers twoUsers_consistent).
  - vm_compute. reflexivity.
  - reflexivity.
Defined.

(** ** The update timestamp *)

(** On the save path the pre-save hook runs: a created record carries
    the reading of the clock taken last before the insert, whatever
    the body says. *)
Lemma users_post_refreshes_updatedAt (body : UserModel.Body.t) (db : Db UserModel.Doc) :
  status (UsersRouter.post body db).1 = 201 ->
  let db' := (UsersRouter.post body db).2 in
  exists u, docs db' !! nextId db = Some u
            /\ ticks db' = S (Nat.pred (ticks db'))
            /\ UserModel.updatedAt u = clock db (Nat.pred (ticks db')).
Proof.
  destruct (newUser_run body db) as (d & db0 & Hnew & Hdocs & Hnext & Hclock & Hid & _).
  destruct (UserModel.validate d) as [|e es] eqn:Hv.
  - destruct (duplicateKey UserModel.User (UserModel._id d) (UserModel.email d) (docs db0))
      eqn:Hdup.
    + rewrite (users_post_duplicate body db db0 d Hnew Hv Hdup). discriminate.
    + rewrite (users_post_created body db db0 d Hnew Hv Hdup). simpl. intros _.
      eexists. rewrite Hid, lookup_insert_eq. split; [reflexivity |].
      split; [reflexivity |]. simpl. rewrite Hclock. reflexivity.
  - rewrite (users_post_invalid body db db0 d e es Hnew Hv). discriminate.
Qed.

Lemma analisis_post_refreshes_updatedAt (body : AnalisisModel.Body.t)
    (db : Db AnalisisModel.Doc) :
  status (AnalisisRouter.post body db).1 = 201 ->
  let db' := (AnalisisRouter.post body db).2 in
  exists a, docs db' !! nextId db = Some a
            /\ ticks db' = S (Nat.pred (ticks db'))
            /\ AnalisisModel.updatedAt a = clock db (Nat.pred (ticks db')).
Proof.
  destruct (newAnalisis_run body db) as (d & db0 & Hnew & Hdocs & Hnext & Hclock & Hid & _).
  destruct (AnalisisModel.validate d) as [|e es] eqn:Hv.
  - destruct (duplicateKey AnalisisModel.Analisis (AnalisisModel._id d)
                (AnalisisModel.numero_analisis d) (docs db0)) eqn:Hdup.
    + rewrite (analisis_post_duplicate body db db0 d Hnew Hv Hdup). discriminate.
    + rewrite (analisis_post_created body db db0 d Hnew Hv Hdup). simpl. intros _.
      eexists. rewrite Hid, lookup_insert_eq. split; [reflexivity |].
      split; [reflexivity |]. simpl. rewrite Hclock. reflexivity.
  - rewrite (analisis_post_invalid body db db0 d e es Hnew Hv). discriminate.
Qed.

(** On the update path no hook runs and the clock is not read: unless
    the body itself carries [updatedAt], the record keeps the one it
    had. *)
Lemma users_put_keeps_updatedAt (id : N) (body : UserModel.Body.t)
    (db : Db UserModel.Doc) (u : UserModel.Doc) :
  docs db !! id = Some u -> UserModel.Body.updatedAt body = None ->
  status (UsersRouter.put id body db).1 = 200 ->
  let db' := (UsersRouter.put id body db).2 in
  ticks db' = ticks db
  /\ exists u', docs db' !! id = Some u' /\ UserModel.updatedAt u' = UserModel.updatedAt u.
Proof.
  intros Hu Hbody.
  destruct (UserModel.validateBody (UserModel.castBody body)) as [|e es] eqn:Hv.
  - destruct (duplicateKey UserModel.User id
                (UserModel.email (UserModel.assign (UserModel.castBody body) u)) (docs db)
              && bool_decide
                   (UserModel.email (UserModel.assign (UserModel.castBody body) u)
                    <> UserModel.email u)) eqn:Hdup.
    + rewrite (users_put_duplicate id body db u Hv Hu Hdup). discriminate.
    + rewrite (users_put_found id body db u Hv Hu Hdup). simpl. intros _.
      split; [reflexivity |]. eexists. rewrite lookup_insert_eq. split; [reflexivity |].
      simpl. rewrite Hbody. reflexivity.
  - rewrite (users_put_invalid id body db e es Hv). discriminate.
Qed.

Lemma analisis_put_keeps_updatedAt (id : N) (body : AnalisisModel.Body.t)
    (db : Db AnalisisModel.Doc) (a : AnalisisModel.Doc) :
  docs db !! id = Some a -> AnalisisModel.Body.updatedAt body = None ->
  status (AnalisisRouter.put id body db).1 = 200 ->
  let db' := (AnalisisRouter.put id body db).2 in
  ticks db' = ticks db
  /\ exists a', docs db' !! id = Some a'
                /\ AnalisisModel.updatedAt a' = AnalisisModel.updatedAt a.
Proof.
  intros Ha Hbody.
  destruct (AnalisisModel.validateBody body) as [|e es] eqn:Hv.
  - destruct (duplicateKey AnalisisModel.Analisis id
                (AnalisisModel.numero_analisis (AnalisisModel.assign body a)) (docs db)
              && bool_decide
                   (AnalisisModel.numero_analisis (AnalisisModel.assign body a)
                    <> AnalisisModel.numero_analisis a)) eqn:Hdup.
    + rewrite (analisis_put_duplicate id body db a Hv Ha Hdup). discriminate.
    + rewrite (analisis_put_found id body db a Hv Ha Hdup). simpl. intros _.
      split; [reflexivity |]. eexists. rewrite lookup_insert_eq. split; [reflexivity |].
      simpl. rewrite Hbody. reflexivity.
  - rewrite (analisis_put_invalid id body db e es Hv). discriminate.
Qed.

(** C1 (the update half fails on the code): the user created first in
    [twoUsers] was written when the clock read 1020.  A later
    [PUT /api/users/0] with the body [{ name: "Ana Maria" }], served
    when the clock reads 1060, answers 200 and changes the name, yet
    the stored [updatedAt] is still 1020 and the clock has not been
    read; likewise for [PUT /api/analisis/0] with
    [{ estado: "completado" }]. *)
Theorem C1_put_leaves_updatedAt :
  (let db := twoUsers in
   let request := UsersRouter.put 0 (userBody (Some "Ana Maria") None None) db in
   clock db (ticks db) = 1060
   /\ UserModel.updatedAt <$> docs db !! 0%N = Some 1020
   /\ status request.1 = 200
   /\ UserModel.name <$> docs request.2 !! 0%N = Some (Some "Ana Maria")
   /\ UserModel.updatedAt <$> docs request.2 !! 0%N = Some 1020
   /\ ticks request.2 = ticks db)
  /\ (let db := twoAnalisis in
      let request :=
        AnalisisRouter.put 0 (analisisBody None None None None (Some "completado")) db in
      clock db (ticks db) = 1080
      /\ AnalisisModel.updatedAt <$> docs db !! 0%N = Some 1030
      /\ status request.1 = 200
      /\ AnalisisModel.estado <$> docs request.2 !! 0%N = Some "completado"
      /\ AnalisisModel.updatedAt <$> docs request.2 !! 0%N = Some 1030
      /\ ticks request.2 = ticks db).
Proof. vm_compute. repeat split; reflexivity. Qed.

(** ** Uniqueness violations *)

(** The two messages name the field in conflict. *)
Example conflict_messages_name_the_field :
  includes "email" "El email ya está registrado" = true
  /\ includes "número de análisis" "El número de análisis ya existe" = true.
Proof. vm_compute. split; reflexivity. Qed.

(** C2, as stated, fails on updates: in [twoAnalisis] the number A-001
    belongs to the analysis 0; [PUT /api/analisis/1] with the body
    [{ numero_analisis: "A-001" }] makes the store raise the duplicate
    key error 11000, and the answer is a 500 with the generic message,
    not a 400.  The same holds for [PUT /api/users/1] with the email of
    user 0. *)
Lemma C2_update_duplicate_is_500 :
  (let update := analisisBody (Some "A-001") None None None None in
   AnalisisModel.numero_analisis <$> docs twoAnalisis !! 0%N = Some (Some "A-001")
   /\ (findByIdAndUpdate AnalisisModel.Analisis 1 update
         {| new := true; runValidators := true |} twoAnalisis).1
      = Throw (duplicateKeyError AnalisisModel.Analisis (Some "A-001"))
   /\ status (AnalisisRouter.put 1 update twoAnalisis).1 = 500
   /\ Js.prop "error" (body (AnalisisRouter.put 1 update twoAnalisis).1)
      = Some (Js.Str "Error al actualizar el análisis"))
  /\ (let update := userBody None (Some "ana@x.com") None in
      UserModel.email <$> docs twoUsers !! 0%N = Some (Some "ana@x.com")
      /\ (findByIdAndUpdate UserModel.User 1 update
            {| new := true; runValidators := true |} twoUsers).1
         = Throw (duplicateKeyError UserModel.User (Some "ana@x.com"))
      /\ status (UsersRouter.put 1 update twoUsers).1 = 500
      /\ Js.prop "error" (body (UsersRouter.put 1 update twoUsers).1)
         = Some (Js.Str "Error al actualizar el usuario")).
Proof. vm_compute. repeat split; reflexivity. Qed.

(** C2, amended to the create requests: when the body passes
    validation and its unique key (the email after its setters, the
    analysis number) is already held by a stored record, the insert
    violates the unique index and [POST] answers 400 with the message
    that names the field; the collection is left as it was. *)
Theorem C2_create_duplicate_is_400 :
  (forall (db db0 : Db UserModel.Doc) body d i d',
     consistent UserModel.User db ->
     construct UserModel.User body db = (Return d, db0) ->
     UserModel.validate d = [] ->
     docs db !! i = Some d' -> UserModel.email d' = UserModel.email d ->
     (UsersRouter.post body db).1 = conflict "El email ya está registrado"
     /\ docs (UsersRouter.post body db).2 = docs db)
  /\ (forall (db db0 : Db AnalisisModel.Doc) body d i d',
        consistent AnalisisModel.Analisis db ->
        construct AnalisisModel.Analisis body db = (Return d, db0) ->
        AnalisisModel.validate d = [] ->
        docs db !! i = Some d' ->
        AnalisisModel.numero_analisis d' = AnalisisModel.numero_analisis d ->
        (AnalisisRouter.post body db).1 = conflict "El número de análisis ya existe"
        /\ docs (AnalisisRouter.post body db).2 = docs db).
Proof.
  split.
  - intros db db0 body d i d' Hc Hnew Hv Hi Hkey.
    destruct (newUser_run body db) as (d1 & db1 & Hnew1 & Hdocs & _ & _ & Hid & _).
    simpl in Hnew. rewrite Hnew in Hnew1. injection Hnew1 as <- <-.
    rewrite (users_post_duplicate body db db0 d Hnew Hv).
    + simpl. split; [reflexivity | exact Hdocs].
    + apply duplicateKey_true. exists i, d'. rewrite Hdocs, Hid.
      split; [exact Hi |]. split; [| exact Hkey].
      destruct (Hc i d' Hi) as [_ Hlt]. lia.
  - intros db db0 body d i d' Hc Hnew Hv Hi Hkey.
    destruct (newAnalisis_run body db) as (d1 & db1 & Hnew1 & Hdocs & _ & _ & Hid & _).
    simpl in Hnew. rewrite Hnew in Hnew1. injection Hnew1 as <- <-.
    rewrite (analisis_post_duplicate body db db0 d Hnew Hv).
    + simpl. split; [reflexivity | exact Hdocs].
    + apply duplicateKey_true. exists i, d'. rewrite Hdocs, Hid.
      split; [exact Hi |]. split; [| exact Hkey].
      destruct (Hc i d' Hi) as [_ Hlt]. lia.
Qed.

Lemma C2_create_duplicate_is_400_witness :
  (UsersRouter.post (userBody (Some "Ana") (Some " ANA@x.com") None) twoUsers).1
  = conflict "El email ya está registrado"
  /\ (AnalisisRouter.post a002 twoAnalisis).1 = conflict "El número de análisis ya existe".
Proof.
  destruct C2_create_duplicate_is_400 as [Huser Hanalisis]. split.
  - eapply (Huser twoUsers _ _ _ 0%N);
      [exact twoUsers_consistent | vm_compute; reflexivity ..].
  - eapply (Hanalisis twoAnalisis _ _ _ 1%N);
      [exact twoAnalisis_consistent | vm_compute; reflexivity ..].
Defined.

(** ** The status of an analysis *)

Lemma enum_accepts (path : string) (values : list string) (s : string) :
  doValidate [enum path values] (Some s) = None <-> s ∈ values.
Proof.
  simpl. destruct (bool_decide (s ∈ values)) eqn:H.
  - apply bool_decide_eq_true in H. split; [intros _; exact H | reflexivity].
  - apply bool_decide_eq_false in H. split; [discriminate | contradiction].
Qed.

Lemma pathError_nil (path : string) (err : option string) :
  pathError path err = [] <-> err = None.
Proof. destruct err; simpl; split; congruence. Qed.

Lemma validate_estado (d : AnalisisModel.Doc) :
  AnalisisModel.validate d = [] -> AnalisisModel.estado d ∈ AnalisisModel.estados.
Proof.
  unfold AnalisisModel.validate. intros H.
  repeat (apply app_eq_nil in H as [_ H]).
  apply pathError_nil in H. apply enum_accepts in H. exact H.
Qed.

Lemma validateBody_estado (body : AnalisisModel.Body.t) (s : string) :
  AnalisisModel.validateBody body = [] ->
  AnalisisModel.Body.estado body = Some s -> s ∈ AnalisisModel.estados.
Proof.
  unfold AnalisisModel.validateBody. intros H Hs.
  repeat (apply app_eq_nil in H as [_ H]).
  rewrite Hs in H. simpl in H. apply pathError_nil in H.
  apply (enum_accepts "estado") in H. exact H.
Qed.

Lemma estado_rejected (s : string) :
  s ∉ AnalisisModel.estados ->
  doValidate AnalisisModel.estadoValidators (Some s)
  = Some ("`" ++ s ++ "` is not a valid enum value for path `estado`.").
Proof.
  intros H. simpl. rewrite bool_decide_eq_false_2 by exact H. reflexivity.
Qed.

(** Every stored analysis has one of the four states, after any run of
    the router from any store in which that holds. *)
Lemma estado_invariant (rs : list AnalisisRequest) (db : Db AnalisisModel.Doc) :
  (forall id a, docs db !! id = Some a -> AnalisisModel.estado a ∈ AnalisisModel.estados) ->
  forall id a, docs (serve handleAnalisis rs db) !! id = Some a ->
               AnalisisModel.estado a ∈ AnalisisModel.estados.
Proof.
  revert db. induction rs as [|r rs IH]; intros db Hinv; [exact Hinv |].
  rewrite serve_cons. apply IH. clear IH. intros i d Hi.
  destruct (analisis_effect r db) as (_ & _ & Hdocs).
  destruct Hdocs as [Heq | [(id & body & a & _ & Ha & Hv & Heq)
                    | [(id & a & _ & _ & Heq) | (body & d0 & _ & _ & Hv & _ & Heq)]]];
    rewrite Heq in Hi.
  - exact (Hinv i d Hi).
  - destruct (decide (id = i)) as [->|Hne].
    + rewrite lookup_insert_eq in Hi. injection Hi as <-. simpl.
      destruct (AnalisisModel.Body.estado body) as [s|] eqn:Hs; simpl.
      * exact (validateBody_estado body s Hv Hs).
      * exact (Hinv i a Ha).
    + rewrite lookup_insert_ne in Hi by assumption. exact (Hinv i d Hi).
  - apply lookup_delete_Some in Hi as [_ Hi]. exact (Hinv i d Hi).
  - destruct (decide (nextId db = i)) as [<-|Hne].
    + rewrite lookup_insert_eq in Hi. injection Hi as <-. exact (validate_estado d0 Hv).
    + rewrite lookup_insert_ne in Hi by assumption. exact (Hinv i d Hi).
Qed.

(** C5: every analysis the router has stored has its [estado] among
    pendiente, en_proceso, completado and cancelado; a create without
    [estado] stores pendiente; a create or an update whose body carries
    another string fails with the mapper's validation error on the path
    [estado] and leaves the collection as it was (the create answers
    400 with the message, the update answers 500 with it). *)
Theorem C5_estado_enumerated :
  (forall clk rs id a,
     docs (serve handleAnalisis rs (emptyDb clk)) !! id = Some a ->
     AnalisisModel.estado a ∈ AnalisisModel.estados)
  /\ (forall (db : Db AnalisisModel.Doc) body,
        AnalisisModel.Body.estado body = None ->
        status (AnalisisRouter.post body db).1 = 201 ->
        exists a, docs (AnalisisRouter.post body db).2 !! nextId db = Some a
                  /\ AnalisisModel.estado a = "pendiente")
  /\ (forall (db : Db AnalisisModel.Doc) body s,
        AnalisisModel.Body.estado body = Some s -> s ∉ AnalisisModel.estados ->
        let failure := ("estado", "`" ++ s ++ "` is not a valid enum value for path `estado`.") in
        (exists errs, failure ∈ errs
                      /\ (AnalisisRouter.post body db).1 = validationFailed errs)
        /\ docs (AnalisisRouter.post body db).2 = docs db)
  /\ (forall (db : Db AnalisisModel.Doc) id body s,
        AnalisisModel.Body.estado body = Some s -> s ∉ AnalisisModel.estados ->
        let failure := ("estado", "`" ++ s ++ "` is not a valid enum value for path `estado`.") in
        exists errs, failure ∈ errs
          /\ findByIdAndUpdate AnalisisModel.Analisis id body
               {| new := true; runValidators := true |} db
             = (Throw (validationError "Validation failed" errs), db)
          /\ AnalisisRouter.put id body db
             = (serverError "Error al actualizar el análisis"
                  (validationError "Validation failed" errs), db)).
Proof.
  split; [| split; [| split]].
  - intros clk rs. apply estado_invariant. intros id a H. simpl in H.
    rewrite lookup_empty in H. discriminate.
  - intros db body Hs.
    destruct (newAnalisis_run body db)
      as (d & db0 & Hnew & Hdocs & _ & _ & Hid & _ & _ & _ & _ & Hest & _).
    rewrite Hs in Hest. simpl in Hest.
    destruct (AnalisisModel.validate d) as [|e es] eqn:Hv.
    + destruct (duplicateKey AnalisisModel.Analisis (AnalisisModel._id d)
                  (AnalisisModel.numero_analisis d) (docs db0)) eqn:Hdup.
      * rewrite (analisis_post_duplicate body db db0 d Hnew Hv Hdup). discriminate.
      * rewrite (analisis_post_created body db db0 d Hnew Hv Hdup). simpl. intros _.
        eexists. rewrite Hid, lookup_insert_eq. split; [reflexivity | exact Hest].
    + rewrite (analisis_post_invalid body db db0 d e es Hnew Hv). discriminate.
  - intros db body s Hs Hout failure.
    destruct (newAnalisis_run body db)
      as (d & db0 & Hnew & Hdocs & _ & _ & Hid & _ & _ & _ & _ & Hest & _).
    rewrite Hs in Hest. simpl in Hest.
    assert (Hin : failure ∈ AnalisisModel.validate d).
    { unfold AnalisisModel.validate. rewrite Hest, (estado_rejected s Hout).
      rewrite !elem_of_app. do 4 right. apply list_elem_of_singleton. reflexivity. }
    destruct (AnalisisModel.validate d) as [|e es] eqn:Hv.
    + apply elem_of_nil in Hin. contradiction.
    + rewrite (analisis_post_invalid body db db0 d e es Hnew Hv). simpl.
      split; [| exact Hdocs]. exists (e :: es). split; [exact Hin | reflexivity].
  - intros db id body s Hs Hout failure.
    assert (Hin : failure ∈ AnalisisModel.validateBody body).
    { unfold AnalisisModel.validateBody. rewrite Hs. unfold updateError at 5.
      rewrite (estado_rejected s Hout).
      rewrite !elem_of_app. do 4 right. apply list_elem_of_singleton. reflexivity. }
    destruct (AnalisisModel.validateBody body) as [|e es] eqn:Hv.
    + apply elem_of_nil in Hin. contradiction.
    + exists (e :: es). split; [exact Hin |]. split.
      * unfold findByIdAndUpdate. simpl. unfold AnalisisModel.castBody.
        rewrite Hv. reflexivity.
      * apply analisis_put_invalid, Hv.
Qed.

Lemma C5_estado_enumerated_witness :
  (exists a, docs (AnalisisRouter.post a001 (emptyDb sampleClock)).2 !! 0%N = Some a
             /\ AnalisisModel.estado a = "pendiente")
  /\ docs (AnalisisRouter.post
             (analisisBody (Some "A-003") (Some "sangre") (Some "Sur") (Some "Mar")
                (Some "archivado")) twoAnalisis).2
     = docs twoAnalisis.
Proof.
  destruct C5_estado_enumerated as (_ & Hdefault & Hcreate & _). split.
  - apply (Hdefault (emptyDb sampleClock) a001); vm_compute; reflexivity.
  - eapply Hcreate; [reflexivity |].
    intros Hin. vm_compute in Hin.
    repeat (apply elem_of_cons in Hin as [Hin | Hin]; [discriminate Hin |]).
    apply elem_of_nil in Hin. exact Hin.
Defined.

(** ** Validation failures *)

Lemma violated_dec {A} (v : Validator A) (x : option A) :
  violated v x \/ ~ violated v x.
Proof.
  unfold violated. destruct (validator v x) eqn:Hv.
  - right. intros [_ H]. discriminate.
  - destruct x as [a|].
    + left. split; [discriminate | reflexivity].
    + destruct (isRequired v) eqn:Hr.
      * left. split; reflexivity.
      * right. intros [H _]. specialize (H eq_refl). discriminate.
Qed.

Lemma doValidate_step {A} (v : Validator A) (rest : list (Validator A)) (x : option A) :
  (violated v x -> doValidate (v :: rest) x = Some (message v x))
  /\ (~ violated v x -> doValidate (v :: rest) x = doValidate rest x).
Proof.
  unfold violated. simpl. destruct x as [a|]; simpl.
  - destruct (validator v (Some a)) eqn:Hv; split; intros H.
    + destruct H. discriminate.
    + reflexivity.
    + reflexivity.
    + exfalso. apply H. split; [discriminate | reflexivity].
  - destruct (isRequired v) eqn:Hr; simpl.
    + destruct (validator v None) eqn:Hv; split; intros H.
      * destruct H. discriminate.
      * reflexivity.
      * reflexivity.
      * exfalso. apply H. split; reflexivity.
    + split; intros H.
      * destruct H as [H _]. specialize (H eq_refl). discriminate.
      * reflexivity.
Qed.

(** When at most one validator of a path can fail on a value, the
    error of the path is the message of that validator. *)
Lemma doValidate_only {A} (vs : list (Validator A)) (x : option A) (v : Validator A) :
  v ∈ vs -> violated v x ->
  (forall v', v' ∈ vs -> violated v' x -> v' = v) ->
  doValidate vs x = Some (message v x).
Proof.
  induction vs as [|v0 rest IH]; intros Hin Hviol Huniq.
  - apply elem_of_nil in Hin. contradiction.
  - destruct (doValidate_step v0 rest x) as [Hhit Hmiss].
    apply elem_of_cons in Hin as [->|Hin].
    + apply Hhit, Hviol.
    + destruct (violated_dec v0 x) as [Hv0|Hv0].
      * rewrite (Huniq v0 (list_elem_of_here _ _) Hv0) in *. apply Hhit, Hviol.
      * rewrite (Hmiss Hv0). apply IH; [exact Hin | exact Hviol |].
        intros v' Hv' Hviol'. apply Huniq; [apply list_elem_of_further, Hv' | exact Hviol'].
Qed.

Lemma name_violation (x : option string) (msg : string) :
  pathViolation UserModel.nameValidators x msg ->
  doValidate UserModel.nameValidators x = Some msg.
Proof.
  intros (v & Hin & Hviol & ->). apply doValidate_only; [exact Hin | exact Hviol |].
  intros v' Hin' Hviol'. unfold UserModel.nameValidators in *.
  repeat (apply elem_of_cons in Hin as [->|Hin]);
    repeat (apply elem_of_cons in Hin' as [->|Hin']);
    try reflexivity;
    try (apply elem_of_nil in Hin; contradiction);
    try (apply elem_of_nil in Hin'; contradiction);
    exfalso; destruct Hviol as [Hr Hviol], Hviol' as [Hr' Hviol']; simpl in *;
    destruct x as [s|]; try (specialize (Hr eq_refl)); try (specialize (Hr' eq_refl));
    try discriminate;
    apply negb_false_iff, String.eqb_eq in Hviol || apply negb_false_iff, String.eqb_eq in Hviol';
    subst s; discriminate.
Qed.

Lemma email_violation (x : option string) (msg : string) :
  pathViolation UserModel.emailValidators x msg ->
  doValidate UserModel.emailValidators x = Some msg.
Proof.
  intros (v & Hin & Hviol & ->). apply doValidate_only; [exact Hin | exact Hviol |].
  intros v' Hin' Hviol'. unfold UserModel.emailValidators in *.
  repeat (apply elem_of_cons in Hin as [->|Hin]);
    repeat (apply elem_of_cons in Hin' as [->|Hin']);
    try reflexivity;
    try (apply elem_of_nil in Hin; contradiction);
    try (apply elem_of_nil in Hin'; contradiction);
    exfalso; destruct Hviol as [Hr Hviol], Hviol' as [Hr' Hviol']; simpl in *;
    destruct x as [s|]; try (specialize (Hr eq_refl)); try (specialize (Hr' eq_refl));
    try discriminate;
    destruct (String.eqb s ""); discriminate.
Qed.

Lemma age_violation (x : option Z) (msg : string) :
  pathViolation UserModel.ageValidators x msg ->
  doValidate UserModel.ageValidators x = Some msg.
Proof.
  intros (v & Hin & Hviol & ->). apply doValidate_only; [exact Hin | exact Hviol |].
  intros v' Hin' Hviol'. unfold UserModel.ageValidators in *.
  repeat (apply elem_of_cons in Hin as [->|Hin]);
    repeat (apply elem_of_cons in Hin' as [->|Hin']);
    try reflexivity;
    try (apply elem_of_nil in Hin; contradiction);
    try (apply elem_of_nil in Hin'; contradiction);
    exfalso; destruct Hviol as [Hr Hviol], Hviol' as [Hr' Hviol']; simpl in *;
    destruct x as [n|]; try discriminate; lia.
Qed.

Lemma single_violation {A} (v0 : Validator A) (x : option A) (msg : string) :
  pathViolation [v0] x msg -> doValidate [v0] x = Some msg.
Proof.
  intros (v & Hin & Hviol & ->). apply list_elem_of_singleton in Hin as ->.
  apply (doValidate_step v0 [] x), Hviol.
Qed.

Lemma pathError_message (path msg : string) :
  msg ∈ (pathError path (Some msg)).*2.
Proof. simpl. apply list_elem_of_here. Qed.

Lemma detailsOf_validationFailed (errs : list (string * string)) :
  detailsOf (validationFailed errs) = errs.*2.
Proof.
  unfold detailsOf, validationFailed. simpl.
  induction (errs.*2) as [|m l IH]; [reflexivity |]. simpl. f_equal. exact IH.
Qed.


Lemma user_violation_listed (d : UserModel.Doc) (msg : string) :
  userViolation d msg -> msg ∈ (UserModel.validate d).*2.
Proof.
  unfold UserModel.validate. rewrite !fmap_app, !elem_of_app.
  intros [H | [H | H]].
  - left. rewrite (name_violation _ _ H). apply pathError_message.
  - right; left. rewrite (email_violation _ _ H). apply pathError_message.
  - right; right. rewrite (age_violation _ _ H). apply pathError_message.
Qed.

Lemma analisis_violation_listed (d : AnalisisModel.Doc) (msg : string) :
  analisisViolation d msg -> msg ∈ (AnalisisModel.validate d).*2.
Proof.
  unfold analisisViolation, AnalisisModel.validate,
    AnalisisModel.requiredValidators, AnalisisModel.estadoValidators.
  rewrite !fmap_app, !elem_of_app.
  intros [H | [H | [H | [H | H]]]].
  - left. rewrite (single_violation _ _ _ H). apply pathError_message.
  - right; left. rewrite (single_violation _ _ _ H). apply pathError_message.
  - do 2 right; left. rewrite (single_violation _ _ _ H). apply pathError_message.
  - do 3 right; left. rewrite (single_violation _ _ _ H). apply pathError_message.
  - do 4 right. rewrite (single_violation _ _ _ H). apply pathError_message.
Qed.





Lemma nonempty_of_elem {A} (x : A) (l : list (string * A)) :
  x ∈ l.*2 -> exists e es, l = e :: es.
Proof.
  destruct l as [|e es]; [intros H; apply elem_of_nil in H; contradiction |].
  intros _. exists e, es. reflexivity.
Qed.

(** C6: when the document built from the body of a create request
    violates a constraint of the schema, [POST] answers 400 with the
    validation envelope, and the message of the violated constraint is
    in its [details]; this for every violated constraint, and for both
    resources. *)
Theorem C6_create_lists_violations :
  (forall (db db0 : Db UserModel.Doc) reqBody d msg,
     construct UserModel.User reqBody db = (Return d, db0) ->
     userViolation d msg ->
     let r := (UsersRouter.post reqBody db).1 in
     status r = 400
     /\ Js.prop "error" (body r) = Some (Js.Str "Errores de validación")
     /\ msg ∈ detailsOf r)
  /\ (forall (db db0 : Db AnalisisModel.Doc) reqBody d msg,
        construct AnalisisModel.Analisis reqBody db = (Return d, db0) ->
        analisisViolation d msg ->
        let r := (AnalisisRouter.post reqBody db).1 in
        status r = 400
        /\ Js.prop "error" (body r) = Some (Js.Str "Errores de validación")
        /\ msg ∈ detailsOf r).
Proof.
  split.
  - intros db db0 body d msg Hnew Hviol r. subst r.
    apply user_violation_listed in Hviol.
    destruct (nonempty_of_elem _ _ Hviol) as (e & es & Hv).
    rewrite (users_post_invalid body db db0 d e es Hnew Hv).
    cbn [fst]. rewrite detailsOf_validationFailed, <- Hv.
    split; [reflexivity |]. split; [reflexivity | exact Hviol].
  - intros db db0 body d msg Hnew Hviol r. subst r.
    apply analisis_violation_listed in Hviol.
    destruct (nonempty_of_elem _ _ Hviol) as (e & es & Hv).
    rewrite (analisis_post_invalid body db db0 d e es Hnew Hv).
    cbn [fst]. rewrite detailsOf_validationFailed, <- Hv.
    split; [reflexivity |]. split; [reflexivity | exact Hviol].
Qed.

Lemma C6_create_lists_violations_witness :
  "La edad no puede ser mayor a 120"
    ∈ detailsOf (UsersRouter.post (userBody None (Some "x") (Some 300)) twoUsers).1
  /\ "Path `tipo_analisis` is required."
       ∈ detailsOf (AnalisisRouter.post
                      (analisisBody (Some "A-009") None (Some "Sur") (Some "Mar") None)
                      twoAnalisis).1.
Proof.
  destruct C6_create_lists_violations as [Huser Hanalisis]. split.
  - eapply Huser; [vm_compute; reflexivity |].
    right; right. exists (max 120 "La edad no puede ser mayor a 120").
    split; [apply list_elem_of_further, list_elem_of_here |].
    split; [split; [discriminate | reflexivity] | reflexivity].
  - eapply Hanalisis; [vm_compute; reflexivity |].
    right; left. exists (required (requiredMessage "tipo_analisis")).
    split; [apply list_elem_of_here |].
    split; [split; reflexivity | reflexivity].
Defined.




(** ** Creating and reading back *)

Lemma user_profile_agrees (d : UserModel.Doc) (k : string) :
  k ∈ ["name"; "email"; "age"; "isActive"; "createdAt"] ->
  Js.prop k (UserModel.getPublicProfile d) = Js.prop k (UserModel.toJSON (UserModel.set___v None d)).
Proof.
  intros Hk.
  repeat (apply elem_of_cons in Hk as [->|Hk]);
    try (apply elem_of_nil in Hk; contradiction);
    destruct d as [i [n|] [e|] [a|] b c t v]; reflexivity.
Qed.

Lemma user_profile_id (d : UserModel.Doc) :
  Js.prop "id" (UserModel.getPublicProfile d) = Some (Js.ObjectId (UserModel._id d))
  /\ Js.prop "_id" (UserModel.toJSON (UserModel.set___v None d))
     = Some (Js.ObjectId (UserModel._id d)).
Proof. destruct d as [i [n|] [e|] [a|] b c t v]; split; reflexivity. Qed.

Lemma analisis_json_without_version (d : AnalisisModel.Doc) (v : Z) :
  AnalisisModel.toJSON (AnalisisModel.set___v None d)
  = Js.removeProp "__v" (AnalisisModel.toJSON (AnalisisModel.set___v (Some v) d)).
Proof.
  destruct d as [i [n|] f [t|] [l|] [r|] o e c u w]; reflexivity.
Qed.

Lemma analisis_json_id (d : AnalisisModel.Doc) :
  idOf (AnalisisModel.toJSON d) = Some (AnalisisModel._id d).
Proof. destruct d as [i [n|] f [t|] [l|] [r|] o e c u [w|]]; reflexivity. Qed.

(** C8, as stated, fails: the record a create answers with is not the
    one get-by-id answers with.  For a user the create answers with the
    public profile ([id], no [updatedAt]) and get-by-id with the stored
    document ([_id], [updatedAt]); for an analysis the create answers
    with the saved document, version key [__v] included, and get-by-id
    leaves [__v] out. *)
Lemma C8_create_and_get_differ :
  (let created := UsersRouter.post ana (emptyDb sampleClock) in
   status created.1 = 201
   /\ Js.prop "data" (body created.1)
      = Some (Js.Obj
          [ ("id", Js.ObjectId 0); ("name", Js.Str "Ana"); ("email", Js.Str "ana@x.com");
            ("age", Js.Num 30); ("isActive", Js.Bool true); ("createdAt", Js.Date 1000) ])
   /\ (UsersRouter.get_by_id 0 created.2).1
      = res_json (Js.Obj
          [ ("success", Js.Bool true);
            ("data", Js.Obj
               [ ("_id", Js.ObjectId 0); ("name", Js.Str "Ana");
                 ("email", Js.Str "ana@x.com"); ("age", Js.Num 30);
                 ("isActive", Js.Bool true); ("createdAt", Js.Date 1000);
                 ("updatedAt", Js.Date 1020) ]) ])
   /\ Js.prop "data" (body created.1)
      <> Js.prop "data" (body (UsersRouter.get_by_id 0 created.2).1))
  /\ (let created := AnalisisRouter.post a001 (emptyDb sampleClock) in
      status created.1 = 201
      /\ (Js.prop "data" (body created.1) ≫= Js.prop "__v") = Some (Js.Num 0)
      /\ (Js.prop "data" (body (AnalisisRouter.get_by_id 0 created.2).1) ≫= Js.prop "__v")
         = None
      /\ Js.prop "data" (body created.1)
         <> Js.prop "data" (body (AnalisisRouter.get_by_id 0 created.2).1)).
Proof. vm_compute. repeat split; try reflexivity; discriminate. Qed.

(** C8, amended: a create whose body passes validation and whose unique
    key is held by no stored record answers 201, and get-by-id with the
    id of the answer answers 200 with the stored record.  For a user
    the created answer is the public profile: its [id] is the record's
    [_id] and its name, email, age, isActive and createdAt are the
    record's.  For an analysis the record is the created answer
    without the version key [__v]. *)
Theorem C8_create_then_get :
  (forall (db db0 : Db UserModel.Doc) reqBody d,
     construct UserModel.User reqBody db = (Return d, db0) ->
     UserModel.validate d = [] ->
     (forall i d', docs db !! i = Some d' -> UserModel.email d' <> UserModel.email d) ->
     let created := UsersRouter.post reqBody db in
     exists profile record,
       status created.1 = 201
       /\ Js.prop "data" (body created.1) = Some profile
       /\ Js.prop "id" profile = Some (Js.ObjectId (nextId db))
       /\ (UsersRouter.get_by_id (nextId db) created.2).1
          = res_json (Js.Obj [ ("success", Js.Bool true); ("data", record) ])
       /\ Js.prop "_id" record = Js.prop "id" profile
       /\ forall k, k ∈ ["name"; "email"; "age"; "isActive"; "createdAt"] ->
                    Js.prop k profile = Js.prop k record)
  /\ (forall (db db0 : Db AnalisisModel.Doc) reqBody d,
        construct AnalisisModel.Analisis reqBody db = (Return d, db0) ->
        AnalisisModel.validate d = [] ->
        (forall i d', docs db !! i = Some d' ->
                      AnalisisModel.numero_analisis d' <> AnalisisModel.numero_analisis d) ->
        let created := AnalisisRouter.post reqBody db in
        exists saved record,
          status created.1 = 201
          /\ Js.prop "data" (body created.1) = Some saved
          /\ idOf saved = Some (nextId db)
          /\ (AnalisisRouter.get_by_id (nextId db) created.2).1
             = res_json (Js.Obj [ ("success", Js.Bool true); ("data", record) ])
          /\ record = Js.removeProp "__v" saved).
Proof.
  split.
  - intros db db0 reqBody d Hnew Hv Hfree created. subst created.
    destruct (newUser_run reqBody db) as (d1 & db1 & Hnew1 & Hdocs & _ & _ & Hid & _).
    simpl in Hnew. rewrite Hnew in Hnew1. injection Hnew1 as <- <-.
    assert (Hdup : duplicateKey UserModel.User (UserModel._id d) (UserModel.email d) (docs db0)
                   = false).
    { apply duplicateKey_false. intros i d' Hi _. rewrite Hdocs in Hi. exact (Hfree i d' Hi). }
    rewrite (users_post_created reqBody db db0 d Hnew Hv Hdup). cbn [fst snd].
    set (d' := UserModel.set___v (Some 0)
                 (UserModel.set_updatedAt (clock db0 (ticks db0)) d)).
    exists (UserModel.getPublicProfile d'), (UserModel.toJSON (UserModel.set___v None d')).
    destruct (user_profile_id d') as [Hpid Hrid].
    assert (Hid' : UserModel._id d' = nextId db) by exact Hid.
    rewrite Hid' in Hpid, Hrid.
    split; [reflexivity |]. split; [reflexivity |]. split; [exact Hpid |].
    split; [| split; [congruence | intros k Hk; apply user_profile_agrees, Hk]].
    apply users_get_by_id_found. simpl. rewrite Hid. apply lookup_insert_eq.
  - intros db db0 reqBody d Hnew Hv Hfree created. subst created.
    destruct (newAnalisis_run reqBody db) as (d1 & db1 & Hnew1 & Hdocs & _ & _ & Hid & _).
    simpl in Hnew. rewrite Hnew in Hnew1. injection Hnew1 as <- <-.
    assert (Hdup : duplicateKey AnalisisModel.Analisis (AnalisisModel._id d)
                     (AnalisisModel.numero_analisis d) (docs db0) = false).
    { apply duplicateKey_false. intros i d' Hi _. rewrite Hdocs in Hi. exact (Hfree i d' Hi). }
    rewrite (analisis_post_created reqBody db db0 d Hnew Hv Hdup). cbn [fst snd].
    set (d0 := AnalisisModel.set_updatedAt (clock db0 (ticks db0)) d).
    exists (AnalisisModel.toJSON (AnalisisModel.set___v (Some 0) d0)),
           (AnalisisModel.toJSON (AnalisisModel.set___v None d0)).
    split; [reflexivity |]. split; [reflexivity |].
    split; [rewrite analisis_json_id; simpl; rewrite Hid; reflexivity |].
    split; [| apply analisis_json_without_version].
    rewrite (analisis_get_by_id_found (nextId db) _
               (AnalisisModel.set___v (Some 0) d0)); [reflexivity |].
    simpl. rewrite Hid. apply lookup_insert_eq.
Qed.

Lemma C8_create_then_get_witness :
  status (UsersRouter.post (userBody (Some "Eva") (Some "eva@x.org") (Some 41)) twoUsers).1 = 201
  /\ status (AnalisisRouter.post
               (analisisBody (Some "A-003") (Some "sangre") (Some "Sur") (Some "Mar") None)
               twoAnalisis).1 = 201.
Proof.
  destruct C8_create_then_get as [Huser Hanalisis]. split.
  - edestruct Huser
      with (db := twoUsers) (reqBody := userBody (Some "Eva") (Some "eva@x.org") (Some 41))
      as (profile & record & Hstatus & _);
      [vm_compute; reflexivity | vm_compute; reflexivity | | exact Hstatus].
    intros i d' Hi Heq. apply elem_of_map_to_list in Hi.
    set (stored := map_to_list _) in Hi. vm_compute in stored. subst stored.
    repeat (apply elem_of_cons in Hi as [Hi | Hi];
            [injection Hi as -> ->; discriminate Heq |]).
    apply elem_of_nil in Hi. exact Hi.
  - edestruct Hanalisis
      with (db := twoAnalisis)
           (reqBody := analisisBody (Some "A-003") (Some "sangre") (Some "Sur") (Some "Mar") None)
      as (saved & record & Hstatus & _);
      [vm_compute; reflexivity | vm_compute; reflexivity | | exact Hstatus].
    intros i d' Hi Heq. apply elem_of_map_to_list in Hi.
    set (stored := map_to_list _) in Hi. vm_compute in stored. subst stored.
    repeat (apply elem_of_cons in Hi as [Hi | Hi];
            [injection Hi as -> ->; discriminate Heq |]).
    apply elem_of_nil in Hi. exact Hi.
Defined.

(** * Further properties of the models and the routers *)

(** ** Listing *)

Lemma analisis_get_all_response (q : AnalisisRouter.Query) (db : Db AnalisisModel.Doc) :
  let found :=
    AnalisisModel.set___v None
      <$> filter (fun a => AnalisisRouter.satisfies (AnalisisRouter.buildFilter q) a = true)
            ((map_to_list (docs db)).*2) in
  (AnalisisRouter.get_all q db).1
  = res_json (Js.Obj
      [ ("success", Js.Bool true);
        ("count", Js.Num (Z.of_nat (List.length found)));
        ("data", Js.Arr (AnalisisModel.toJSON <$> found)) ]).
Proof. reflexivity. Qed.

Lemma truthy_spec (s : option string) :
  AnalisisRouter.truthy s = true <-> exists v, s = Some v /\ v <> "".
Proof.
  destruct s as [v|]; simpl.
  - rewrite negb_true_iff, String.eqb_neq. split.
    + intros H. exists v. split; [reflexivity | exact H].
    + intros (v' & Hv & H). injection Hv as <-. exact H.
  - split; [discriminate | intros (v & Hv & _); discriminate].
Qed.

(** The filter built from the query asks for the [estado] and the
    [laboratorio] of the query when they are non-empty strings, and
    for nothing else. *)
Lemma satisfies_buildFilter (q : AnalisisRouter.Query) (a : AnalisisModel.Doc) :
  AnalisisRouter.satisfies (AnalisisRouter.buildFilter q) a = true
  <-> (forall s, AnalisisRouter.q_estado q = Some s -> s <> "" -> AnalisisModel.estado a = s)
      /\ (forall l, AnalisisRouter.q_laboratorio q = Some l -> l <> "" ->
                    AnalisisModel.laboratorio a = Some l).
Proof.
  destruct q as [[e|] [l|]]; unfold AnalisisRouter.buildFilter, AnalisisRouter.satisfies;
    simpl;
    try (destruct (String.eqb_spec e "") as [->|He]);
    try (destruct (String.eqb_spec l "") as [->|Hl]);
    simpl; rewrite ?andb_true_iff, ?bool_decide_eq_true, ?String.eqb_eq;
    split; try tauto;
    try (intros H; split; intros x Hx Hne; try discriminate Hx;
         try (injection Hx as <-); try contradiction; tauto);
    try (intros [H1 H2]; try split; try reflexivity;
         try (apply H1; [reflexivity | assumption]);
         try (apply H2; [reflexivity | assumption]); tauto).
Qed.

(** X1: [GET /api/analisis] lists exactly the stored analyses that have
    the [estado] and the [laboratorio] of the query; a parameter that
    is absent or the empty string asks for nothing, so that without
    parameters every stored analysis is listed. *)
Theorem X1_analisis_list_filter
    (db : Db AnalisisModel.Doc) (q : AnalisisRouter.Query) (i : N) :
  consistent AnalisisModel.Analisis db ->
  i ∈ listedIds (AnalisisRouter.get_all q db).1
  <-> exists a, docs db !! i = Some a
        /\ (forall s, AnalisisRouter.q_estado q = Some s -> s <> "" ->
                      AnalisisModel.estado a = s)
        /\ (forall l, AnalisisRouter.q_laboratorio q = Some l -> l <> "" ->
                      AnalisisModel.laboratorio a = Some l).
Proof.
  intros Hc. rewrite analisis_get_all_response. unfold listedIds, dataOf. simpl.
  rewrite list_elem_of_omap. split.
  - intros (j & Hj & Hid).
    apply list_elem_of_fmap in Hj as (a' & -> & Ha').
    apply list_elem_of_fmap in Ha' as (a & -> & Ha).
    apply list_elem_of_filter in Ha as [Hsat Ha].
    apply list_elem_of_fmap in Ha as ([k a0] & -> & Ha). simpl in *.
    apply elem_of_map_to_list in Ha.
    rewrite analisis_json_id in Hid. injection Hid as <-. simpl.
    destruct (Hc k a0 Ha) as [Hk _]. simpl in Hk. rewrite Hk.
    exists a0. split; [exact Ha | apply satisfies_buildFilter, Hsat].
  - intros (a & Ha & Hsat).
    exists (AnalisisModel.toJSON (AnalisisModel.set___v None a)). split.
    + apply list_elem_of_fmap. exists (AnalisisModel.set___v None a). split; [reflexivity |].
      apply list_elem_of_fmap. exists a. split; [reflexivity |].
      apply list_elem_of_filter. split; [apply satisfies_buildFilter, Hsat |].
      apply list_elem_of_fmap. exists (i, a). split; [reflexivity |].
      apply elem_of_map_to_list. exact Ha.
    + rewrite analisis_json_id. simpl. destruct (Hc i a Ha) as [Hi _]. simpl in Hi.
      rewrite Hi. reflexivity.
Qed.

Lemma X1_analisis_list_filter_witness :
  1%N ∈ listedIds
          (AnalisisRouter.get_all
             {| AnalisisRouter.q_estado := Some "en_proceso";
                AnalisisRouter.q_laboratorio := Some "" |} twoAnalisis).1.
Proof.
  apply X1_analisis_list_filter; [exact twoAnalisis_consistent |].
  eexists. split; [vm_compute; reflexivity |]. split.
  - intros s Hs _. injection Hs as <-. reflexivity.
  - intros l Hl Hne. injection Hl as <-. contradiction.
Defined.

Lemma user_json_no_version (u : UserModel.Doc) :
  Js.prop "__v" (UserModel.toJSON (UserModel.set___v None u)) = None.
Proof. destruct u as [i [n|] [e|] [a|] b c t v]; reflexivity. Qed.

Lemma analisis_json_no_version (a : AnalisisModel.Doc) :
  Js.prop "__v" (AnalisisModel.toJSON (AnalisisModel.set___v None a)) = None.
Proof. destruct a as [i [n|] f [t|] [l|] [r|] o e c u w]; reflexivity. Qed.

Lemma filter_all {A} (P : A -> Prop) `{forall x, Decision (P x)} (l : list A) :
  (forall x, x ∈ l -> P x) -> filter P l = l.
Proof.
  induction l as [|x l IH]; intros Hall; [reflexivity |].
  rewrite filter_cons_True by (apply Hall, list_elem_of_here).
  f_equal. apply IH. intros y Hy. apply Hall, list_elem_of_further, Hy.
Qed.

(** X2: both list endpoints answer 200 with [success: true], a [count]
    equal to the number of records in [data], at most the number of
    stored documents, and no record carrying the version key [__v];
    [GET /api/analisis] without effective parameters returns as many
    records as are stored. *)
Theorem X2_list_envelope :
  (forall (db : Db UserModel.Doc),
     let r := (UsersRouter.get_all db).1 in
     status r = 200
     /\ Js.prop "success" (body r) = Some (Js.Bool true)
     /\ Js.prop "count" (body r) = Some (Js.Num (Z.of_nat (List.length (dataOf r))))
     /\ (List.length (dataOf r) <= size (docs db))%nat
     /\ Forall (fun record => Js.prop "__v" record = None) (dataOf r))
  /\ (forall (db : Db AnalisisModel.Doc) (q : AnalisisRouter.Query),
        let r := (AnalisisRouter.get_all q db).1 in
        status r = 200
        /\ Js.prop "success" (body r) = Some (Js.Bool true)
        /\ Js.prop "count" (body r) = Some (Js.Num (Z.of_nat (List.length (dataOf r))))
        /\ (List.length (dataOf r) <= size (docs db))%nat
        /\ Forall (fun record => Js.prop "__v" record = None) (dataOf r)
        /\ (AnalisisRouter.truthy (AnalisisRouter.q_estado q) = false ->
            AnalisisRouter.truthy (AnalisisRouter.q_laboratorio q) = false ->
            List.length (dataOf r) = size (docs db))).
Proof.
  split.
  - intros db r. subst r. rewrite users_get_all_response. unfold dataOf. simpl.
    rewrite !length_fmap.
    split; [reflexivity |]. split; [reflexivity |]. split; [reflexivity |]. split.
    + etransitivity; [apply length_filter |].
      rewrite length_fmap, length_map_to_list. reflexivity.
    + rewrite !Forall_fmap. apply Forall_forall. intros u _. apply user_json_no_version.
  - intros db q r. subst r. rewrite analisis_get_all_response. unfold dataOf. simpl.
    rewrite !length_fmap.
    split; [reflexivity |]. split; [reflexivity |]. split; [reflexivity |].
    split; [| split].
    + etransitivity; [apply length_filter |].
      rewrite length_fmap, length_map_to_list. reflexivity.
    + rewrite !Forall_fmap. apply Forall_forall. intros a _. apply analisis_json_no_version.
    + intros He Hl. unfold AnalisisRouter.buildFilter. rewrite He, Hl.
      rewrite filter_all by reflexivity.
      rewrite length_fmap, length_map_to_list. reflexivity.
Qed.

Lemma X2_list_envelope_witness :
  List.length
    (dataOf (AnalisisRouter.get_all
               {| AnalisisRouter.q_estado := None; AnalisisRouter.q_laboratorio := Some "" |}
               twoAnalisis).1)
  = size (docs twoAnalisis).
Proof.
  destruct X2_list_envelope as [_ Hanalisis].
  apply Hanalisis; reflexivity.
Defined.

(** ** The envelope *)

Ltac answer_ok :=
  left; simpl; repeat split; solve [reflexivity | left; reflexivity | right; reflexivity].

Ltac answer_ko :=
  right; simpl; (split; [| split; [reflexivity | eexists; reflexivity]]);
  solve [ left; reflexivity | right; left; reflexivity | right; right; reflexivity ].

(** X3: every answer of either router is either a success, with status
    200 or 201, [success: true] and no [error], or a failure, with
    status 400, 404 or 500, [success: false] and an [error] message. *)
Theorem X3_success_flag_agrees_with_status :
  (forall (r : UserRequest) (db : Db UserModel.Doc),
     let res := (handleUser r db).1 in
     ((status res = 200 \/ status res = 201)
      /\ Js.prop "success" (body res) = Some (Js.Bool true)
      /\ Js.prop "error" (body res) = None)
     \/ ((status res = 400 \/ status res = 404 \/ status res = 500)
         /\ Js.prop "success" (body res) = Some (Js.Bool false)
         /\ exists msg, Js.prop "error" (body res) = Some (Js.Str msg)))
  /\ (forall (r : AnalisisRequest) (db : Db AnalisisModel.Doc),
        let res := (handleAnalisis r db).1 in
        ((status res = 200 \/ status res = 201)
         /\ Js.prop "success" (body res) = Some (Js.Bool true)
         /\ Js.prop "error" (body res) = None)
        \/ ((status res = 400 \/ status res = 404 \/ status res = 500)
            /\ Js.prop "success" (body res) = Some (Js.Bool false)
            /\ exists msg, Js.prop "error" (body res) = Some (Js.Str msg))).
Proof.
  split.
  - intros r db res. subst res. destruct r as [|id|reqBody|id reqBody|id]; cbn [handleUser].
    + rewrite users_get_all_response. answer_ok.
    + destruct (docs db !! id) as [u|] eqn:Hu.
      * rewrite (users_get_by_id_found id db u Hu). answer_ok.
      * rewrite (users_get_by_id_missing id db Hu). answer_ko.
    + destruct (newUser_run reqBody db) as (d & db0 & Hnew & _).
      destruct (UserModel.validate d) as [|e es] eqn:Hv.
      * destruct (duplicateKey UserModel.User (UserModel._id d) (UserModel.email d) (docs db0))
          eqn:Hdup.
        -- rewrite (users_post_duplicate reqBody db db0 d Hnew Hv Hdup). answer_ko.
        -- rewrite (users_post_created reqBody db db0 d Hnew Hv Hdup). answer_ok.
      * rewrite (users_post_invalid reqBody db db0 d e es Hnew Hv). answer_ko.
    + destruct (UserModel.validateBody (UserModel.castBody reqBody)) as [|e es] eqn:Hv.
      * destruct (docs db !! id) as [u|] eqn:Hu.
        -- destruct (duplicateKey UserModel.User id
                       (UserModel.email (UserModel.assign (UserModel.castBody reqBody) u))
                       (docs db)
                     && bool_decide
                          (UserModel.email (UserModel.assign (UserModel.castBody reqBody) u)
                           <> UserModel.email u)) eqn:Hdup.
           ++ rewrite (users_put_duplicate id reqBody db u Hv Hu Hdup). answer_ko.
           ++ rewrite (users_put_found id reqBody db u Hv Hu Hdup). answer_ok.
        -- rewrite (users_put_missing id reqBody db Hv Hu). answer_ko.
      * rewrite (users_put_invalid id reqBody db e es Hv). answer_ko.
    + destruct (docs db !! id) as [u|] eqn:Hu.
      * rewrite (users_delete_found id db u Hu). answer_ok.
      * rewrite (users_delete_missing id db Hu). answer_ko.
  - intros r db res. subst res. destruct r as [q|id|reqBody|id reqBody|id]; cbn [handleAnalisis].
    + rewrite analisis_get_all_response. answer_ok.
    + destruct (docs db !! id) as [a|] eqn:Ha.
      * rewrite (analisis_get_by_id_found id db a Ha). answer_ok.
      * rewrite (analisis_get_by_id_missing id db Ha). answer_ko.
    + destruct (newAnalisis_run reqBody db) as (d & db0 & Hnew & _).
      destruct (AnalisisModel.validate d) as [|e es] eqn:Hv.
      * destruct (duplicateKey AnalisisModel.Analisis (AnalisisModel._id d)
                    (AnalisisModel.numero_analisis d) (docs db0)) eqn:Hdup.
        -- rewrite (analisis_post_duplicate reqBody db db0 d Hnew Hv Hdup). answer_ko.
        -- rewrite (analisis_post_created reqBody db db0 d Hnew Hv Hdup). answer_ok.
      * rewrite (analisis_post_invalid reqBody db db0 d e es Hnew Hv). answer_ko.
    + destruct (AnalisisModel.validateBody reqBody) as [|e es] eqn:Hv.
      * destruct (docs db !! id) as [a|] eqn:Ha.
        -- destruct (duplicateKey AnalisisModel.Analisis id
                       (AnalisisModel.numero_analisis (AnalisisModel.assign reqBody a))
                       (docs db)
                     && bool_decide
                          (AnalisisModel.numero_analisis (AnalisisModel.assign reqBody a)
                           <> AnalisisModel.numero_analisis a)) eqn:Hdup.
           ++ rewrite (analisis_put_duplicate id reqBody db a Hv Ha Hdup). answer_ko.
           ++ rewrite (analisis_put_found id reqBody db a Hv Ha Hdup). answer_ok.
        -- rewrite (analisis_put_missing id reqBody db Hv Ha). answer_ko.
      * rewrite (analisis_put_invalid id reqBody db e es Hv). answer_ko.
    + destruct (docs db !! id) as [a|] eqn:Ha.
      * rewrite (analisis_delete_found id db a Ha). answer_ok.
      * rewrite (analisis_delete_missing id db Ha). answer_ko.
Qed.

(** ** What a request does to the collection, by its answer *)

Lemma users_outcome (r : UserRequest) (db : Db UserModel.Doc) :
  let res := (handleUser r db).1 in
  let db' := (handleUser r db).2 in
  (docs db' = docs db
   /\ ((status res = 200 /\ (r = UGetAll \/ exists id, r = UGetById id))
       \/ status res = 400 \/ status res = 404 \/ status res = 500))
  \/ (exists id update u,
        r = UPut id update /\ status res = 200 /\ docs db !! id = Some u
        /\ UserModel.validateBody (UserModel.castBody update) = []
        /\ duplicateKey UserModel.User id
             (UserModel.email (UserModel.assign (UserModel.castBody update) u)) (docs db)
           && bool_decide
                (UserModel.email (UserModel.assign (UserModel.castBody update) u)
                 <> UserModel.email u) = false
        /\ docs db' = <[id := UserModel.assign (UserModel.castBody update) u]> (docs db))
  \/ (exists id u,
        r = UDelete id /\ status res = 200 /\ docs db !! id = Some u
        /\ docs db' = <[id := UserModel.assign UsersRouter.deactivate u]> (docs db))
  \/ (exists reqBody d,
        r = UPost reqBody /\ status res = 201 /\ UserModel._id d = nextId db
        /\ UserModel.validate d = []
        /\ UserModel.name d = UserModel.setName <$> UserModel.Body.name reqBody
        /\ UserModel.email d = UserModel.setEmail <$> UserModel.Body.email reqBody
        /\ UserModel.age d = UserModel.Body.age reqBody
        /\ duplicateKey UserModel.User (nextId db) (UserModel.email d) (docs db) = false
        /\ docs db' = <[nextId db := d]> (docs db)).
Proof.
  destruct r as [|id|reqBody|id reqBody|id]; cbn [handleUser].
  - left. split; [reflexivity |]. left. split; [reflexivity | left; reflexivity].
  - left. rewrite users_get_by_id_db. split; [reflexivity |].
    destruct (docs db !! id) as [u|] eqn:Hu.
    + rewrite (users_get_by_id_found id db u Hu). left.
      split; [reflexivity | right; exists id; reflexivity].
    + rewrite (users_get_by_id_missing id db Hu). right; right; left. reflexivity.
  - destruct (newUser_run reqBody db)
      as (d & db0 & Hnew & Hdocs & Hnext & Hclock & Hid & Hname & Hemail & Hage & _).
    destruct (UserModel.validate d) as [|e es] eqn:Hv.
    + destruct (duplicateKey UserModel.User (UserModel._id d) (UserModel.email d) (docs db0))
        eqn:Hdup.
      * rewrite (users_post_duplicate reqBody db db0 d Hnew Hv Hdup). left.
        split; [exact Hdocs | right; left; reflexivity].
      * rewrite (users_post_created reqBody db db0 d Hnew Hv Hdup).
        right; right; right.
        exists reqBody,
          (UserModel.set___v (Some 0) (UserModel.set_updatedAt (clock db0 (ticks db0)) d)).
        cbn [fst snd].
        split; [reflexivity |]. split; [reflexivity |]. split; [exact Hid |].
        split; [exact Hv |]. split; [exact Hname |]. split; [exact Hemail |].
        split; [exact Hage |]. split.
        -- rewrite <- Hid, <- Hdocs. exact Hdup.
        -- simpl. rewrite Hid, Hdocs. reflexivity.
    + rewrite (users_post_invalid reqBody db db0 d e es Hnew Hv). left.
      split; [exact Hdocs | right; left; reflexivity].
  - destruct (UserModel.validateBody (UserModel.castBody reqBody)) as [|e es] eqn:Hv.
    + destruct (docs db !! id) as [u|] eqn:Hu.
      * destruct (duplicateKey UserModel.User id
                    (UserModel.email (UserModel.assign (UserModel.castBody reqBody) u))
                    (docs db)
                  && bool_decide
                       (UserModel.email (UserModel.assign (UserModel.castBody reqBody) u)
                        <> UserModel.email u)) eqn:Hdup.
        -- rewrite (users_put_duplicate id reqBody db u Hv Hu Hdup). left.
           split; [reflexivity | right; right; right; reflexivity].
        -- rewrite (users_put_found id reqBody db u Hv Hu Hdup).
           right; left. exists id, reqBody, u. cbn [fst snd].
           repeat split; assumption.
      * rewrite (users_put_missing id reqBody db Hv Hu). left.
        split; [reflexivity | right; right; left; reflexivity].
    + rewrite (users_put_invalid id reqBody db e es Hv). left.
      split; [reflexivity | right; left; reflexivity].
  - destruct (docs db !! id) as [u|] eqn:Hu.
    + rewrite (users_delete_found id db u Hu).
      right; right; left. exists id, u. cbn [fst snd]. repeat split; assumption.
    + rewrite (users_delete_missing id db Hu). left.
      split; [reflexivity | right; right; left; reflexivity].
Qed.

Lemma analisis_outcome (r : AnalisisRequest) (db : Db AnalisisModel.Doc) :
  let res := (handleAnalisis r db).1 in
  let db' := (handleAnalisis r db).2 in
  (docs db' = docs db
   /\ ((status res = 200 /\ ((exists q, r = AGetAll q) \/ exists id, r = AGetById id))
       \/ status res = 400 \/ status res = 404 \/ status res = 500))
  \/ (exists id update a,
        r = APut id update /\ status res = 200 /\ docs db !! id = Some a
        /\ AnalisisModel.validateBody update = []
        /\ duplicateKey AnalisisModel.Analisis id
             (AnalisisModel.numero_analisis (AnalisisModel.assign update a)) (docs db)
           && bool_decide
                (AnalisisModel.numero_analisis (AnalisisModel.assign update a)
                 <> AnalisisModel.numero_analisis a) = false
        /\ docs db' = <[id := AnalisisModel.assign update a]> (docs db))
  \/ (exists id a,
        r = ADelete id /\ status res = 200 /\ docs db !! id = Some a
        /\ docs db' = delete id (docs db))
  \/ (exists reqBody d,
        r = APost reqBody /\ status res = 201 /\ AnalisisModel._id d = nextId db
        /\ AnalisisModel.validate d = []
        /\ AnalisisModel.numero_analisis d = AnalisisModel.Body.numero_analisis reqBody
        /\ duplicateKey AnalisisModel.Analisis (nextId db)
             (AnalisisModel.numero_analisis d) (docs db) = false
        /\ docs db' = <[nextId db := d]> (docs db)).
Proof.
  destruct r as [q|id|reqBody|id reqBody|id]; cbn [handleAnalisis].
  - left. split; [reflexivity |]. left. split; [reflexivity | left; exists q; reflexivity].
  - left. rewrite analisis_get_by_id_db. split; [reflexivity |].
    destruct (docs db !! id) as [a|] eqn:Ha.
    + rewrite (analisis_get_by_id_found id db a Ha). left.
      split; [reflexivity | right; exists id; reflexivity].
    + rewrite (analisis_get_by_id_missing id db Ha). right; right; left. reflexivity.
  - destruct (newAnalisis_run reqBody db)
      as (d & db0 & Hnew & Hdocs & Hnext & Hclock & Hid & Hnum & _).
    destruct (AnalisisModel.validate d) as [|e es] eqn:Hv.
    + destruct (duplicateKey AnalisisModel.Analisis (AnalisisModel._id d)
                  (AnalisisModel.numero_analisis d) (docs db0)) eqn:Hdup.
      * rewrite (analisis_post_duplicate reqBody db db0 d Hnew Hv Hdup). left.
        split; [exact Hdocs | right; left; reflexivity].
      * rewrite (analisis_post_created reqBody db db0 d Hnew Hv Hdup).
        right; right; right.
        exists reqBody,
          (AnalisisModel.set___v (Some 0)
             (AnalisisModel.set_updatedAt (clock db0 (ticks db0)) d)).
        cbn [fst snd].
        split; [reflexivity |]. split; [reflexivity |]. split; [exact Hid |].
        split; [exact Hv |]. split; [exact Hnum |]. split.
        -- rewrite <- Hid, <- Hdocs. exact Hdup.
        -- simpl. rewrite Hid, Hdocs. reflexivity.
    + rewrite (analisis_post_invalid reqBody db db0 d e es Hnew Hv). left.
      split; [exact Hdocs | right; left; reflexivity].
  - destruct (AnalisisModel.validateBody reqBody) as [|e es] eqn:Hv.
    + destruct (docs db !! id) as [a|] eqn:Ha.
      * destruct (duplicateKey AnalisisModel.Analisis id
                    (AnalisisModel.numero_analisis (AnalisisModel.assign reqBody a))
                    (docs db)
                  && bool_decide
                       (AnalisisModel.numero_analisis (AnalisisModel.assign reqBody a)
                        <> AnalisisModel.numero_analisis a)) eqn:Hdup.
        -- rewrite (analisis_put_duplicate id reqBody db a Hv Ha Hdup). left.
           split; [reflexivity | right; right; right; reflexivity].
        -- rewrite (analisis_put_found id reqBody db a Hv Ha Hdup).
           right; left. exists id, reqBody, a. cbn [fst snd].
           repeat split; assumption.
      * rewrite (analisis_put_missing id reqBody db Hv Ha). left.
        split; [reflexivity | right; right; left; reflexivity].
    + rewrite (analisis_put_invalid id reqBody db e es Hv). left.
      split; [reflexivity | right; right; right; reflexivity].
  - destruct (docs db !! id) as [a|] eqn:Ha.
    + rewrite (analisis_delete_found id db a Ha).
      right; right; left. exists id, a. cbn [fst snd]. repeat split; assumption.
    + rewrite (analisis_delete_missing id db Ha). left.
      split; [reflexivity | right; right; left; reflexivity].
Qed.

(** X4: a request changes the collection only when it is a [POST]
    answered 201, a [PUT] answered 200 or a [DELETE] answered 200: no
    [GET], and no request answered 400, 404 or 500, writes anything. *)
Theorem X4_only_successful_writes_change_the_collection :
  (forall (r : UserRequest) (db : Db UserModel.Doc),
     docs (handleUser r db).2 <> docs db ->
     (exists reqBody, r = UPost reqBody /\ status (handleUser r db).1 = 201)
     \/ (exists id update, r = UPut id update /\ status (handleUser r db).1 = 200)
     \/ (exists id, r = UDelete id /\ status (handleUser r db).1 = 200))
  /\ (forall (r : AnalisisRequest) (db : Db AnalisisModel.Doc),
        docs (handleAnalisis r db).2 <> docs db ->
        (exists reqBody, r = APost reqBody /\ status (handleAnalisis r db).1 = 201)
        \/ (exists id update, r = APut id update /\ status (handleAnalisis r db).1 = 200)
        \/ (exists id, r = ADelete id /\ status (handleAnalisis r db).1 = 200)).
Proof.
  split.
  - intros r db Hchanged.
    destruct (users_outcome r db)
      as [[Hsame _] | [(id & update & u & Hr & Hs & _)
                      | [(id & u & Hr & Hs & _) | (reqBody & d & Hr & Hs & _)]]].
    + contradiction.
    + right; left. exists id, update. split; assumption.
    + right; right. exists id. split; assumption.
    + left. exists reqBody. split; assumption.
  - intros r db Hchanged.
    destruct (analisis_outcome r db)
      as [[Hsame _] | [(id & update & a & Hr & Hs & _)
                      | [(id & a & Hr & Hs & _) | (reqBody & d & Hr & Hs & _)]]].
    + contradiction.
    + right; left. exists id, update. split; assumption.
    + right; right. exists id. split; assumption.
    + left. exists reqBody. split; assumption.
Qed.

Lemma X4_only_successful_writes_change_the_collection_witness :
  status (handleAnalisis (ADelete 0) twoAnalisis).1 = 200.
Proof.
  destruct X4_only_successful_writes_change_the_collection as [_ Hanalisis].
  destruct (Hanalisis (ADelete 0) twoAnalisis)
    as [(reqBody & Hr & _) | [(id & update & Hr & _) | (id & Hr & Hs)]];
    [| discriminate Hr | discriminate Hr | exact Hs].
  intros Heq. apply (f_equal (fun m => m !! 0%N)) in Heq. vm_compute in Heq. discriminate Heq.
Defined.

(** ** Writes, record by record *)

Lemma users_step_keeps_ids (r : UserRequest) (db : Db UserModel.Doc) :
  dom (docs db) ⊆ dom (docs (handleUser r db).2).
Proof.
  destruct (users_outcome r db)
    as [[Hsame _] | [(id & update & u & _ & _ & Hu & _ & _ & Heq)
                    | [(id & u & _ & _ & Hu & Heq)
                      | (reqBody & d & _ & _ & _ & _ & _ & _ & _ & _ & Heq)]]];
    rewrite ?Hsame, ?Heq, ?dom_insert_L; set_solver.
Qed.

(** X5: the user router never removes a record: whatever requests are
    served, every id that was stored is still stored, and the number of
    stored users does not decrease. *)
Theorem X5_users_are_never_removed (rs : list UserRequest) (db : Db UserModel.Doc) :
  dom (docs db) ⊆ dom (docs (serve handleUser rs db))
  /\ (size (docs db) <= size (docs (serve handleUser rs db)))%nat.
Proof.
  assert (Hdom : dom (docs db) ⊆ dom (docs (serve handleUser rs db))).
  { revert db. induction rs as [|r rs IH]; intros db; [reflexivity |].
    rewrite serve_cons. etransitivity; [apply users_step_keeps_ids | apply IH]. }
  split; [exact Hdom |].
  rewrite <- !size_dom. apply subseteq_size, Hdom.
Qed.

(** X8: [DELETE /api/users/:id] of a stored user changes nothing but
    that user's [isActive]: the other paths of the record, the other
    records and the number of records are as before. *)
Theorem X8_user_delete_touches_only_isActive
    (db : Db UserModel.Doc) (id : N) (u : UserModel.Doc) :
  docs db !! id = Some u ->
  let db' := (UsersRouter.delete id db).2 in
  exists u', docs db' !! id = Some u'
    /\ UserModel.isActive u' = false
    /\ UserModel._id u' = UserModel._id u /\ UserModel.name u' = UserModel.name u
    /\ UserModel.email u' = UserModel.email u /\ UserModel.age u' = UserModel.age u
    /\ UserModel.createdAt u' = UserModel.createdAt u
    /\ UserModel.updatedAt u' = UserModel.updatedAt u
    /\ UserModel.__v u' = UserModel.__v u
    /\ (forall j, j <> id -> docs db' !! j = docs db !! j)
    /\ size (docs db') = size (docs db).
Proof.
  intros Hu db'. subst db'. rewrite (users_delete_found id db u Hu). simpl.
  exists (UserModel.assign UsersRouter.deactivate u).
  split; [apply lookup_insert_eq |].
  repeat (split; [reflexivity |]). split.
  - intros j Hj. apply lookup_insert_ne. congruence.
  - apply map_size_insert_Some. exists u. exact Hu.
Qed.

Lemma X8_user_delete_touches_only_isActive_witness :
  exists u', docs (UsersRouter.delete 1 twoUsers).2 !! 1%N = Some u'
             /\ UserModel.isActive u' = false.
Proof.
  edestruct (X8_user_delete_touches_only_isActive twoUsers 1%N) as (u' & Hu' & Hactive & _);
    [vm_compute; reflexivity |].
  exists u'. split; assumption.
Defined.

(** X9: [DELETE /api/analisis/:id] of a stored analysis removes that
    record and no other: the id is no longer stored, every other id
    holds what it held, and there is one record less. *)
Theorem X9_analisis_delete_removes_one
    (db : Db AnalisisModel.Doc) (id : N) (a : AnalisisModel.Doc) :
  docs db !! id = Some a ->
  let db' := (AnalisisRouter.delete id db).2 in
  docs db' !! id = None
  /\ (forall j, j <> id -> docs db' !! j = docs db !! j)
  /\ S (size (docs db')) = size (docs db).
Proof.
  intros Ha db'. subst db'. rewrite (analisis_delete_found id db a Ha). simpl.
  split; [apply lookup_delete_eq |]. split.
  - intros j Hj. apply lookup_delete_ne. congruence.
  - rewrite map_size_delete, Ha. simpl.
    assert (size (docs db) <> 0)%nat; [| lia].
    intros Hz. apply map_size_empty_inv in Hz. rewrite Hz, lookup_empty in Ha. discriminate.
Qed.

Lemma X9_analisis_delete_removes_one_witness :
  docs (AnalisisRouter.delete 0 twoAnalisis).2 !! 0%N = None.
Proof.
  eapply X9_analisis_delete_removes_one. vm_compute. reflexivity.
Defined.

(** X10: a [POST] answered 201 adds one record and touches no other:
    the new record is stored under an id that was not in use, which is
    the id of the answer; every id in use holds what it held; the
    number of records grows by one.  This for both resources. *)
Theorem X10_create_adds_one_record :
  (forall (db : Db UserModel.Doc) reqBody,
     consistent UserModel.User db ->
     let created := UsersRouter.post reqBody db in
     status created.1 = 201 ->
     docs db !! nextId db = None
     /\ is_Some (docs created.2 !! nextId db)
     /\ (Js.prop "data" (body created.1) ≫= Js.prop "id") = Some (Js.ObjectId (nextId db))
     /\ (forall j, j <> nextId db -> docs created.2 !! j = docs db !! j)
     /\ size (docs created.2) = S (size (docs db)))
  /\ (forall (db : Db AnalisisModel.Doc) reqBody,
        consistent AnalisisModel.Analisis db ->
        let created := AnalisisRouter.post reqBody db in
        status created.1 = 201 ->
        docs db !! nextId db = None
        /\ is_Some (docs created.2 !! nextId db)
        /\ (Js.prop "data" (body created.1) ≫= idOf) = Some (nextId db)
        /\ (forall j, j <> nextId db -> docs created.2 !! j = docs db !! j)
        /\ size (docs created.2) = S (size (docs db))).
Proof.
  split.
  - intros db reqBody Hc created. subst created.
    assert (Hfree : docs db !! nextId db = None).
    { destruct (docs db !! nextId db) as [d|] eqn:Hd; [| reflexivity].
      destruct (Hc _ _ Hd) as [_ Hlt]. lia. }
    destruct (newUser_run reqBody db) as (d & db0 & Hnew & Hdocs & _ & _ & Hid & _).
    destruct (UserModel.validate d) as [|e es] eqn:Hv.
    + destruct (duplicateKey UserModel.User (UserModel._id d) (UserModel.email d) (docs db0))
        eqn:Hdup.
      * rewrite (users_post_duplicate reqBody db db0 d Hnew Hv Hdup). discriminate.
      * rewrite (users_post_created reqBody db db0 d Hnew Hv Hdup). cbn [fst snd]. intros _.
        simpl docs. rewrite Hid, Hdocs.
        split; [exact Hfree |]. split; [rewrite lookup_insert_eq; eexists; reflexivity |].
        split; [| split].
        -- cbn. rewrite (proj1 (user_profile_id _)). simpl. rewrite Hid. reflexivity.
        -- intros j Hj. apply lookup_insert_ne. congruence.
        -- apply map_size_insert_None, Hfree.
    + rewrite (users_post_invalid reqBody db db0 d e es Hnew Hv). discriminate.
  - intros db reqBody Hc created. subst created.
    assert (Hfree : docs db !! nextId db = None).
    { destruct (docs db !! nextId db) as [d|] eqn:Hd; [| reflexivity].
      destruct (Hc _ _ Hd) as [_ Hlt]. lia. }
    destruct (newAnalisis_run reqBody db) as (d & db0 & Hnew & Hdocs & _ & _ & Hid & _).
    destruct (AnalisisModel.validate d) as [|e es] eqn:Hv.
    + destruct (duplicateKey AnalisisModel.Analisis (AnalisisModel._id d)
                  (AnalisisModel.numero_analisis d) (docs db0)) eqn:Hdup.
      * rewrite (analisis_post_duplicate reqBody db db0 d Hnew Hv Hdup). discriminate.
      * rewrite (analisis_post_created reqBody db db0 d Hnew Hv Hdup). cbn [fst snd].
        intros _. simpl docs. rewrite Hid, Hdocs.
        split; [exact Hfree |]. split; [rewrite lookup_insert_eq; eexists; reflexivity |].
        split; [| split].
        -- cbn. rewrite analisis_json_id. simpl. rewrite Hid. reflexivity.
        -- intros j Hj. apply lookup_insert_ne. congruence.
        -- apply map_size_insert_None, Hfree.
    + rewrite (analisis_post_invalid reqBody db db0 d e es Hnew Hv). discriminate.
Qed.

Lemma X10_create_adds_one_record_witness :
  size (docs (UsersRouter.post (userBody (Some "Eva") (Some "eva@x.org") None) twoUsers).2)
  = S (size (docs twoUsers)).
Proof.
  destruct X10_create_adds_one_record as [Huser _].
  apply Huser; [exact twoUsers_consistent | vm_compute; reflexivity].
Defined.

(** ** The unique indexes hold *)

Lemma uniqueIndex_insert {D B} (model : Model D B) (m : gmap N D) (id : N) (x : D) :
  uniqueIndex model m ->
  (forall j d', m !! j = Some d' -> j <> id -> uniqueKey model d' <> uniqueKey model x) ->
  uniqueIndex model (<[id := x]> m).
Proof.
  intros Huniq Hfree i j d d' Hi Hj Hkey.
  destruct (decide (i = id)) as [->|Hi']; destruct (decide (j = id)) as [->|Hj'];
    try reflexivity.
  - rewrite lookup_insert_eq in Hi. injection Hi as <-.
    rewrite lookup_insert_ne in Hj by congruence.
    exfalso. exact (Hfree j d' Hj Hj' (eq_sym Hkey)).
  - rewrite lookup_insert_eq in Hj. injection Hj as <-.
    rewrite lookup_insert_ne in Hi by congruence.
    exfalso. exact (Hfree i d Hi Hi' Hkey).
  - rewrite lookup_insert_ne in Hi, Hj by congruence. exact (Huniq i j d d' Hi Hj Hkey).
Qed.

Lemma duplicateKey_false_inv {D B} (model : Model D B) (self : N) key (m : gmap N D) :
  duplicateKey model self key m = false ->
  forall j d', m !! j = Some d' -> j <> self -> uniqueKey model d' <> key.
Proof.
  intros Hdup j d' Hj Hne Hkey.
  assert (duplicateKey model self key m = true); [| congruence].
  apply duplicateKey_true. exists j, d'. repeat split; assumption.
Qed.

(** The check of an update: either no other document holds the new
    key, or the key is the one the document already had. *)
Lemma update_keeps_uniqueIndex {D B} (model : Model D B) (m : gmap N D) (id : N) (x x' : D) :
  uniqueIndex model m -> m !! id = Some x ->
  duplicateKey model id (uniqueKey model x') m
    && bool_decide (uniqueKey model x' <> uniqueKey model x) = false ->
  uniqueIndex model (<[id := x']> m).
Proof.
  intros Huniq Hx Hcheck. apply uniqueIndex_insert; [exact Huniq |].
  apply andb_false_iff in Hcheck as [Hdup | Hsame].
  - apply duplicateKey_false_inv, Hdup.
  - apply bool_decide_eq_false in Hsame.
    assert (Hkey : uniqueKey model x' = uniqueKey model x).
    { destruct (decide (uniqueKey model x' = uniqueKey model x)) as [H|H];
        [exact H | contradiction]. }
    intros j d' Hj Hne Heq. apply Hne. apply (Huniq j id d' x Hj Hx). congruence.
Qed.

Lemma users_serve_unique (rs : list UserRequest) (db : Db UserModel.Doc) :
  uniqueIndex UserModel.User (docs db) ->
  uniqueIndex UserModel.User (docs (serve handleUser rs db)).
Proof.
  revert db. induction rs as [|r rs IH]; intros db Huniq; [exact Huniq |].
  rewrite serve_cons. apply IH. clear IH.
  destruct (users_outcome r db)
    as [[Hsame _] | [(id & update & u & _ & _ & Hu & _ & Hcheck & Heq)
                    | [(id & u & _ & _ & Hu & Heq)
                      | (reqBody & d & _ & _ & _ & _ & _ & _ & _ & Hdup & Heq)]]];
    rewrite ?Hsame, ?Heq.
  - exact Huniq.
  - exact (update_keeps_uniqueIndex UserModel.User (docs db) id u _ Huniq Hu Hcheck).
  - apply (update_keeps_uniqueIndex UserModel.User (docs db) id u _ Huniq Hu).
    simpl. rewrite (bool_decide_eq_false_2 (UserModel.email u <> UserModel.email u)) by tauto.
    apply andb_false_r.
  - apply uniqueIndex_insert; [exact Huniq |].
    exact (duplicateKey_false_inv UserModel.User _ _ _ Hdup).
Qed.

(** X11: the emails of the stored users are pairwise different, and
    stay so whatever requests the user router serves: no create and no
    update can give a user the email of another one. *)
Theorem X11_emails_stay_unique (rs : list UserRequest) (db : Db UserModel.Doc) :
  uniqueIndex UserModel.User (docs db) ->
  uniqueIndex UserModel.User (docs (serve handleUser rs db)).
Proof. apply users_serve_unique. Qed.

Lemma uniqueIndex_empty {D B} (model : Model D B) : uniqueIndex model (∅ : gmap N D).
Proof. intros i j d d' Hi. rewrite lookup_empty in Hi. discriminate. Qed.

Lemma X11_emails_stay_unique_witness : uniqueIndex UserModel.User (docs twoUsers).
Proof.
  apply (X11_emails_stay_unique [UPost ana; UPost bea] (emptyDb sampleClock)).
  apply uniqueIndex_empty.
Defined.

Lemma analisis_serve_unique (rs : list AnalisisRequest) (db : Db AnalisisModel.Doc) :
  uniqueIndex AnalisisModel.Analisis (docs db) ->
  uniqueIndex AnalisisModel.Analisis (docs (serve handleAnalisis rs db)).
Proof.
  revert db. induction rs as [|r rs IH]; intros db Huniq; [exact Huniq |].
  rewrite serve_cons. apply IH. clear IH.
  destruct (analisis_outcome r db)
    as [[Hsame _] | [(id & update & a & _ & _ & Ha & _ & Hcheck & Heq)
                    | [(id & a & _ & _ & Ha & Heq)
                      | (reqBody & d & _ & _ & _ & _ & _ & Hdup & Heq)]]];
    rewrite ?Hsame, ?Heq.
  - exact Huniq.
  - exact (update_keeps_uniqueIndex AnalisisModel.Analisis (docs db) id a _ Huniq Ha Hcheck).
  - intros i j x x' Hi Hj Hkey.
    apply lookup_delete_Some in Hi as [_ Hi]. apply lookup_delete_Some in Hj as [_ Hj].
    exact (Huniq i j x x' Hi Hj Hkey).
  - apply uniqueIndex_insert; [exact Huniq |].
    exact (duplicateKey_false_inv AnalisisModel.Analisis _ _ _ Hdup).
Qed.

(** X12: the numbers of the stored analyses are pairwise different,
    and stay so whatever requests the analysis router serves. *)
Theorem X12_numbers_stay_unique (rs : list AnalisisRequest) (db : Db AnalisisModel.Doc) :
  uniqueIndex AnalisisModel.Analisis (docs db) ->
  uniqueIndex AnalisisModel.Analisis (docs (serve handleAnalisis rs db)).
Proof. apply analisis_serve_unique. Qed.

Lemma twoAnalisis_unique : uniqueIndex AnalisisModel.Analisis (docs twoAnalisis).
Proof.
  apply (analisis_serve_unique [APost a001; APost a002] (emptyDb sampleClock)).
  apply uniqueIndex_empty.
Qed.

Lemma X12_numbers_stay_unique_witness :
  uniqueIndex AnalisisModel.Analisis (docs twoAnalisis).
Proof.
  apply (X12_numbers_stay_unique [APost a001; APost a002] (emptyDb sampleClock)).
  apply uniqueIndex_empty.
Defined.

(** ** The setters of the user schema *)

Lemma lowerChar_idem (c : ascii) : Js.lowerChar (Js.lowerChar c) = Js.lowerChar c.
Proof. destruct c as [[] [] [] [] [] [] [] []]; reflexivity. Qed.

Lemma lowerChar_whiteSpace (c : ascii) : Js.isWhiteSpace (Js.lowerChar c) = Js.isWhiteSpace c.
Proof. destruct c as [[] [] [] [] [] [] [] []]; reflexivity. Qed.

Lemma lowerChar_not_upper (c : ascii) : Js.between 65 90 (Js.lowerChar c) = false.
Proof. destruct c as [[] [] [] [] [] [] [] []]; reflexivity. Qed.

Lemma toLowerCase_idem (s : string) : Js.toLowerCase (Js.toLowerCase s) = Js.toLowerCase s.
Proof.
  induction s as [|c s IH]; [reflexivity |]. simpl. rewrite lowerChar_idem, IH. reflexivity.
Qed.

Lemma toLowerCase_empty (s : string) : Js.toLowerCase s = "" <-> s = "".
Proof. destruct s; simpl; split; congruence. Qed.

Lemma toLowerCase_trimStart (s : string) :
  Js.toLowerCase (Js.trimStart s) = Js.trimStart (Js.toLowerCase s).
Proof.
  induction s as [|c s IH]; [reflexivity |]. simpl. rewrite lowerChar_whiteSpace.
  destruct (Js.isWhiteSpace c); [exact IH | reflexivity].
Qed.

Lemma toLowerCase_trimEnd (s : string) :
  Js.toLowerCase (Js.trimEnd s) = Js.trimEnd (Js.toLowerCase s).
Proof.
  induction s as [|c s IH]; [reflexivity |]. simpl. rewrite <- IH, lowerChar_whiteSpace.
  destruct (Js.trimEnd s) as [|c' r']; simpl.
  - destruct (Js.isWhiteSpace c); reflexivity.
  - reflexivity.
Qed.

Lemma toLowerCase_trim (s : string) : Js.toLowerCase (Js.trim s) = Js.trim (Js.toLowerCase s).
Proof. unfold Js.trim. rewrite toLowerCase_trimEnd, toLowerCase_trimStart. reflexivity. Qed.

Lemma trimEnd_idem (s : string) : Js.trimEnd (Js.trimEnd s) = Js.trimEnd s.
Proof.
  induction s as [|c s IH]; [reflexivity |]. simpl.
  destruct (Js.trimEnd s) as [|c' r'] eqn:Hr.
  - destruct (Js.isWhiteSpace c) eqn:Hc; [reflexivity |]. simpl. rewrite Hc. reflexivity.
  - simpl in IH |- *. rewrite IH. reflexivity.
Qed.

(** A trimmed string does not start with white space. *)
Lemma trimStart_head (s : string) (c : ascii) (r : string) :
  Js.trimStart s = String c r -> Js.isWhiteSpace c = false.
Proof.
  induction s as [|c0 s IH]; [discriminate |]. simpl.
  destruct (Js.isWhiteSpace c0) eqn:Hc0; [exact IH |].
  intros H. injection H as <- <-. exact Hc0.
Qed.

Lemma trimEnd_head (c : ascii) (r : string) :
  Js.isWhiteSpace c = false -> exists r', Js.trimEnd (String c r) = String c r'.
Proof.
  intros Hc. simpl. destruct (Js.trimEnd r) as [|c' r'].
  - rewrite Hc. exists "". reflexivity.
  - exists (String c' r'). reflexivity.
Qed.

Lemma trim_head (s : string) (c : ascii) (r : string) :
  Js.trim s = String c r -> Js.isWhiteSpace c = false.
Proof.
  unfold Js.trim. destruct (Js.trimStart s) as [|c0 r0] eqn:Hs; [discriminate |].
  pose proof (trimStart_head s c0 r0 Hs) as Hc0.
  destruct (trimEnd_head c0 r0 Hc0) as (r' & ->). intros H. injection H as <- _. exact Hc0.
Qed.

(** A string trimmed at its end does not end with white space. *)
Lemma trimEnd_last (s t : string) (c : ascii) :
  Js.trimEnd s = t ++ String c "" -> Js.isWhiteSpace c = false.
Proof.
  revert t. induction s as [|c0 s IH]; intros t.
  - simpl. destruct t; discriminate.
  - simpl. destruct (Js.trimEnd s) as [|c' r'] eqn:Hr.
    + destruct (Js.isWhiteSpace c0) eqn:Hc0.
      * destruct t; discriminate.
      * destruct t as [|c1 t]; intros H.
        -- rewrite append_empty_l in H. injection H as <-. exact Hc0.
        -- rewrite append_cons in H. injection H as _ H. destruct t; discriminate.
    + destruct t as [|c1 t]; intros H.
      * rewrite append_empty_l in H. discriminate.
      * rewrite append_cons in H. injection H as _ H. exact (IH t H).
Qed.

Lemma trimStart_fixed (s : string) :
  (forall c r, s = String c r -> Js.isWhiteSpace c = false) -> Js.trimStart s = s.
Proof.
  destruct s as [|c r]; [reflexivity |]. intros H. simpl.
  rewrite (H c r eq_refl). reflexivity.
Qed.

Lemma trim_idem (s : string) : Js.trim (Js.trim s) = Js.trim s.
Proof.
  unfold Js.trim at 1. rewrite trimStart_fixed by (intros c r; apply trim_head).
  unfold Js.trim. apply trimEnd_idem.
Qed.

Lemma chars_trimStart (P : ascii -> Prop) (s : string) :
  Forall P (chars s) -> Forall P (chars (Js.trimStart s)).
Proof.
  induction s as [|c s IH]; [intros H; exact H |]. simpl. intros H.
  apply Forall_cons in H as [Hc Hs].
  destruct (Js.isWhiteSpace c); [apply IH, Hs | apply Forall_cons; split; assumption].
Qed.

Lemma chars_trimEnd (P : ascii -> Prop) (s : string) :
  Forall P (chars s) -> Forall P (chars (Js.trimEnd s)).
Proof.
  induction s as [|c s IH]; [intros H; exact H |]. simpl. intros H.
  apply Forall_cons in H as [Hc Hs]. specialize (IH Hs).
  destruct (Js.trimEnd s) as [|c' r'].
  - destruct (Js.isWhiteSpace c); [apply Forall_nil; exact I |].
    apply Forall_cons. split; [exact Hc | apply Forall_nil; exact I].
  - apply Forall_cons. split; [exact Hc | exact IH].
Qed.

Lemma chars_toLowerCase (s : string) :
  Forall (fun c => Js.between 65 90 c = false) (chars (Js.toLowerCase s)).
Proof.
  induction s as [|c s IH]; [apply Forall_nil; exact I |]. simpl.
  apply Forall_cons. split; [apply lowerChar_not_upper | exact IH].
Qed.

(** X17: the setters of the user schema normalise.  Applying them
    twice is applying them once; the email setter gives the same
    result for strings that differ in letter case or in surrounding
    white space only; its result has no upper-case letter from A to Z,
    and neither setter leaves white space at the start or at the
    end. *)
Theorem X17_setters_normalise (s : string) :
  UserModel.setName (UserModel.setName s) = UserModel.setName s
  /\ UserModel.setEmail (UserModel.setEmail s) = UserModel.setEmail s
  /\ UserModel.setEmail (Js.toLowerCase s) = UserModel.setEmail s
  /\ UserModel.setEmail (Js.trim s) = UserModel.setEmail s
  /\ Forall (fun c => Js.between 65 90 c = false) (chars (UserModel.setEmail s))
  /\ (forall c r, UserModel.setName s = String c r \/ UserModel.setEmail s = String c r ->
                  Js.isWhiteSpace c = false)
  /\ (forall t c, UserModel.setName s = t ++ String c ""
                  \/ UserModel.setEmail s = t ++ String c "" ->
                  Js.isWhiteSpace c = false).
Proof.
  unfold UserModel.setName, UserModel.setEmail.
  split; [apply trim_idem |].
  split; [rewrite toLowerCase_trim, toLowerCase_idem; apply trim_idem |].
  split; [rewrite toLowerCase_idem; reflexivity |].
  split; [rewrite toLowerCase_trim; apply trim_idem |].
  split; [apply chars_trimEnd, chars_trimStart, chars_toLowerCase |].
  split.
  - intros c r [H|H]; exact (trim_head _ c r H).
  - intros t c [H|H]; exact (trimEnd_last _ t c H).
Qed.

Lemma X17_setters_normalise_witness : Js.isWhiteSpace "a" = false.
Proof.
  destruct (X17_setters_normalise "  Ana@X.com ") as (_ & _ & _ & _ & _ & Hhead & _).
  apply (Hhead "a"%char "na@x.com"). right. vm_compute. reflexivity.
Defined.

(** ** What the validators accept *)

Lemma name_accepted (x : option string) :
  doValidate UserModel.nameValidators x = None
  <-> exists n, x = Some n /\ n <> "" /\ (String.length n <= 50)%nat.
Proof.
  destruct x as [n|]; simpl.
  - destruct (String.eqb_spec n "") as [->|Hn]; simpl.
    + split; [discriminate | intros (n & Hn & Hne & _); injection Hn as <-; contradiction].
    + destruct (Nat.leb_spec (String.length n) 50) as [Hle|Hgt].
      * split; [intros _; exists n; repeat split; assumption | reflexivity].
      * split; [discriminate |]. intros (n' & Hn' & _ & Hle). injection Hn' as <-. lia.
  - split; [discriminate | intros (n & Hn & _); discriminate].
Qed.

Example empty_is_no_email : Js.test UserModel.emailPattern "" = false.
Proof. vm_compute. reflexivity. Qed.

Lemma email_accepted_iff (x : option string) :
  doValidate UserModel.emailValidators x = None
  <-> exists e, x = Some e /\ Js.test UserModel.emailPattern e = true.
Proof.
  destruct x as [e|]; simpl.
  - destruct (String.eqb_spec e "") as [->|He]; simpl.
    + split; [discriminate |]. intros (e & He & Ht). injection He as <-.
      rewrite empty_is_no_email in Ht. discriminate.
    + destruct (Js.test UserModel.emailPattern e) eqn:Ht.
      * split; [intros _; exists e; split; [reflexivity | exact Ht] | reflexivity].
      * split; [discriminate |]. intros (e' & He' & Ht'). injection He' as <-. congruence.
  - split; [discriminate | intros (e & He & _); discriminate].
Qed.

Lemma age_accepted (x : option Z) :
  doValidate UserModel.ageValidators x = None <-> forall a, x = Some a -> 0 <= a <= 120.
Proof.
  destruct x as [a|]; simpl.
  - destruct (Z.leb_spec 0 a) as [Hlo|Hlo]; [destruct (Z.leb_spec a 120) as [Hhi|Hhi] |].
    + split; [intros _ a' Ha'; injection Ha' as <-; lia | reflexivity].
    + split; [discriminate | intros H; specialize (H a eq_refl); lia].
    + split; [discriminate | intros H; specialize (H a eq_refl); lia].
  - split; [intros _ a Ha; discriminate | reflexivity].
Qed.

Lemma required_accepted (path : string) (x : option string) :
  doValidate (AnalisisModel.requiredValidators path) x = None
  <-> exists v, x = Some v /\ v <> "".
Proof.
  destruct x as [v|]; simpl.
  - destruct (String.eqb_spec v "") as [->|Hv]; simpl.
    + split; [discriminate | intros (v & Hv & Hne); injection Hv as <-; contradiction].
    + split; [intros _; exists v; split; [reflexivity | exact Hv] | reflexivity].
  - split; [discriminate | intros (v & Hv & _); discriminate].
Qed.

Lemma user_validate_nil (d : UserModel.Doc) :
  UserModel.validate d = []
  <-> (exists n, UserModel.name d = Some n /\ n <> "" /\ (String.length n <= 50)%nat)
      /\ (exists e, UserModel.email d = Some e /\ Js.test UserModel.emailPattern e = true)
      /\ (forall a, UserModel.age d = Some a -> 0 <= a <= 120).
Proof.
  unfold UserModel.validate.
  rewrite <- name_accepted, <- email_accepted_iff, <- age_accepted.
  split.
  - intros H. apply app_eq_nil in H as [H1 H]. apply app_eq_nil in H as [H2 H3].
    apply pathError_nil in H1, H2, H3. repeat split; assumption.
  - intros (H1 & H2 & H3). rewrite H1, H2, H3. reflexivity.
Qed.

Lemma updateError_nil {A} (path : string) (vs : list (Validator A)) (x : option A) :
  updateError path vs x = [] <-> x = None \/ doValidate vs x = None.
Proof.
  unfold updateError. destruct x as [a|].
  - rewrite pathError_nil. split; [intros H; right; exact H | intros [H|H]; congruence].
  - split; [intros _; left; reflexivity | reflexivity].
Qed.

Lemma user_validateBody_nil (b : UserModel.Body.t) :
  UserModel.validateBody b = []
  <-> (forall n, UserModel.Body.name b = Some n -> n <> "" /\ (String.length n <= 50)%nat)
      /\ (forall e, UserModel.Body.email b = Some e ->
                    Js.test UserModel.emailPattern e = true)
      /\ (forall a, UserModel.Body.age b = Some a -> 0 <= a <= 120).
Proof.
  unfold UserModel.validateBody. split.
  - intros H. apply app_eq_nil in H as [H1 H]. apply app_eq_nil in H as [H2 H3].
    apply updateError_nil in H1, H2, H3. split; [| split].
    + intros n Hn. destruct H1 as [H1|H1]; [congruence |].
      apply name_accepted in H1 as (n' & Hn' & Hne & Hle). rewrite Hn in Hn'.
      injection Hn' as <-. split; assumption.
    + intros e He. destruct H2 as [H2|H2]; [congruence |].
      apply email_accepted_iff in H2 as (e' & He' & Ht). rewrite He in He'.
      injection He' as <-. exact Ht.
    + intros a Ha. destruct H3 as [H3|H3]; [congruence |].
      exact (proj1 (age_accepted _) H3 a Ha).
  - intros (H1 & H2 & H3).
    assert (E1 : updateError "name" UserModel.nameValidators (UserModel.Body.name b) = []).
    { apply updateError_nil. destruct (UserModel.Body.name b) as [n|]; [right | left; reflexivity].
      apply name_accepted. exists n. destruct (H1 n eq_refl). repeat split; assumption. }
    assert (E2 : updateError "email" UserModel.emailValidators (UserModel.Body.email b) = []).
    { apply updateError_nil. destruct (UserModel.Body.email b) as [e|]; [right | left; reflexivity].
      apply email_accepted_iff. exists e. split; [reflexivity | apply H2; reflexivity]. }
    assert (E3 : updateError "age" UserModel.ageValidators (UserModel.Body.age b) = []).
    { apply updateError_nil. destruct (UserModel.Body.age b) as [a|]; [right | left; reflexivity].
      apply age_accepted. intros a' Ha'. apply H3. exact Ha'. }
    rewrite E1, E2, E3. reflexivity.
Qed.

Lemma analisis_validate_nil (d : AnalisisModel.Doc) :
  AnalisisModel.validate d = [] <-> wellFormedAnalisis d.
Proof.
  unfold AnalisisModel.validate, wellFormedAnalisis.
  rewrite <- (required_accepted "numero_analisis"), <- (required_accepted "tipo_analisis"),
    <- (required_accepted "laboratorio"), <- (required_accepted "tecnico_responsable"),
    <- (enum_accepts "estado").
  split.
  - intros H. apply app_eq_nil in H as [H1 H]. apply app_eq_nil in H as [H2 H].
    apply app_eq_nil in H as [H3 H]. apply app_eq_nil in H as [H4 H5].
    apply pathError_nil in H1, H2, H3, H4, H5. repeat split; assumption.
  - intros (H1 & H2 & H3 & H4 & H5).
    unfold AnalisisModel.estadoValidators. rewrite H1, H2, H3, H4, H5. reflexivity.
Qed.

(** ** Stored records are well formed *)

Lemma setEmail_normal (s : string) :
  Js.trim (UserModel.setEmail s) = UserModel.setEmail s
  /\ Js.toLowerCase (UserModel.setEmail s) = UserModel.setEmail s.
Proof.
  unfold UserModel.setEmail. split; [apply trim_idem |].
  rewrite toLowerCase_trim, toLowerCase_idem. reflexivity.
Qed.

Lemma wellFormedUser_created (raw : UserModel.Body.t) (d : UserModel.Doc) :
  UserModel.validate d = [] ->
  UserModel.name d = UserModel.setName <$> UserModel.Body.name raw ->
  UserModel.email d = UserModel.setEmail <$> UserModel.Body.email raw ->
  wellFormedUser d.
Proof.
  intros Hv Hname Hemail.
  apply user_validate_nil in Hv as ((n & Hn & Hne & Hle) & (e & He & Ht) & Hage).
  split; [| split; [| exact Hage]].
  - exists n; repeat split; try assumption.
    rewrite Hn in Hname. destruct (UserModel.Body.name raw) as [r|]; [| discriminate].
    injection Hname as ->. apply trim_idem.
  - exists e. rewrite He in Hemail.
    destruct (UserModel.Body.email raw) as [r|]; [| discriminate].
    injection Hemail as ->. destruct (setEmail_normal r). repeat split; assumption.
Qed.

Lemma wellFormedUser_updated (raw : UserModel.Body.t) (u : UserModel.Doc) :
  wellFormedUser u ->
  UserModel.validateBody (UserModel.castBody raw) = [] ->
  wellFormedUser (UserModel.assign (UserModel.castBody raw) u).
Proof.
  intros ((n & Hn & Hne & Hle & Htrim) & (e & He & Ht & Hetrim & Helow) & Hage) Hv.
  apply user_validateBody_nil in Hv as (Hvn & Hve & Hva).
  destruct raw as [rn re ra ract rc ru]. simpl in *.
  split; [| split].
  - destruct rn as [r|]; simpl in *.
    + exists (UserModel.setName r). destruct (Hvn _ eq_refl).
      repeat split; try assumption. apply trim_idem.
    + exists n. repeat split; assumption.
  - destruct re as [r|]; simpl in *.
    + exists (UserModel.setEmail r). destruct (setEmail_normal r).
      repeat split; try assumption. apply Hve. reflexivity.
    + exists e. repeat split; assumption.
  - destruct ra as [r|]; simpl in *.
    + intros a Ha. injection Ha as <-. apply Hva. reflexivity.
    + exact Hage.
Qed.

(** X13: every stored user is as the schema wants it, and stays so
    whatever requests the user router serves: a trimmed, non-empty name
    of at most 50 characters, a trimmed, lower-case email that matches
    the pattern, and an age from 0 to 120 if there is one. *)
Theorem X13_stored_users_are_well_formed (rs : list UserRequest) (db : Db UserModel.Doc) :
  (forall i u, docs db !! i = Some u -> wellFormedUser u) ->
  forall i u, docs (serve handleUser rs db) !! i = Some u -> wellFormedUser u.
Proof.
  revert db. induction rs as [|r rs IH]; intros db Hinv; [exact Hinv |].
  rewrite serve_cons. apply IH. clear IH. intros i x Hi.
  destruct (users_outcome r db)
    as [[Hsame _] | [(id & update & u & _ & _ & Hu & Hv & _ & Heq)
                    | [(id & u & _ & _ & Hu & Heq)
                      | (reqBody & d & _ & _ & _ & Hv & Hname & Hemail & _ & _ & Heq)]]];
    rewrite ?Hsame, ?Heq in Hi.
  - exact (Hinv i x Hi).
  - destruct (decide (id = i)) as [->|Hne].
    + rewrite lookup_insert_eq in Hi. injection Hi as <-.
      apply wellFormedUser_updated; [exact (Hinv i u Hu) | exact Hv].
    + rewrite lookup_insert_ne in Hi by assumption. exact (Hinv i x Hi).
  - destruct (decide (id = i)) as [->|Hne].
    + rewrite lookup_insert_eq in Hi. injection Hi as <-. exact (Hinv i u Hu).
    + rewrite lookup_insert_ne in Hi by assumption. exact (Hinv i x Hi).
  - destruct (decide (nextId db = i)) as [<-|Hne].
    + rewrite lookup_insert_eq in Hi. injection Hi as <-.
      exact (wellFormedUser_created reqBody d Hv Hname Hemail).
    + rewrite lookup_insert_ne in Hi by assumption. exact (Hinv i x Hi).
Qed.

Lemma nothing_stored {D} (P : D -> Prop) (clk : nat -> Z) :
  forall i d, docs (emptyDb clk) !! i = Some d -> P d.
Proof. intros i d H. simpl in H. rewrite lookup_empty in H. discriminate. Qed.

Lemma X13_stored_users_are_well_formed_witness :
  exists u, docs twoUsers !! 0%N = Some u /\ wellFormedUser u.
Proof.
  eexists. split; [vm_compute; reflexivity |].
  apply (X13_stored_users_are_well_formed [UPost ana; UPost bea] (emptyDb sampleClock)
           (nothing_stored wellFormedUser sampleClock) 0%N).
  vm_compute. reflexivity.
Defined.

Lemma required_update_accepted (path : string) (x : option string) :
  updateError path (AnalisisModel.requiredValidators path) x = []
  <-> forall v, x = Some v -> v <> "".
Proof.
  rewrite updateError_nil, required_accepted. split.
  - intros [->|(v & -> & Hv)] w Hw; [discriminate | injection Hw as <-; exact Hv].
  - intros H. destruct x as [v|]; [right | left; reflexivity].
    exists v. split; [reflexivity | apply H; reflexivity].
Qed.

Lemma analisis_validateBody_nil (b : AnalisisModel.Body.t) :
  AnalisisModel.validateBody b = []
  <-> (forall v, AnalisisModel.Body.numero_analisis b = Some v -> v <> "")
      /\ (forall v, AnalisisModel.Body.tipo_analisis b = Some v -> v <> "")
      /\ (forall v, AnalisisModel.Body.laboratorio b = Some v -> v <> "")
      /\ (forall v, AnalisisModel.Body.tecnico_responsable b = Some v -> v <> "")
      /\ (forall s, AnalisisModel.Body.estado b = Some s -> s ∈ AnalisisModel.estados).
Proof.
  unfold AnalisisModel.validateBody.
  rewrite <- (required_update_accepted "numero_analisis"),
    <- (required_update_accepted "tipo_analisis"),
    <- (required_update_accepted "laboratorio"),
    <- (required_update_accepted "tecnico_responsable").
  assert (Hest : updateError "estado" AnalisisModel.estadoValidators
                   (AnalisisModel.Body.estado b) = []
                 <-> forall s, AnalisisModel.Body.estado b = Some s ->
                               s ∈ AnalisisModel.estados).
  { rewrite updateError_nil. split.
    - intros [H|H] s Hs; [congruence |]. rewrite Hs in H.
      apply (enum_accepts "estado") in H. exact H.
    - intros H. destruct (AnalisisModel.Body.estado b) as [s|]; [right | left; reflexivity].
      apply (enum_accepts "estado"), H. reflexivity. }
  rewrite <- Hest. split.
  - intros H. apply app_eq_nil in H as [H1 H]. apply app_eq_nil in H as [H2 H].
    apply app_eq_nil in H as [H3 H]. apply app_eq_nil in H as [H4 H5].
    repeat split; assumption.
  - intros (H1 & H2 & H3 & H4 & H5). rewrite H1, H2, H3, H4, H5. reflexivity.
Qed.

Lemma wellFormedAnalisis_updated (update : AnalisisModel.Body.t) (a : AnalisisModel.Doc) :
  wellFormedAnalisis a -> AnalisisModel.validateBody update = [] ->
  wellFormedAnalisis (AnalisisModel.assign update a).
Proof.
  intros ((n & Hn & Hne) & (t & Ht & Hte) & (l & Hl & Hle) & (r & Hr & Hre) & Hest) Hv.
  apply analisis_validateBody_nil in Hv as (V1 & V2 & V3 & V4 & V5).
  destruct update as [un uf ut ul ur uo ue uc uu]. simpl in *.
  unfold wellFormedAnalisis. simpl.
  split; [| split; [| split; [| split]]].
  - destruct un as [v|]; [exists v; split; [reflexivity | apply V1; reflexivity] |].
    exists n. split; assumption.
  - destruct ut as [v|]; [exists v; split; [reflexivity | apply V2; reflexivity] |].
    exists t. split; assumption.
  - destruct ul as [v|]; [exists v; split; [reflexivity | apply V3; reflexivity] |].
    exists l. split; assumption.
  - destruct ur as [v|]; [exists v; split; [reflexivity | apply V4; reflexivity] |].
    exists r. split; assumption.
  - destruct ue as [s|]; simpl; [apply V5; reflexivity | exact Hest].
Qed.

(** X14: every stored analysis has its four required paths (number,
    type, laboratory, technician) holding non-empty strings and its
    state among the four, and stays so whatever requests the analysis
    router serves. *)
Theorem X14_stored_analisis_are_well_formed
    (rs : list AnalisisRequest) (db : Db AnalisisModel.Doc) :
  (forall i a, docs db !! i = Some a -> wellFormedAnalisis a) ->
  forall i a, docs (serve handleAnalisis rs db) !! i = Some a -> wellFormedAnalisis a.
Proof.
  revert db. induction rs as [|r rs IH]; intros db Hinv; [exact Hinv |].
  rewrite serve_cons. apply IH. clear IH. intros i x Hi.
  destruct (analisis_outcome r db)
    as [[Hsame _] | [(id & update & a & _ & _ & Ha & Hv & _ & Heq)
                    | [(id & a & _ & _ & Ha & Heq)
                      | (reqBody & d & _ & _ & _ & Hv & _ & _ & Heq)]]];
    rewrite ?Hsame, ?Heq in Hi.
  - exact (Hinv i x Hi).
  - destruct (decide (id = i)) as [->|Hne].
    + rewrite lookup_insert_eq in Hi. injection Hi as <-.
      apply wellFormedAnalisis_updated; [exact (Hinv i a Ha) | exact Hv].
    + rewrite lookup_insert_ne in Hi by assumption. exact (Hinv i x Hi).
  - apply lookup_delete_Some in Hi as [_ Hi]. exact (Hinv i x Hi).
  - destruct (decide (nextId db = i)) as [<-|Hne].
    + rewrite lookup_insert_eq in Hi. injection Hi as <-.
      apply analisis_validate_nil, Hv.
    + rewrite lookup_insert_ne in Hi by assumption. exact (Hinv i x Hi).
Qed.

Lemma X14_stored_analisis_are_well_formed_witness :
  exists a, docs twoAnalisis !! 1%N = Some a /\ wellFormedAnalisis a.
Proof.
  eexists. split; [vm_compute; reflexivity |].
  apply (X14_stored_analisis_are_well_formed [APost a001; APost a002] (emptyDb sampleClock)
           (nothing_stored wellFormedAnalisis sampleClock) 1%N).
  vm_compute. reflexivity.
Defined.

(** ** When a create succeeds *)

(** X15: on a consistent collection [POST /api/users] answers 201
    exactly when the body has a name that is non-empty after trimming
    and then at most 50 characters long, an email that after the
    setters matches the pattern and is the email of no stored user, and
    an age, if any, from 0 to 120. *)
Theorem X15_user_create_succeeds_iff (db : Db UserModel.Doc) (reqBody : UserModel.Body.t) :
  consistent UserModel.User db ->
  status (UsersRouter.post reqBody db).1 = 201
  <-> (exists n, UserModel.Body.name reqBody = Some n
                 /\ Js.trim n <> "" /\ (String.length (Js.trim n) <= 50)%nat)
      /\ (exists e, UserModel.Body.email reqBody = Some e
                    /\ Js.test UserModel.emailPattern (UserModel.setEmail e) = true
                    /\ forall i u, docs db !! i = Some u ->
                                   UserModel.email u <> Some (UserModel.setEmail e))
      /\ (forall a, UserModel.Body.age reqBody = Some a -> 0 <= a <= 120).
Proof.
  intros Hc.
  destruct (newUser_run reqBody db)
    as (d & db0 & Hnew & Hdocs & _ & _ & Hid & Hname & Hemail & Hage & _).
  pose proof (user_validate_nil d) as Hvalid. rewrite Hname, Hemail, Hage in Hvalid.
  split.
  - intros Hs. destruct (UserModel.validate d) as [|x xs] eqn:Hv.
    + destruct (duplicateKey UserModel.User (UserModel._id d) (UserModel.email d) (docs db0))
        eqn:Hdup.
      * rewrite (users_post_duplicate reqBody db db0 d Hnew Hv Hdup) in Hs. discriminate.
      * destruct (proj1 Hvalid eq_refl) as ((n & Hn & Hne & Hle) & (e & He & Ht) & Ha).
        destruct (UserModel.Body.name reqBody) as [rn|]; [| discriminate].
        destruct (UserModel.Body.email reqBody) as [re|]; [| discriminate].
        injection Hn as <-. injection He as <-.
        split; [exists rn; repeat split; assumption |].
        split; [| exact Ha].
        exists re. split; [reflexivity |]. split; [exact Ht |].
        intros i u Hi Heq.
        apply (duplicateKey_false_inv UserModel.User _ _ _ Hdup i u).
        -- rewrite Hdocs. exact Hi.
        -- rewrite Hid. destruct (Hc i u Hi). lia.
        -- simpl. rewrite Hemail. exact Heq.
    + rewrite (users_post_invalid reqBody db db0 d x xs Hnew Hv) in Hs. discriminate.
  - intros ((n & Hn & Hne & Hle) & (e & He & Ht & Hfree) & Ha).
    assert (Hv : UserModel.validate d = []).
    { apply Hvalid. rewrite Hn, He. simpl. split; [| split; [| exact Ha]].
      - exists (UserModel.setName n). repeat split; assumption.
      - exists (UserModel.setEmail e). split; [reflexivity | exact Ht]. }
    rewrite (users_post_created reqBody db db0 d Hnew Hv); [reflexivity |].
    apply duplicateKey_false. intros i u Hi _. rewrite Hdocs in Hi. simpl.
    rewrite Hemail, He. exact (Hfree i u Hi).
Qed.

Lemma X15_user_create_succeeds_iff_witness :
  status (UsersRouter.post (userBody (Some " Eva ") (Some "Eva@X.org") (Some 0)) twoUsers).1
  = 201.
Proof.
  apply X15_user_create_succeeds_iff; [exact twoUsers_consistent |].
  split; [| split].
  - eexists. split; [reflexivity |]. split; [vm_compute; discriminate | vm_compute; lia].
  - eexists. split; [reflexivity |]. split; [vm_compute; reflexivity |].
    intros i u Hi Heq. apply elem_of_map_to_list in Hi.
    set (stored := map_to_list _) in Hi. vm_compute in stored. subst stored.
    repeat (apply elem_of_cons in Hi as [Hi | Hi];
            [injection Hi as -> ->; vm_compute in Heq; discriminate Heq |]).
    apply elem_of_nil in Hi. exact Hi.
  - intros a Ha. injection Ha as <-. lia.
Defined.

(** X16: on a consistent collection [POST /api/analisis] answers 201
    exactly when the body has a non-empty number, type, laboratory and
    technician, the number is that of no stored analysis, and the
    state, if any, is one of the four. *)
Theorem X16_analisis_create_succeeds_iff
    (db : Db AnalisisModel.Doc) (reqBody : AnalisisModel.Body.t) :
  consistent AnalisisModel.Analisis db ->
  status (AnalisisRouter.post reqBody db).1 = 201
  <-> (exists n, AnalisisModel.Body.numero_analisis reqBody = Some n /\ n <> ""
                 /\ forall i a, docs db !! i = Some a ->
                                AnalisisModel.numero_analisis a <> Some n)
      /\ (exists t, AnalisisModel.Body.tipo_analisis reqBody = Some t /\ t <> "")
      /\ (exists l, AnalisisModel.Body.laboratorio reqBody = Some l /\ l <> "")
      /\ (exists r, AnalisisModel.Body.tecnico_responsable reqBody = Some r /\ r <> "")
      /\ (forall s, AnalisisModel.Body.estado reqBody = Some s -> s ∈ AnalisisModel.estados).
Proof.
  intros Hc.
  destruct (newAnalisis_run reqBody db)
    as (d & db0 & Hnew & Hdocs & _ & _ & Hid & Hnum & Htipo & Hlab & Htec & Hest & _).
  pose proof (analisis_validate_nil d) as Hvalid. unfold wellFormedAnalisis in Hvalid.
  rewrite Hnum, Htipo, Hlab, Htec, Hest in Hvalid.
  split.
  - intros Hs. destruct (AnalisisModel.validate d) as [|x xs] eqn:Hv.
    + destruct (duplicateKey AnalisisModel.Analisis (AnalisisModel._id d)
                  (AnalisisModel.numero_analisis d) (docs db0)) eqn:Hdup.
      * rewrite (analisis_post_duplicate reqBody db db0 d Hnew Hv Hdup) in Hs. discriminate.
      * destruct (proj1 Hvalid eq_refl) as ((n & Hn & Hne) & Ht & Hl & Hr & He).
        split; [| split; [exact Ht | split; [exact Hl | split; [exact Hr |]]]].
        -- exists n. split; [exact Hn |]. split; [exact Hne |].
           intros i a Hi Heq.
           apply (duplicateKey_false_inv AnalisisModel.Analisis _ _ _ Hdup i a).
           ++ rewrite Hdocs. exact Hi.
           ++ rewrite Hid. destruct (Hc i a Hi). lia.
           ++ simpl. rewrite Hnum, Hn. exact Heq.
        -- intros s Hs'. rewrite Hs' in He. exact He.
    + rewrite (analisis_post_invalid reqBody db db0 d x xs Hnew Hv) in Hs. discriminate.
  - intros ((n & Hn & Hne & Hfree) & Ht & Hl & Hr & He).
    assert (Hv : AnalisisModel.validate d = []).
    { apply Hvalid. split; [exists n; split; assumption |].
      split; [exact Ht |]. split; [exact Hl |]. split; [exact Hr |].
      destruct (AnalisisModel.Body.estado reqBody) as [s|]; simpl.
      - apply He. reflexivity.
      - apply list_elem_of_here. }
    rewrite (analisis_post_created reqBody db db0 d Hnew Hv); [reflexivity |].
    apply duplicateKey_false. intros i a Hi _. rewrite Hdocs in Hi. simpl.
    rewrite Hnum, Hn. exact (Hfree i a Hi).
Qed.

Lemma X16_analisis_create_succeeds_iff_witness :
  status (AnalisisRouter.post a001 (emptyDb sampleClock)).1 = 201.
Proof.
  apply X16_analisis_create_succeeds_iff; [apply consistent_empty |].
  split; [| split; [| split; [| split]]].
  - eexists. split; [reflexivity |]. split; [discriminate |].
    intros i a Hi. simpl in Hi. rewrite lookup_empty in Hi. discriminate.
  - eexists. split; [reflexivity | discriminate].
  - eexists. split; [reflexivity | discriminate].
  - eexists. split; [reflexivity | discriminate].
  - intros s Hs. discriminate.
Defined.

(** ** Updates, path by path *)

Lemma users_put_200 (id : N) (update : UserModel.Body.t) (db : Db UserModel.Doc) u :
  docs db !! id = Some u ->
  status (UsersRouter.put id update db).1 = 200 ->
  let u' := UserModel.assign (UserModel.castBody update) u in
  UsersRouter.put id update db
  = (res_json (Js.Obj
       [ ("success", Js.Bool true);
         ("message", Js.Str "Usuario actualizado exitosamente");
         ("data", UserModel.toJSON (UserModel.set___v None u')) ]),
     setDocs (<[id := u']> (docs db)) db).
Proof.
  intros Hu Hs u'. subst u'.
  destruct (UserModel.validateBody (UserModel.castBody update)) as [|e es] eqn:Hv.
  - destruct (duplicateKey UserModel.User id
                (UserModel.email (UserModel.assign (UserModel.castBody update) u)) (docs db)
              && bool_decide
                   (UserModel.email (UserModel.assign (UserModel.castBody update) u)
                    <> UserModel.email u)) eqn:Hdup.
    + rewrite (users_put_duplicate id update db u Hv Hu Hdup) in Hs. discriminate.
    + exact (users_put_found id update db u Hv Hu Hdup).
  - rewrite (users_put_invalid id update db e es Hv) in Hs. discriminate.
Qed.

Lemma analisis_put_200 (id : N) (update : AnalisisModel.Body.t)
    (db : Db AnalisisModel.Doc) a :
  docs db !! id = Some a ->
  status (AnalisisRouter.put id update db).1 = 200 ->
  let a' := AnalisisModel.assign update a in
  AnalisisRouter.put id update db
  = (res_json (Js.Obj
       [ ("success", Js.Bool true);
         ("message", Js.Str "Análisis actualizado exitosamente");
         ("data", AnalisisModel.toJSON (AnalisisModel.set___v None a')) ]),
     setDocs (<[id := a']> (docs db)) db).
Proof.
  intros Ha Hs a'. subst a'.
  destruct (AnalisisModel.validateBody update) as [|e es] eqn:Hv.
  - destruct (duplicateKey AnalisisModel.Analisis id
                (AnalisisModel.numero_analisis (AnalisisModel.assign update a)) (docs db)
              && bool_decide
                   (AnalisisModel.numero_analisis (AnalisisModel.assign update a)
                    <> AnalisisModel.numero_analisis a)) eqn:Hdup.
    + rewrite (analisis_put_duplicate id update db a Hv Ha Hdup) in Hs. discriminate.
    + exact (analisis_put_found id update db a Hv Ha Hdup).
  - rewrite (analisis_put_invalid id update db e es Hv) in Hs. discriminate.
Qed.

(** X6: a [PUT /api/users/:id] answered 200 replaces the paths the
    body supplies, the name trimmed and the email lower-cased and
    trimmed, and leaves every other path of the record as it was, its
    [_id] and version included; the answer carries the record after the
    update; the other records are untouched. *)
Theorem X6_user_put_replaces_supplied_paths
    (db : Db UserModel.Doc) (id : N) (update : UserModel.Body.t) (u : UserModel.Doc) :
  docs db !! id = Some u ->
  status (UsersRouter.put id update db).1 = 200 ->
  exists u',
    docs (UsersRouter.put id update db).2 !! id = Some u'
    /\ Js.prop "data" (body (UsersRouter.put id update db).1)
       = Some (UserModel.toJSON (UserModel.set___v None u'))
    /\ UserModel.name u'
       = match UserModel.Body.name update with
         | Some n => Some (Js.trim n)
         | None => UserModel.name u
         end
    /\ UserModel.email u'
       = match UserModel.Body.email update with
         | Some e => Some (Js.trim (Js.toLowerCase e))
         | None => UserModel.email u
         end
    /\ UserModel.age u'
       = match UserModel.Body.age update with
         | Some a => Some a
         | None => UserModel.age u
         end
    /\ UserModel.isActive u' = default (UserModel.isActive u) (UserModel.Body.isActive update)
    /\ UserModel.createdAt u'
       = default (UserModel.createdAt u) (UserModel.Body.createdAt update)
    /\ UserModel.updatedAt u'
       = default (UserModel.updatedAt u) (UserModel.Body.updatedAt update)
    /\ UserModel._id u' = UserModel._id u /\ UserModel.__v u' = UserModel.__v u
    /\ forall j, j <> id -> docs (UsersRouter.put id update db).2 !! j = docs db !! j.
Proof.
  intros Hu Hs. rewrite (users_put_200 id update db u Hu Hs). cbn [fst snd].
  exists (UserModel.assign (UserModel.castBody update) u).
  split; [apply lookup_insert_eq |]. split; [reflexivity |].
  destruct update as [[n|] [e|] [a|] [act|] [c|] [t|]];
    (repeat (split; [reflexivity |]));
    intros j Hj; apply lookup_insert_ne; congruence.
Qed.

Lemma X6_user_put_replaces_supplied_paths_witness :
  exists u', docs (UsersRouter.put 1 (userBody (Some " Bea B. ") None (Some 52)) twoUsers).2
               !! 1%N = Some u'
             /\ UserModel.name u' = Some "Bea B.".
Proof.
  edestruct (X6_user_put_replaces_supplied_paths twoUsers 1%N
               (userBody (Some " Bea B. ") None (Some 52)))
    as (u' & Hu' & _ & Hname & _); [vm_compute; reflexivity | vm_compute; reflexivity |].
  exists u'. split; [exact Hu' | exact Hname].
Defined.

(** X7: a [PUT /api/analisis/:id] answered 200 replaces the paths the
    body supplies and leaves every other path of the record as it was,
    its [_id] and version included; the answer carries the record after
    the update; the other records are untouched. *)
Theorem X7_analisis_put_replaces_supplied_paths
    (db : Db AnalisisModel.Doc) (id : N) (update : AnalisisModel.Body.t)
    (a : AnalisisModel.Doc) :
  docs db !! id = Some a ->
  status (AnalisisRouter.put id update db).1 = 200 ->
  exists a',
    docs (AnalisisRouter.put id update db).2 !! id = Some a'
    /\ Js.prop "data" (body (AnalisisRouter.put id update db).1)
       = Some (AnalisisModel.toJSON (AnalisisModel.set___v None a'))
    /\ AnalisisModel.numero_analisis a'
       = match AnalisisModel.Body.numero_analisis update with
         | Some v => Some v
         | None => AnalisisModel.numero_analisis a
         end
    /\ AnalisisModel.fecha_analisis a'
       = default (AnalisisModel.fecha_analisis a) (AnalisisModel.Body.fecha_analisis update)
    /\ AnalisisModel.tipo_analisis a'
       = match AnalisisModel.Body.tipo_analisis update with
         | Some v => Some v
         | None => AnalisisModel.tipo_analisis a
         end
    /\ AnalisisModel.laboratorio a'
       = match AnalisisModel.Body.laboratorio update with
         | Some v => Some v
         | None => AnalisisModel.laboratorio a
         end
    /\ AnalisisModel.tecnico_responsable a'
       = match AnalisisModel.Body.tecnico_responsable update with
         | Some v => Some v
         | None => AnalisisModel.tecnico_responsable a
         end
    /\ AnalisisModel.observaciones a'
       = default (AnalisisModel.observaciones a) (AnalisisModel.Body.observaciones update)
    /\ AnalisisModel.estado a'
       = default (AnalisisModel.estado a) (AnalisisModel.Body.estado update)
    /\ AnalisisModel.createdAt a'
       = default (AnalisisModel.createdAt a) (AnalisisModel.Body.createdAt update)
    /\ AnalisisModel.updatedAt a'
       = default (AnalisisModel.updatedAt a) (AnalisisModel.Body.updatedAt update)
    /\ AnalisisModel._id a' = AnalisisModel._id a
    /\ AnalisisModel.__v a' = AnalisisModel.__v a
    /\ forall j, j <> id -> docs (AnalisisRouter.put id update db).2 !! j = docs db !! j.
Proof.
  intros Ha Hs. rewrite (analisis_put_200 id update db a Ha Hs). cbn [fst snd].
  exists (AnalisisModel.assign update a).
  split; [apply lookup_insert_eq |]. split; [reflexivity |].
  repeat (split; [reflexivity |]).
  intros j Hj. apply lookup_insert_ne. congruence.
Qed.

Lemma X7_analisis_put_replaces_supplied_paths_witness :
  exists a', docs (AnalisisRouter.put 0
                     (analisisBody None None (Some "Sur") None None) twoAnalisis).2
               !! 0%N = Some a'
             /\ AnalisisModel.laboratorio a' = Some "Sur".
Proof.
  edestruct (X7_analisis_put_replaces_supplied_paths twoAnalisis 0%N
               (analisisBody None None (Some "Sur") None None))
    as (a' & Ha' & _ & _ & _ & _ & Hlab & _);
    [vm_compute; reflexivity | vm_compute; reflexivity |].
  exists a'. split; [exact Ha' | exact Hlab].
Defined.

(** X19: the state of an analysis has no transition rule: whatever the
    stored state, [PUT /api/analisis/:id] with the body [{ estado: s }]
    for any of the four states [s] answers 200 and stores [s], and
    changes no other path of the record. *)
Theorem X19_any_estado_may_follow_any
    (db : Db AnalisisModel.Doc) (id : N) (a : AnalisisModel.Doc) (s : string) :
  docs db !! id = Some a -> s ∈ AnalisisModel.estados ->
  let updated := AnalisisRouter.put id (estadoUpdate s) db in
  status updated.1 = 200
  /\ exists a', docs updated.2 !! id = Some a'
       /\ AnalisisModel.estado a' = s
       /\ AnalisisModel.numero_analisis a' = AnalisisModel.numero_analisis a
       /\ AnalisisModel.fecha_analisis a' = AnalisisModel.fecha_analisis a
       /\ AnalisisModel.tipo_analisis a' = AnalisisModel.tipo_analisis a
       /\ AnalisisModel.laboratorio a' = AnalisisModel.laboratorio a
       /\ AnalisisModel.tecnico_responsable a' = AnalisisModel.tecnico_responsable a
       /\ AnalisisModel.observaciones a' = AnalisisModel.observaciones a
       /\ AnalisisModel.createdAt a' = AnalisisModel.createdAt a
       /\ AnalisisModel.updatedAt a' = AnalisisModel.updatedAt a.
Proof.
  intros Ha Hs updated. subst updated.
  assert (Hv : AnalisisModel.validateBody (estadoUpdate s) = []).
  { apply analisis_validateBody_nil. simpl.
    repeat (split; [intros v Hv; discriminate Hv |]).
    intros s' Hs'. injection Hs' as <-. exact Hs. }
  rewrite (analisis_put_found id (estadoUpdate s) db a Hv Ha).
  - cbn [fst snd]. split; [reflexivity |].
    exists (AnalisisModel.assign (estadoUpdate s) a).
    split; [apply lookup_insert_eq |]. repeat split.
  - simpl. rewrite (bool_decide_eq_false_2
                      (AnalisisModel.numero_analisis a <> AnalisisModel.numero_analisis a))
      by tauto.
    apply andb_false_r.
Qed.

Lemma X19_any_estado_may_follow_any_witness :
  status (AnalisisRouter.put 1 (estadoUpdate "pendiente") twoAnalisis).1 = 200.
Proof.
  eapply X19_any_estado_may_follow_any; [vm_compute; reflexivity |].
  apply list_elem_of_here.
Defined.

(** ** Repeating and combining requests *)

Lemma user_assign_idem (b : UserModel.Body.t) (u : UserModel.Doc) :
  UserModel.assign b (UserModel.assign b u) = UserModel.assign b u.
Proof. destruct b as [[n|] [e|] [a|] [act|] [c|] [t|]]; reflexivity. Qed.

Lemma analisis_assign_idem (b : AnalisisModel.Body.t) (a : AnalisisModel.Doc) :
  AnalisisModel.assign b (AnalisisModel.assign b a) = AnalisisModel.assign b a.
Proof. destruct b as [[n|] [f|] [t|] [l|] [r|] [o|] [e|] [c|] [u|]]; reflexivity. Qed.

Lemma setDocs_insert_twice {D} (db : Db D) (id : N) (x : D) :
  setDocs (<[id := x]> (docs (setDocs (<[id := x]> (docs db)) db)))
    (setDocs (<[id := x]> (docs db)) db)
  = setDocs (<[id := x]> (docs db)) db.
Proof. unfold setDocs. simpl. rewrite insert_insert_eq. reflexivity. Qed.

(** X20: a [PUT] answered 200 is idempotent: sending the same request
    again gives the same answer and leaves the store as the first one
    left it.  This for both resources. *)
Theorem X20_put_is_idempotent :
  (forall (db : Db UserModel.Doc) id update,
     status (UsersRouter.put id update db).1 = 200 ->
     UsersRouter.put id update (UsersRouter.put id update db).2
     = UsersRouter.put id update db)
  /\ (forall (db : Db AnalisisModel.Doc) id update,
        status (AnalisisRouter.put id update db).1 = 200 ->
        AnalisisRouter.put id update (AnalisisRouter.put id update db).2
        = AnalisisRouter.put id update db).
Proof.
  split.
  - intros db id update Hs.
    destruct (docs db !! id) as [u|] eqn:Hu.
    + rewrite (users_put_200 id update db u Hu Hs). cbn [snd].
      set (u' := UserModel.assign (UserModel.castBody update) u).
      assert (Hv : UserModel.validateBody (UserModel.castBody update) = []).
      { destruct (UserModel.validateBody (UserModel.castBody update)) as [|e es] eqn:Hv;
          [reflexivity |].
        rewrite (users_put_invalid id update db e es Hv) in Hs. discriminate. }
      rewrite (users_put_found id update (setDocs (<[id := u']> (docs db)) db) u' Hv).
      * unfold u'. rewrite user_assign_idem. fold u'. rewrite setDocs_insert_twice. reflexivity.
      * apply lookup_insert_eq.
      * unfold u'. rewrite user_assign_idem. fold u'.
        rewrite (bool_decide_eq_false_2 (UserModel.email u' <> UserModel.email u')) by tauto.
        apply andb_false_r.
    + destruct (UserModel.validateBody (UserModel.castBody update)) as [|e es] eqn:Hv.
      * rewrite (users_put_missing id update db Hv Hu) in Hs. discriminate.
      * rewrite (users_put_invalid id update db e es Hv) in Hs. discriminate.
  - intros db id update Hs.
    destruct (docs db !! id) as [a|] eqn:Ha.
    + rewrite (analisis_put_200 id update db a Ha Hs). cbn [snd].
      set (a' := AnalisisModel.assign update a).
      assert (Hv : AnalisisModel.validateBody update = []).
      { destruct (AnalisisModel.validateBody update) as [|e es] eqn:Hv; [reflexivity |].
        rewrite (analisis_put_invalid id update db e es Hv) in Hs. discriminate. }
      rewrite (analisis_put_found id update (setDocs (<[id := a']> (docs db)) db) a' Hv).
      * unfold a'. rewrite analisis_assign_idem. fold a'.
        rewrite setDocs_insert_twice. reflexivity.
      * apply lookup_insert_eq.
      * unfold a'. rewrite analisis_assign_idem. fold a'.
        rewrite (bool_decide_eq_false_2
                   (AnalisisModel.numero_analisis a' <> AnalisisModel.numero_analisis a'))
          by tauto.
        apply andb_false_r.
    + destruct (AnalisisModel.validateBody update) as [|e es] eqn:Hv.
      * rewrite (analisis_put_missing id update db Hv Ha) in Hs. discriminate.
      * rewrite (analisis_put_invalid id update db e es Hv) in Hs. discriminate.
Qed.

Lemma X20_put_is_idempotent_witness :
  UsersRouter.put 0 (userBody (Some "Ana Maria") None None)
    (UsersRouter.put 0 (userBody (Some "Ana Maria") None None) twoUsers).2
  = UsersRouter.put 0 (userBody (Some "Ana Maria") None None) twoUsers.
Proof.
  destruct X20_put_is_idempotent as [Huser _].
  apply Huser. vm_compute. reflexivity.
Defined.

(** X22: a deleted user keeps its email, a deleted analysis frees its
    number.  After [DELETE /api/users/:id], a create with the email of
    the deleted user is answered 400 as a conflict; after
    [DELETE /api/analisis/:id], a create with the number of the deleted
    analysis, valid otherwise, is answered 201. *)
Theorem X22_key_of_a_deleted_record :
  (forall (db db0 : Db UserModel.Doc) id u reqBody d,
     consistent UserModel.User db -> docs db !! id = Some u ->
     let deleted := (UsersRouter.delete id db).2 in
     construct UserModel.User reqBody deleted = (Return d, db0) ->
     UserModel.validate d = [] -> UserModel.email d = UserModel.email u ->
     (UsersRouter.post reqBody deleted).1 = conflict "El email ya está registrado")
  /\ (forall (db db0 : Db AnalisisModel.Doc) id a reqBody d,
        uniqueIndex AnalisisModel.Analisis (docs db) -> docs db !! id = Some a ->
        let deleted := (AnalisisRouter.delete id db).2 in
        construct AnalisisModel.Analisis reqBody deleted = (Return d, db0) ->
        AnalisisModel.validate d = [] ->
        AnalisisModel.numero_analisis d = AnalisisModel.numero_analisis a ->
        status (AnalisisRouter.post reqBody deleted).1 = 201).
Proof.
  split.
  - intros db db0 id u reqBody d Hc Hu deleted Hnew Hv Hkey. subst deleted.
    rewrite (users_delete_found id db u Hu) in *. cbn [snd] in *.
    destruct (newUser_run reqBody
                (setDocs (<[id := UserModel.assign UsersRouter.deactivate u]> (docs db)) db))
      as (d1 & db1 & Hnew1 & Hdocs & _ & _ & Hid & _).
    simpl in Hnew. rewrite Hnew in Hnew1. injection Hnew1 as <- <-.
    rewrite (users_post_duplicate reqBody _ db0 d Hnew Hv); [reflexivity |].
    apply duplicateKey_true.
    exists id, (UserModel.assign UsersRouter.deactivate u). rewrite Hdocs. simpl.
    split; [apply lookup_insert_eq |]. split; [| symmetry; exact Hkey].
    rewrite Hid. simpl. destruct (Hc id u Hu) as [_ Hlt]. lia.
  - intros db db0 id a reqBody d Huniq Ha deleted Hnew Hv Hkey. subst deleted.
    rewrite (analisis_delete_found id db a Ha) in *. cbn [snd] in *.
    destruct (newAnalisis_run reqBody (setDocs (delete id (docs db)) db))
      as (d1 & db1 & Hnew1 & Hdocs & _ & _ & Hid & _).
    simpl in Hnew. rewrite Hnew in Hnew1. injection Hnew1 as <- <-.
    rewrite (analisis_post_created reqBody _ db0 d Hnew Hv); [reflexivity |].
    apply duplicateKey_false. intros j x Hj _ Hx. rewrite Hdocs in Hj. simpl in Hj.
    apply lookup_delete_Some in Hj as [Hne Hj]. apply Hne.
    symmetry. apply (Huniq j id x a Hj Ha). simpl in *. congruence.
Qed.

Lemma X22_key_of_a_deleted_record_witness :
  (UsersRouter.post ana (UsersRouter.delete 0 twoUsers).2).1
  = conflict "El email ya está registrado"
  /\ status (AnalisisRouter.post a001 (AnalisisRouter.delete 0 twoAnalisis).2).1 = 201.
Proof.
  destruct X22_key_of_a_deleted_record as [Huser Hanalisis]. split.
  - eapply (Huser twoUsers _ 0%N);
      [exact twoUsers_consistent | vm_compute; reflexivity ..].
  - eapply (Hanalisis twoAnalisis _ 0%N);
      [exact twoAnalisis_unique | vm_compute; reflexivity ..].
Defined.

(** ** Defaults at creation *)

(** X21: on a create answered 201 the stored [updatedAt] is the last
    reading of the clock taken while the request was served, whatever
    [updatedAt] the body carries, whereas a [createdAt] carried by the
    body is stored as it is; without one, [createdAt] is the first
    reading taken, so that with a clock that does not run backwards
    [createdAt] is not after [updatedAt]. *)
Theorem X21_user_create_timestamps (db : Db UserModel.Doc) (reqBody : UserModel.Body.t) :
  status (UsersRouter.post reqBody db).1 = 201 ->
  let db' := (UsersRouter.post reqBody db).2 in
  exists u, docs db' !! nextId db = Some u
    /\ (ticks db < ticks db')%nat
    /\ UserModel.updatedAt u = clock db (Nat.pred (ticks db'))
    /\ UserModel.createdAt u
       = default (clock db (ticks db)) (UserModel.Body.createdAt reqBody)
    /\ ((forall m n, (m <= n)%nat -> clock db m <= clock db n) ->
        UserModel.Body.createdAt reqBody = None ->
        UserModel.createdAt u <= UserModel.updatedAt u).
Proof.
  destruct reqBody as [n e a act c t].
  assert (Hcases :
    forall d db0,
      UserModel.newUser
        {| UserModel.Body.name := n; UserModel.Body.email := e; UserModel.Body.age := a;
           UserModel.Body.isActive := act; UserModel.Body.createdAt := c;
           UserModel.Body.updatedAt := t |} db = (Return d, db0) ->
      UserModel._id d = nextId db -> docs db0 = docs db -> clock db0 = clock db ->
      (ticks db <= ticks db0)%nat ->
      UserModel.createdAt d = default (clock db (ticks db)) c ->
      (c = None -> (ticks db < ticks db0)%nat) ->
      status (UsersRouter.post
                {| UserModel.Body.name := n; UserModel.Body.email := e;
                   UserModel.Body.age := a; UserModel.Body.isActive := act;
                   UserModel.Body.createdAt := c; UserModel.Body.updatedAt := t |} db).1
      = 201 ->
      let db' := (UsersRouter.post
                    {| UserModel.Body.name := n; UserModel.Body.email := e;
                       UserModel.Body.age := a; UserModel.Body.isActive := act;
                       UserModel.Body.createdAt := c; UserModel.Body.updatedAt := t |} db).2 in
      exists u, docs db' !! nextId db = Some u
        /\ (ticks db < ticks db')%nat
        /\ UserModel.updatedAt u = clock db (Nat.pred (ticks db'))
        /\ UserModel.createdAt u = default (clock db (ticks db)) c
        /\ ((forall m n, (m <= n)%nat -> clock db m <= clock db n) ->
            c = None -> UserModel.createdAt u <= UserModel.updatedAt u)).
  { intros d db0 Hnew Hid Hdocs Hclock Hticks Hcreated Hread.
    destruct (UserModel.validate d) as [|x xs] eqn:Hv.
    - destruct (duplicateKey UserModel.User (UserModel._id d) (UserModel.email d) (docs db0))
        eqn:Hdup.
      + rewrite (users_post_duplicate _ db db0 d Hnew Hv Hdup). discriminate.
      + rewrite (users_post_created _ db db0 d Hnew Hv Hdup). cbn [fst snd]. intros _.
        eexists. simpl docs. rewrite Hid, lookup_insert_eq.
        split; [reflexivity |]. simpl. rewrite Hclock.
        split; [lia |]. split; [reflexivity |]. split; [exact Hcreated |].
        intros Hmono Hc. rewrite Hcreated, Hc. simpl. apply Hmono. lia.
    - rewrite (users_post_invalid _ db db0 d x xs Hnew Hv). discriminate. }
  destruct act as [act|], c as [c|], t as [t|];
    (eapply Hcases; [reflexivity | reflexivity | reflexivity | reflexivity
                     | simpl; lia | reflexivity | simpl; intros; try discriminate; lia]).
Qed.

Lemma X21_user_create_timestamps_witness :
  exists u, docs (UsersRouter.post
                    {| UserModel.Body.name := Some "Eva"; UserModel.Body.email := Some "eva@x.org";
                       UserModel.Body.age := None; UserModel.Body.isActive := None;
                       UserModel.Body.createdAt := Some 5;
                       UserModel.Body.updatedAt := Some 7 |} twoUsers).2 !! 2%N = Some u
            /\ UserModel.createdAt u = 5 /\ UserModel.updatedAt u = 1060.
Proof.
  edestruct (X21_user_create_timestamps twoUsers
               {| UserModel.Body.name := Some "Eva"; UserModel.Body.email := Some "eva@x.org";
                  UserModel.Body.age := None; UserModel.Body.isActive := None;
                  UserModel.Body.createdAt := Some 5;
                  UserModel.Body.updatedAt := Some 7 |})
    as (u & Hu & _ & Hupdated & Hcreated & _); [vm_compute; reflexivity |].
  exists u. split; [exact Hu |]. split; [exact Hcreated | exact Hupdated].
Defined.

(** X23: a user created with [isActive: false] in the body is stored
    inactive: the create answers 201 with [isActive: false] in the
    profile, the list never shows the user, and get-by-id with the id
    of the answer answers 200. *)
Theorem X23_user_created_inactive_is_hidden
    (db : Db UserModel.Doc) (reqBody : UserModel.Body.t) :
  consistent UserModel.User db ->
  UserModel.Body.isActive reqBody = Some false ->
  let created := UsersRouter.post reqBody db in
  status created.1 = 201 ->
  (Js.prop "data" (body created.1) ≫= Js.prop "isActive") = Some (Js.Bool false)
  /\ (nextId db ∉ listedIds (UsersRouter.get_all created.2).1)
  /\ status (UsersRouter.get_by_id (nextId db) created.2).1 = 200.
Proof.
  intros Hc Hact created. subst created.
  pose proof (users_consistent (UPost reqBody) db Hc) as Hc'. cbn [handleUser] in Hc'.
  destruct (newUser_run reqBody db)
    as (d & db0 & Hnew & Hdocs & _ & _ & Hid & _ & _ & _ & Hactive & _).
  rewrite Hact in Hactive. simpl in Hactive.
  destruct (UserModel.validate d) as [|x xs] eqn:Hv.
  - destruct (duplicateKey UserModel.User (UserModel._id d) (UserModel.email d) (docs db0))
      eqn:Hdup.
    + rewrite (users_post_duplicate reqBody db db0 d Hnew Hv Hdup). discriminate.
    + rewrite (users_post_created reqBody db db0 d Hnew Hv Hdup) in *. cbn [fst snd] in *.
      intros _.
      set (d' := UserModel.set___v (Some 0)
                   (UserModel.set_updatedAt (clock db0 (ticks db0)) d)) in *.
      assert (Hstored : docs (setDocs (<[UserModel._id d := d']> (docs db0)) (Date_now db0).2)
                          !! nextId db = Some d').
      { simpl. rewrite Hid. apply lookup_insert_eq. }
      split; [| split].
      * cbn. rewrite (user_profile_agrees d' "isActive");
          [| apply list_elem_of_further, list_elem_of_further, list_elem_of_further,
               list_elem_of_here].
        rewrite user_json_isActive. simpl. rewrite Hactive. reflexivity.
      * intros Hin. apply users_listed in Hin as (u & Hu & Hua); [| exact Hc'].
        rewrite Hstored in Hu. injection Hu as <-. simpl in Hua. congruence.
      * rewrite (users_get_by_id_found _ _ d' Hstored). reflexivity.
  - rewrite (users_post_invalid reqBody db db0 d x xs Hnew Hv). discriminate.
Qed.

Lemma X23_user_created_inactive_is_hidden_witness :
  2%N ∉ listedIds
          (UsersRouter.get_all
             (UsersRouter.post
                {| UserModel.Body.name := Some "Eva"; UserModel.Body.email := Some "eva@x.org";
                   UserModel.Body.age := None; UserModel.Body.isActive := Some false;
                   UserModel.Body.createdAt := None; UserModel.Body.updatedAt := None |}
                twoUsers).2).1.
Proof.
  eapply (X23_user_created_inactive_is_hidden twoUsers);
    [exact twoUsers_consistent | reflexivity | vm_compute; reflexivity].
Defined.

(** ** The email pattern *)

Lemma chars_append (s t : string) : chars (s ++ t) = (chars s ++ chars t)%list.
Proof.
  induction s as [|c s IH]; [reflexivity |]. rewrite append_cons. simpl.
  rewrite IH. reflexivity.
Qed.

Lemma chars_length (s : string) : List.length (chars s) = String.length s.
Proof. induction s as [|c s IH]; simpl; [reflexivity | rewrite IH; reflexivity]. Qed.

Lemma Matches_alphabet (r : Js.RegExp) (s : string) :
  Js.Matches r s -> Forall (fun c => alphabet r c = true) (chars s).
Proof.
  induction 1 as [|cs c Hc|a b s1 s2 _ IH1 _ IH2|a b s _ IH|a b s _ IH|a|a s1 s2 _ IH1 _ IH2];
    simpl.
  - apply Forall_nil. exact I.
  - apply Forall_cons. split; [exact Hc | apply Forall_nil; exact I].
  - rewrite chars_append. apply Forall_app. split.
    + eapply Forall_impl; [exact IH1 |]. intros c Hc. simpl in Hc. rewrite Hc. reflexivity.
    + eapply Forall_impl; [exact IH2 |]. intros c Hc. simpl in Hc. rewrite Hc.
      apply orb_true_r.
  - eapply Forall_impl; [exact IH |]. intros c Hc. simpl in Hc. rewrite Hc. reflexivity.
  - eapply Forall_impl; [exact IH |]. intros c Hc. simpl in Hc. rewrite Hc. apply orb_true_r.
  - apply Forall_nil. exact I.
  - rewrite chars_append. apply Forall_app. split; [exact IH1 | exact IH2].
Qed.

(** The last repetition of a starred pattern. *)
Lemma Matches_Star_last (a : Js.RegExp) (s : string) :
  Js.Matches (Js.Star a) s ->
  s = "" \/ exists front last, s = front ++ last /\ Js.Matches a last.
Proof.
  intros H. remember (Js.Star a) as r eqn:Hr.
  induction H as [| | | | | |a0 s1 s2 H1 _ H2 IH2]; try discriminate.
  - left. reflexivity.
  - injection Hr as ->. right. destruct (IH2 eq_refl) as [-> | (front & last & -> & Hlast)].
    + exists "", s1. rewrite append_empty_r. split; [reflexivity | exact H1].
    + exists (s1 ++ front), last. rewrite append_assoc. split; [reflexivity | exact Hlast].
Qed.

Lemma Matches_Plus_last (a : Js.RegExp) (s : string) :
  Js.Matches (Js.Plus a) s ->
  exists front last, s = front ++ last /\ Js.Matches a last.
Proof.
  unfold Js.Plus. intros H. apply Matches_Seq in H as (s1 & s2 & -> & H1 & H2).
  apply Matches_Star_last in H2 as [-> | (front & last & -> & Hlast)].
  - exists "", s1. rewrite append_empty_r. split; [reflexivity | exact H1].
  - exists (s1 ++ front), last. rewrite append_assoc. split; [reflexivity | exact Hlast].
Qed.

Lemma Matches_Plus_head (a : Js.RegExp) (s : string) :
  Js.Matches (Js.Plus a) s -> exists s1 s2, s = s1 ++ s2 /\ Js.Matches a s1.
Proof.
  unfold Js.Plus. intros H. apply Matches_Seq in H as (s1 & s2 & -> & H1 & _).
  exists s1, s2. split; [reflexivity | exact H1].
Qed.

Lemma Matches_Class (cs : Js.CharSet) (s : string) :
  Js.Matches (Js.Class cs) s <-> exists c, s = String c "" /\ Js.inCharSet cs c = true.
Proof.
  split.
  - intros H. inversion H; subst. eexists. split; [reflexivity | assumption].
  - intros (c & -> & Hc). constructor. exact Hc.
Qed.

Lemma Matches_Opt (a : Js.RegExp) (s : string) :
  Js.Matches (Js.Opt a) s <-> s = "" \/ Js.Matches a s.
Proof. unfold Js.Opt. rewrite Matches_Or, Matches_Eps. reflexivity. Qed.

Lemma email_alphabet (c : ascii) :
  alphabet UserModel.emailPattern c
  = Js.wordChar c || bool_decide (c ∈ ["."; "-"; "@"]%char).
Proof. destruct c as [[] [] [] [] [] [] [] []]; vm_compute; reflexivity. Qed.

(** X18: a string the email pattern accepts starts with a word
    character, has an [@] before its last dot, ends with a dot followed
    by two or three word characters, and consists of word characters
    (letters, digits, underscore), dots, dashes and [@] only. *)
Theorem X18_accepted_emails (s : string) :
  Js.test UserModel.emailPattern s = true ->
  (exists c rest, s = String c rest /\ Js.wordChar c = true)
  /\ (exists front tld,
        s = front ++ String "." tld
        /\ "@"%char ∈ chars front
        /\ (String.length tld = 2 \/ String.length tld = 3)%nat
        /\ Forall (fun c => Js.wordChar c = true) (chars tld))
  /\ Forall (fun c => Js.wordChar c = true \/ c ∈ ["."; "-"; "@"]%char) (chars s).
Proof.
  intros Ht. apply test_Matches in Ht. split; [| split].
  - unfold UserModel.emailPattern in Ht.
    apply Matches_Seq in Ht as (s1 & s2 & -> & H1 & _).
    apply Matches_Seq in H1 as (w1 & w2 & -> & Hw & _).
    apply Matches_Plus_head in Hw as (h & t & -> & Hh).
    apply Matches_Class in Hh as (c & -> & Hc).
    exists c, ((t ++ w2) ++ s2). rewrite !append_cons, append_empty_l.
    split; [reflexivity | exact Hc].
  - unfold UserModel.emailPattern in Ht.
    apply Matches_Seq in Ht as (s1 & s2 & -> & _ & H2).
    apply Matches_Seq in H2 as (at_ & s3 & -> & Hat & H3).
    apply Matches_Class in Hat as (c & -> & Hc).
    apply bool_decide_eq_true, list_elem_of_singleton in Hc as ->.
    apply Matches_Seq in H3 as (s4 & s5 & -> & _ & H5).
    apply Matches_Plus_last in H5 as (front & last & -> & Hlast).
    apply Matches_Seq in Hlast as (dot & l1 & -> & Hdot & Hl1).
    apply Matches_Class in Hdot as (c & -> & Hc).
    apply bool_decide_eq_true, list_elem_of_singleton in Hc as ->.
    apply Matches_Seq in Hl1 as (x1 & l2 & -> & Hx1 & Hl2).
    apply Matches_Class in Hx1 as (c1 & -> & Hc1).
    apply Matches_Seq in Hl2 as (x2 & l3 & -> & Hx2 & Hl3).
    apply Matches_Class in Hx2 as (c2 & -> & Hc2).
    exists (s1 ++ String "@" (s4 ++ front)), (String c1 (String c2 l3)).
    split; [| split; [| split]].
    + repeat (rewrite append_assoc || rewrite append_cons). reflexivity.
    + rewrite chars_append. simpl. apply elem_of_app. right. apply list_elem_of_here.
    + apply Matches_Opt in Hl3 as [-> | Hl3]; [left; reflexivity |].
      apply Matches_Class in Hl3 as (c3 & -> & _). right. reflexivity.
    + apply Matches_Opt in Hl3 as [-> | Hl3].
      * simpl. repeat (apply Forall_cons; split; [assumption |]). apply Forall_nil. exact I.
      * apply Matches_Class in Hl3 as (c3 & -> & Hc3). simpl.
        repeat (apply Forall_cons; split; [assumption |]). apply Forall_nil. exact I.
  - eapply Forall_impl; [apply Matches_alphabet, Ht |].
    intros c Hc. cbn beta in Hc. rewrite email_alphabet in Hc.
    apply orb_true_iff in Hc as [Hc|Hc]; [left; exact Hc | right].
    apply bool_decide_eq_true in Hc. exact Hc.
Qed.

Lemma X18_accepted_emails_witness :
  exists front tld, "ana.lopez@mail.example.org" = front ++ String "." tld
                    /\ "@"%char ∈ chars front.
Proof.
  destruct (X18_accepted_emails "ana.lopez@mail.example.org") as (_ & Hparts & _);
    [vm_compute; reflexivity |].
  destruct Hparts as (front & tld & Hs & Hat & _).
  exists front, tld. split; [exact Hs | exact Hat].
Defined.

(** ** Updates that collide, ids that are not there *)

(** X24: an update that would give a record the unique key of another
    record is refused by the store and answered 500 with the generic
    update message, the store's message in [details]; nothing is
    written.  This for the email of a user (after its setters) and for
    the number of an analysis. *)
Theorem X24_update_to_a_taken_key_is_500 :
  (forall (db : Db UserModel.Doc) id j u other update e,
     docs db !! id = Some u -> docs db !! j = Some other -> j <> id ->
     UserModel.validateBody (UserModel.castBody update) = [] ->
     UserModel.Body.email update = Some e ->
     UserModel.email other = Some (UserModel.setEmail e) ->
     UserModel.email u <> Some (UserModel.setEmail e) ->
     UsersRouter.put id update db
     = (serverError "Error al actualizar el usuario"
          (duplicateKeyError UserModel.User (Some (UserModel.setEmail e))), db))
  /\ (forall (db : Db AnalisisModel.Doc) id j a other update n,
        docs db !! id = Some a -> docs db !! j = Some other -> j <> id ->
        AnalisisModel.validateBody update = [] ->
        AnalisisModel.Body.numero_analisis update = Some n ->
        AnalisisModel.numero_analisis other = Some n ->
        AnalisisModel.numero_analisis a <> Some n ->
        AnalisisRouter.put id update db
        = (serverError "Error al actualizar el análisis"
             (duplicateKeyError AnalisisModel.Analisis (Some n)), db)).
Proof.
  split.
  - intros db id j u other update e Hu Hj Hne Hv He Hother Hown.
    assert (Hkey : UserModel.email (UserModel.assign (UserModel.castBody update) u)
                   = Some (UserModel.setEmail e)).
    { destruct update as [un ue ua uact uc ut]. simpl in He. subst ue. reflexivity. }
    rewrite (users_put_duplicate id update db u Hv Hu).
    + rewrite Hkey. reflexivity.
    + rewrite Hkey. apply andb_true_iff. split.
      * apply duplicateKey_true. exists j, other. repeat split; assumption.
      * apply bool_decide_eq_true. congruence.
  - intros db id j a other update n Ha Hj Hne Hv Hn Hother Hown.
    assert (Hkey : AnalisisModel.numero_analisis (AnalisisModel.assign update a) = Some n).
    { simpl. rewrite Hn. reflexivity. }
    rewrite (analisis_put_duplicate id update db a Hv Ha).
    + rewrite Hkey. reflexivity.
    + rewrite Hkey. apply andb_true_iff. split.
      * apply duplicateKey_true. exists j, other. repeat split; assumption.
      * apply bool_decide_eq_true. congruence.
Qed.

Lemma X24_update_to_a_taken_key_is_500_witness :
  status (UsersRouter.put 1 (userBody None (Some " ANA@x.com") None) twoUsers).1 = 500.
Proof.
  destruct X24_update_to_a_taken_key_is_500 as [Huser _].
  assert (H : UsersRouter.put 1 (userBody None (Some " ANA@x.com") None) twoUsers
              = (serverError "Error al actualizar el usuario"
                   (duplicateKeyError UserModel.User (Some (UserModel.setEmail " ANA@x.com"))),
                 twoUsers)).
  { eapply (Huser twoUsers 1%N 0%N);
      [ vm_compute; reflexivity | vm_compute; reflexivity | discriminate
      | vm_compute; reflexivity | reflexivity | vm_compute; reflexivity
      | vm_compute; discriminate ]. }
  rewrite H. reflexivity.
Defined.

(** X25: the record a [PUT] answered 200 carries is the record that
    get-by-id answers with right after, for both resources. *)
Theorem X25_put_answer_is_what_get_returns :
  (forall (db : Db UserModel.Doc) id update,
     let updated := UsersRouter.put id update db in
     status updated.1 = 200 ->
     status (UsersRouter.get_by_id id updated.2).1 = 200
     /\ Js.prop "data" (body (UsersRouter.get_by_id id updated.2).1)
        = Js.prop "data" (body updated.1))
  /\ (forall (db : Db AnalisisModel.Doc) id update,
        let updated := AnalisisRouter.put id update db in
        status updated.1 = 200 ->
        status (AnalisisRouter.get_by_id id updated.2).1 = 200
        /\ Js.prop "data" (body (AnalisisRouter.get_by_id id updated.2).1)
           = Js.prop "data" (body updated.1)).
Proof.
  split.
  - intros db id update updated Hs. subst updated.
    destruct (docs db !! id) as [u|] eqn:Hu.
    + rewrite (users_put_200 id update db u Hu Hs). cbn [fst snd].
      rewrite (users_get_by_id_found id _ (UserModel.assign (UserModel.castBody update) u));
        [split; reflexivity | apply lookup_insert_eq].
    + destruct (UserModel.validateBody (UserModel.castBody update)) as [|e es] eqn:Hv.
      * rewrite (users_put_missing id update db Hv Hu) in Hs. discriminate.
      * rewrite (users_put_invalid id update db e es Hv) in Hs. discriminate.
  - intros db id update updated Hs. subst updated.
    destruct (docs db !! id) as [a|] eqn:Ha.
    + rewrite (analisis_put_200 id update db a Ha Hs). cbn [fst snd].
      rewrite (analisis_get_by_id_found id _ (AnalisisModel.assign update a));
        [split; reflexivity | apply lookup_insert_eq].
    + destruct (AnalisisModel.validateBody update) as [|e es] eqn:Hv.
      * rewrite (analisis_put_missing id update db Hv Ha) in Hs. discriminate.
      * rewrite (analisis_put_invalid id update db e es Hv) in Hs. discriminate.
Qed.

Lemma X25_put_answer_is_what_get_returns_witness :
  status (AnalisisRouter.get_by_id 0
            (AnalisisRouter.put 0 (estadoUpdate "cancelado") twoAnalisis).2).1 = 200.
Proof.
  destruct X25_put_answer_is_what_get_returns as [_ Hanalisis].
  apply Hanalisis. vm_compute. reflexivity.
Defined.

(** X26: when the parameter is cast to an ObjectId under which nothing
    is stored, the answer is 404 with the not-found message of the
    resource, and nothing is written: by get-by-id, by delete, and by
    an update whose body passes the update validators. *)
Theorem X26_missing_object_id_is_404
    (castObjectId : string -> option N) (param : string) (id : N) :
  castObjectId param = Some id ->
  (forall db : Db UserModel.Doc,
     docs db !! id = None ->
     UsersRouter.route_get_by_id castObjectId param db
     = (notFound "Usuario no encontrado", db)
     /\ UsersRouter.route_delete castObjectId param db
        = (notFound "Usuario no encontrado", db)
     /\ forall update, UserModel.validateBody (UserModel.castBody update) = [] ->
                       UsersRouter.route_put castObjectId param update db
                       = (notFound "Usuario no encontrado", db))
  /\ (forall db : Db AnalisisModel.Doc,
        docs db !! id = None ->
        AnalisisRouter.route_get_by_id castObjectId param db
        = (notFound "Análisis no encontrado", db)
        /\ AnalisisRouter.route_delete castObjectId param db
           = (notFound "Análisis no encontrado", db)
        /\ forall update, AnalisisModel.validateBody update = [] ->
                          AnalisisRouter.route_put castObjectId param update db
                          = (notFound "Análisis no encontrado", db)).
Proof.
  intros Hcast.
  destruct (users_route_cast castObjectId param id Hcast) as (-> & Hput & ->).
  destruct (analisis_route_cast castObjectId param id Hcast) as (-> & Hput' & ->).
  split.
  - intros db Hnone. split.
    + rewrite (surjective_pairing (UsersRouter.get_by_id id db)).
      rewrite users_get_by_id_db, (users_get_by_id_missing id db Hnone). reflexivity.
    + split; [apply users_delete_missing, Hnone |].
      intros update Hv. rewrite Hput. apply users_put_missing; assumption.
  - intros db Hnone. split.
    + rewrite (surjective_pairing (AnalisisRouter.get_by_id id db)).
      rewrite analisis_get_by_id_db, (analisis_get_by_id_missing id db Hnone). reflexivity.
    + split; [apply analisis_delete_missing, Hnone |].
      intros update Hv. rewrite Hput'. apply analisis_put_missing; assumption.
Qed.

Lemma X26_missing_object_id_is_404_witness :
  UsersRouter.route_delete hexObjectId "0000000000000000000000a9" twoUsers
  = (notFound "Usuario no encontrado", twoUsers).
Proof.
  destruct (X26_missing_object_id_is_404 hexObjectId "0000000000000000000000a9" 169%N eq_refl)
    as [Huser _].
  apply Huser. vm_compute. reflexivity.
Defined.

(** X28: when the parameter is not cast to an ObjectId, the query
    throws before it reads or checks anything, and the handler answers
    500 with its own message, the message of the thrown error in
    [details]; nothing is written.  This for get-by-id, update and
    delete of both resources; the user update answers 500 even when its
    body violates the schema. *)
Theorem X28_malformed_id_is_500 (castObjectId : string -> option N) (param : string) :
  castObjectId param = None ->
  (forall (db : Db UserModel.Doc) update,
     exists error,
       error_name error = "CastError"
       /\ UsersRouter.route_get_by_id castObjectId param db
          = (serverError "Error al obtener el usuario" error, db)
       /\ UsersRouter.route_put castObjectId param update db
          = (serverError "Error al actualizar el usuario" error, db)
       /\ UsersRouter.route_delete castObjectId param db
          = (serverError "Error al eliminar el usuario" error, db))
  /\ (forall (db : Db AnalisisModel.Doc) update,
        exists error,
          error_name error = "CastError"
          /\ AnalisisRouter.route_get_by_id castObjectId param db
             = (serverError "Error al obtener el análisis" error, db)
          /\ AnalisisRouter.route_put castObjectId param update db
             = (serverError "Error al actualizar el análisis" error, db)
          /\ AnalisisRouter.route_delete castObjectId param db
             = (serverError "Error al eliminar el análisis" error, db)).
Proof.
  intros Hcast. split.
  - intros db update.
    destruct (users_route_malformed castObjectId param db Hcast) as (Hget & Hput & Hdel).
    exists (OfParam.castError UserModel.User param).
    split; [reflexivity |]. split; [exact Hget |]. split; [apply Hput | exact Hdel].
  - intros db update.
    destruct (analisis_route_malformed castObjectId param db Hcast) as (Hget & Hput & Hdel).
    exists (OfParam.castError AnalisisModel.Analisis param).
    split; [reflexivity |]. split; [exact Hget |]. split; [apply Hput | exact Hdel].
Qed.

Lemma X28_malformed_id_is_500_witness :
  status (UsersRouter.route_put hexObjectId "abc" (userBody (Some "") None None) twoUsers).1
  = 500
  /\ (AnalisisRouter.route_get_by_id hexObjectId "abc" twoAnalisis).2 = twoAnalisis.
Proof.
  destruct (X28_malformed_id_is_500 hexObjectId "abc" eq_refl) as [Huser Hanalisis]. split.
  - destruct (Huser twoUsers (userBody (Some "") None None)) as (e & _ & _ & -> & _).
    reflexivity.
  - destruct (Hanalisis twoAnalisis (estadoUpdate "x")) as (e & _ & -> & _).
    reflexivity.
Defined.

(** X27: a user created without [isActive] in the body is active: the
    create answers 201 with [isActive: true] in the profile, and the
    list shows the user right after. *)
Theorem X27_user_created_by_default_is_listed
    (db : Db UserModel.Doc) (reqBody : UserModel.Body.t) :
  consistent UserModel.User db ->
  UserModel.Body.isActive reqBody = None ->
  let created := UsersRouter.post reqBody db in
  status created.1 = 201 ->
  (Js.prop "data" (body created.1) ≫= Js.prop "isActive") = Some (Js.Bool true)
  /\ nextId db ∈ listedIds (UsersRouter.get_all created.2).1.
Proof.
  intros Hc Hact created. subst created.
  pose proof (users_consistent (UPost reqBody) db Hc) as Hc'. cbn [handleUser] in Hc'.
  destruct (newUser_run reqBody db)
    as (d & db0 & Hnew & Hdocs & _ & _ & Hid & _ & _ & _ & Hactive & _).
  rewrite Hact in Hactive. simpl in Hactive.
  destruct (UserModel.validate d) as [|x xs] eqn:Hv.
  - destruct (duplicateKey UserModel.User (UserModel._id d) (UserModel.email d) (docs db0))
      eqn:Hdup.
    + rewrite (users_post_duplicate reqBody db db0 d Hnew Hv Hdup). discriminate.
    + rewrite (users_post_created reqBody db db0 d Hnew Hv Hdup) in *. cbn [fst snd] in *.
      intros _.
      set (d' := UserModel.set___v (Some 0)
                   (UserModel.set_updatedAt (clock db0 (ticks db0)) d)) in *.
      split.
      * cbn. rewrite (user_profile_agrees d' "isActive");
          [| apply list_elem_of_further, list_elem_of_further, list_elem_of_further,
               list_elem_of_here].
        rewrite user_json_isActive. simpl. rewrite Hactive. reflexivity.
      * apply users_listed; [exact Hc' |]. exists d'. split; [| exact Hactive].
        simpl. rewrite Hid. apply lookup_insert_eq.
  - rewrite (users_post_invalid reqBody db db0 d x xs Hnew Hv). discriminate.
Qed.

Lemma X27_user_created_by_default_is_listed_witness :
  2%N ∈ listedIds
          (UsersRouter.get_all
             (UsersRouter.post (userBody (Some "Eva") (Some "eva@x.org") None) twoUsers).2).1.
Proof.
  eapply (X27_user_created_by_default_is_listed twoUsers);
    [exact twoUsers_consistent | reflexivity | vm_compute; reflexivity].
Defined.
